(** * Shanghai tick-stream reconstruction: a shallow embedding

    The Python package [sh_tick_reconstruction] splits the merged intraday tick
    feed of one security into an order table and a trade table.  This file
    embeds
    - [models.py]        : the [OrderContext] cache entry and its methods,
    - [time_filter.py]   : [is_continuous_trading_time],
    - [reconstructor.py] : [process_trade], [process_add_order],
                           [process_delete_order], [settle_orders] and the
                           driver [reconstruct_sh_tick_data],
    - [batch.py]         : the per-security loop of [process_daily_data],
    and proves the properties of the design document about them.

    Conventions of the embedding.
    - Python [int] is [Z]; Python [float] is the kernel's binary64 [float];
      [str] is [string].
    - A row of the feed is a record.  The two fields the source tests against
      [None] ([Price], [TradeMoney]) are [option float]; whatever the row
      holds there is what the code stores, so the price fields of the cache
      and of the output records are [option float] too.
    - Arithmetic or comparison on [None] raises [TypeError]; the quantity
      guards of [OrderContext] raise [ValueError].
    - The cache is a Python [dict]: an association list in insertion order,
      with assignment replacing in place or appending.
    - The handlers mutate their arguments.  A handler returns the objects it
      may have mutated as they are when it returns ([Done]) or when the
      exception leaves it ([Raised]). *)

From Stdlib Require Import ZArith List String Bool Lia.
From Stdlib Require Import Sorted Permutation.
From Stdlib Require Import PrimFloat SpecFloat FloatOps FloatAxioms.
Import ListNotations.

Local Open Scope string_scope.
Local Open Scope list_scope.
Local Open Scope Z_scope.

(** ** Python values and exceptions *)

Inductive exn : Type :=
| ValueError
| TypeError.

(** The result of a method that returns a value or raises. *)
Inductive result (A : Type) : Type :=
| Ret (a : A)
| Exc (e : exn).
Arguments Ret {A} a.
Arguments Exc {A} e.

(** The result of a procedure that mutates its arguments: their state when
    it returns, or when the exception leaves it. *)
Inductive outcome (A : Type) : Type :=
| Done (a : A)
| Raised (e : exn) (a : A).
Arguments Done {A} a.
Arguments Raised {A} e a.

Definition state_of {A : Type} (o : outcome A) : A :=
  match o with
  | Done a => a
  | Raised _ a => a
  end.

(** [int -> float] conversion of a mixed product such as [price * qty]:
    round to nearest, ties to even.  The function is total: past the binary64
    range it gives an infinity, where Python raises [OverflowError].  The
    integer columns of the input frame are 64-bit, a range in which the
    conversion never overflows; the statements about a computed product carry
    that range as a hypothesis ([int64] below). *)
Definition float_of_int (z : Z) : float :=
  SF2Prim (binary_normalize prec emax z 0 false).

(** [x > 0] for a value that may be [None]. *)
Definition gt_zero (x : option float) : result bool :=
  match x with
  | Some f => Ret (PrimFloat.ltb 0%float f)
  | None => Exc TypeError
  end.

(** ** models.py *)

Record OrderContext : Type := mkOrderContext {
  order_no : Z;
  side : string;
  first_time : Z;
  first_biz_index : Z;
  trade_qty : Z;
  resting_qty : Z;
  trade_price : option float;
  resting_price : option float;
  is_aggressive : bool;
  has_resting : bool
}.

(** The dataclass constructor with its defaults. *)
Definition new_OrderContext (order_no : Z) (side : string)
    (first_time first_biz_index : Z) : OrderContext :=
  {| order_no := order_no; side := side;
     first_time := first_time; first_biz_index := first_biz_index;
     trade_qty := 0; resting_qty := 0;
     trade_price := Some 0%float; resting_price := Some 0%float;
     is_aggressive := false; has_resting := false |}.

Definition set_trade_qty (ctx : OrderContext) (q : Z) : OrderContext :=
  {| order_no := order_no ctx; side := side ctx;
     first_time := first_time ctx; first_biz_index := first_biz_index ctx;
     trade_qty := q; resting_qty := resting_qty ctx;
     trade_price := trade_price ctx; resting_price := resting_price ctx;
     is_aggressive := is_aggressive ctx; has_resting := has_resting ctx |}.

Definition set_resting_qty (ctx : OrderContext) (q : Z) : OrderContext :=
  {| order_no := order_no ctx; side := side ctx;
     first_time := first_time ctx; first_biz_index := first_biz_index ctx;
     trade_qty := trade_qty ctx; resting_qty := q;
     trade_price := trade_price ctx; resting_price := resting_price ctx;
     is_aggressive := is_aggressive ctx; has_resting := has_resting ctx |}.

Definition set_trade_price (ctx : OrderContext) (p : option float) : OrderContext :=
  {| order_no := order_no ctx; side := side ctx;
     first_time := first_time ctx; first_biz_index := first_biz_index ctx;
     trade_qty := trade_qty ctx; resting_qty := resting_qty ctx;
     trade_price := p; resting_price := resting_price ctx;
     is_aggressive := is_aggressive ctx; has_resting := has_resting ctx |}.

Definition set_resting_price (ctx : OrderContext) (p : option float) : OrderContext :=
  {| order_no := order_no ctx; side := side ctx;
     first_time := first_time ctx; first_biz_index := first_biz_index ctx;
     trade_qty := trade_qty ctx; resting_qty := resting_qty ctx;
     trade_price := trade_price ctx; resting_price := p;
     is_aggressive := is_aggressive ctx; has_resting := has_resting ctx |}.

Definition set_has_resting (ctx : OrderContext) (b : bool) : OrderContext :=
  {| order_no := order_no ctx; side := side ctx;
     first_time := first_time ctx; first_biz_index := first_biz_index ctx;
     trade_qty := trade_qty ctx; resting_qty := resting_qty ctx;
     trade_price := trade_price ctx; resting_price := resting_price ctx;
     is_aggressive := is_aggressive ctx; has_resting := b |}.

(** [OrderContext.add_trade_qty]: the receiver after the call. *)
Definition add_trade_qty (self : OrderContext) (qty : Z) : result OrderContext :=
  if qty <? 0 then Exc ValueError
  else Ret (set_trade_qty self (trade_qty self + qty)).

(** [OrderContext.add_resting_qty]: the receiver after the call. *)
Definition add_resting_qty (self : OrderContext) (qty : Z) : result OrderContext :=
  if qty <? 0 then Exc ValueError
  else Ret (set_resting_qty self (resting_qty self + qty)).

(** [OrderContext.get_price]:
    [self.resting_price if self.resting_price > 0 else self.trade_price]. *)
Definition get_price (self : OrderContext) : result (option float) :=
  match gt_zero (resting_price self) with
  | Exc e => Exc e
  | Ret true => Ret (resting_price self)
  | Ret false => Ret (trade_price self)
  end.

(** [OrderContext.get_total_qty]. *)
Definition get_total_qty (self : OrderContext) : Z :=
  trade_qty self + resting_qty self.

(** ** time_filter.py *)

Definition MORNING_START : Z := 93000000.
Definition MORNING_END : Z := 113000000.
Definition AFTERNOON_START : Z := 130000000.
Definition AFTERNOON_END : Z := 150000000.

Definition is_continuous_trading_time (tick_time : Z) : bool :=
  if (MORNING_START <=? tick_time) && (tick_time <? MORNING_END) then true
  else if (AFTERNOON_START <=? tick_time) && (tick_time <? AFTERNOON_END) then true
  else false.

(** ** The input rows and the output records *)

Record Row : Type := mkRow {
  BizIndex : Z;
  TickTime : Z;
  Type_ : string;
  BuyOrderNO : Z;
  SellOrderNO : Z;
  Price : option float;
  Qty : Z;
  TradeMoney : option float;
  TickBSFlag : string;
  SecurityID : string
}.

Record TradeRecord : Type := mkTradeRecord {
  tr_SecurityID : string;
  tr_BizIndex : Z;
  tr_TickTime : Z;
  tr_BidOrdID : Z;
  tr_AskOrdID : Z;
  tr_Price : option float;
  tr_Qty : Z;
  tr_TradeMoney : float;
  tr_ActiveSide : Z
}.

Record OrderRecord : Type := mkOrderRecord {
  or_SecurityID : string;
  or_BizIndex : Z;
  or_TickTime : Z;
  or_OrdID : Z;
  or_OrdType : string;
  or_Side : string;
  or_Price : option float;
  or_Qty : Z;
  or_IsAggressive : option bool
}.

(** ** The order cache: a Python dict keyed by order number *)

Definition OrderMap : Type := list (Z * OrderContext).

(** [order_map[k]] when [k in order_map]. *)
Fixpoint dict_get (k : Z) (m : OrderMap) : option OrderContext :=
  match m with
  | [] => None
  | (k', v) :: m' => if k =? k' then Some v else dict_get k m'
  end.

(** [order_map[k] = v]: in place when the key is there, appended otherwise. *)
Fixpoint dict_set (k : Z) (v : OrderContext) (m : OrderMap) : OrderMap :=
  match m with
  | [] => [(k, v)]
  | (k', v') :: m' =>
      if k =? k' then (k', v) :: m' else (k', v') :: dict_set k v m'
  end.

(** ** reconstructor.py *)

(** [process_trade(row, order_map, trade_list, security_id)]. *)
Definition process_trade (row : Row) (order_map : OrderMap)
    (trade_list : list TradeRecord) (security_id : string)
  : outcome (OrderMap * list TradeRecord) :=
  (* Step 1 *)
  let biz_index := BizIndex row in
  let tick_time := TickTime row in
  let buy_order_no := BuyOrderNO row in
  let sell_order_no := SellOrderNO row in
  let price := Price row in
  let qty := Qty row in
  let bs_flag := TickBSFlag row in
  (* Step 2 *)
  let '(active_side, active_order_no, active_side_char) :=
    if (bs_flag =? "B")%string then (1, Some buy_order_no, "B")
    else if (bs_flag =? "S")%string then (2, Some sell_order_no, "S")
    else (0, None, "") (* active_side_char = None: never stored, Step 4 returns *) in
  (* Step 3 *)
  let trade_money : result float :=
    match TradeMoney row with
    | Some m =>
        if PrimFloat.eqb m 0%float then
          match price with
          | Some p => Ret (PrimFloat.mul p (float_of_int qty))
          | None => Exc TypeError
          end
        else Ret m
    | None =>
        match price with
        | Some p => Ret (PrimFloat.mul p (float_of_int qty))
        | None => Exc TypeError
        end
    end in
  match trade_money with
  | Exc e => Raised e (order_map, trade_list)
  | Ret trade_money =>
      let trade_record :=
        {| tr_SecurityID := security_id;
           tr_BizIndex := biz_index;
           tr_TickTime := tick_time;
           tr_BidOrdID := buy_order_no;
           tr_AskOrdID := sell_order_no;
           tr_Price := price;
           tr_Qty := qty;
           tr_TradeMoney := trade_money;
           tr_ActiveSide := active_side |} in
      let trade_list := trade_list ++ [trade_record] in
      (* Step 4 *)
      match active_order_no with
      | None => Done (order_map, trade_list)
      | Some active_order_no =>
          (* Step 5 *)
          match dict_get active_order_no order_map with
          | Some ctx =>
              match add_trade_qty ctx qty with
              | Exc e => Raised e (order_map, trade_list)
              | Ret ctx =>
                  let ctx := set_trade_price ctx price in
                  Done (dict_set active_order_no ctx order_map, trade_list)
              end
          | None =>
              let ctx :=
                {| order_no := active_order_no;
                   side := active_side_char;
                   first_time := tick_time;
                   first_biz_index := biz_index;
                   trade_qty := qty;
                   resting_qty := 0;
                   trade_price := price;
                   resting_price := Some 0%float;
                   is_aggressive := true;
                   has_resting := false |} in
              Done (dict_set active_order_no ctx order_map, trade_list)
          end
      end
  end.

(** [process_add_order(row, order_map)]. *)
Definition process_add_order (row : Row) (order_map : OrderMap)
  : outcome OrderMap :=
  (* Step 1 *)
  let bs_flag := TickBSFlag row in
  let '(order_no, side) :=
    if (bs_flag =? "B")%string then (BuyOrderNO row, "B")
    else (SellOrderNO row, "S") in
  (* Step 2 *)
  match dict_get order_no order_map with
  | Some ctx =>
      match add_resting_qty ctx (Qty row) with
      | Exc e => Raised e order_map
      | Ret ctx =>
          let ctx := set_resting_price ctx (Price row) in
          let ctx := set_has_resting ctx true in
          Done (dict_set order_no ctx order_map)
      end
  | None =>
      let ctx := new_OrderContext order_no side (TickTime row) (BizIndex row) in
      match add_resting_qty ctx (Qty row) with
      | Exc e => Raised e order_map
      | Ret ctx =>
          let ctx := set_resting_price ctx (Price row) in
          let ctx := set_has_resting ctx true in
          Done (dict_set order_no ctx order_map)
      end
  end.

(** [process_delete_order(row, order_map, order_list, last_price, security_id)]. *)
Definition process_delete_order (row : Row) (order_map : OrderMap)
    (order_list : list OrderRecord) (last_price : float) (security_id : string)
  : outcome (OrderMap * list OrderRecord) :=
  (* Step 1 *)
  let bs_flag := TickBSFlag row in
  let '(order_no, side) :=
    if (bs_flag =? "B")%string then (BuyOrderNO row, "B")
    else (SellOrderNO row, "S") in
  (* Step 2 *)
  let raw_price := Price row in
  let cancel_price : result (option float) :=
    if match raw_price with
       | Some p => PrimFloat.ltb 0%float p
       | None => false
       end
    then Ret raw_price
    else
      match dict_get order_no order_map with
      | Some ctx => get_price ctx
      | None => Ret (Some last_price)
      end in
  (* Step 3 *)
  match cancel_price with
  | Exc e => Raised e (order_map, order_list)
  | Ret cancel_price =>
      let cancel_record :=
        {| or_SecurityID := security_id;
           or_BizIndex := BizIndex row;
           or_TickTime := TickTime row;
           or_OrdID := order_no;
           or_OrdType := "Cancel";
           or_Side := side;
           or_Price := cancel_price;
           or_Qty := Qty row;
           or_IsAggressive := None |} in
      Done (order_map, order_list ++ [cancel_record])
  end.

(** [settle_orders(order_map, order_list, security_id)]; the loop runs over
    [order_map.items()], here the items still to visit. *)
Fixpoint settle_items (items : OrderMap) (order_list : list OrderRecord)
    (security_id : string) : outcome (list OrderRecord) :=
  match items with
  | [] => Done order_list
  | (order_no, ctx) :: items =>
      let total_qty := trade_qty ctx + resting_qty ctx in
      if total_qty <=? 0 then settle_items items order_list security_id
      else
        match gt_zero (resting_price ctx) with
        | Exc e => Raised e order_list
        | Ret b =>
            let price := if b then resting_price ctx else trade_price ctx in
            let order_record :=
              {| or_SecurityID := security_id;
                 or_BizIndex := first_biz_index ctx;
                 or_TickTime := first_time ctx;
                 or_OrdID := order_no;
                 or_OrdType := "New";
                 or_Side := side ctx;
                 or_Price := price;
                 or_Qty := total_qty;
                 or_IsAggressive := Some (is_aggressive ctx) |} in
            settle_items items (order_list ++ [order_record]) security_id
        end
  end.

Definition settle_orders (order_map : OrderMap) (order_list : list OrderRecord)
    (security_id : string) : outcome (OrderMap * list OrderRecord) :=
  match settle_items order_map order_list security_id with
  | Done l => Done (order_map, l)
  | Raised e l => Raised e (order_map, l)
  end.

(** The sort key [(TickTime, BizIndex)], compared as Python compares tuples. *)
Definition key_le (a b : Z * Z) : bool :=
  (fst a <? fst b) || ((fst a =? fst b) && (snd a <=? snd b)).

(** A stable ascending sort on a key, as [list.sort(key=...)] is.  The
    frame's [sort] on the input rows is modelled by the same function.  The
    frame's [sort] promises no order among rows that agree on both columns;
    the model fixes one, and a statement below that speaks of the sorted
    rows speaks of them through [preprocess], so it holds for that choice
    and claims nothing about the order the frame gives to such rows. *)
Fixpoint insert_by_key {A : Type} (key : A -> Z * Z) (x : A) (l : list A) : list A :=
  match l with
  | [] => [x]
  | y :: l' =>
      if key_le (key x) (key y) then x :: y :: l'
      else y :: insert_by_key key x l'
  end.

Fixpoint sort_by_key {A : Type} (key : A -> Z * Z) (l : list A) : list A :=
  match l with
  | [] => []
  | x :: l' => insert_by_key key x (sort_by_key key l')
  end.

(** The local variables of [reconstruct_sh_tick_data] that the loop updates. *)
Record State : Type := mkState {
  st_order_map : OrderMap;
  st_order_list : list OrderRecord;
  st_trade_list : list TradeRecord;
  st_last_price : float
}.

Definition init_state : State :=
  {| st_order_map := []; st_order_list := []; st_trade_list := [];
     st_last_price := 0%float |}.

(** The body of the loop [for row in rows] of [reconstruct_sh_tick_data]. *)
Definition process_row (security_id : string) (row : Row) (st : State)
  : outcome State :=
  let record_type := Type_ row in
  if (record_type =? "T")%string then
    match process_trade row (st_order_map st) (st_trade_list st) security_id with
    | Raised e (om, tl) =>
        Raised e {| st_order_map := om; st_order_list := st_order_list st;
                    st_trade_list := tl; st_last_price := st_last_price st |}
    | Done (om, tl) =>
        let price := Price row in
        let last_price :=
          match price with
          | Some p => if PrimFloat.ltb 0%float p then p else st_last_price st
          | None => st_last_price st
          end in
        Done {| st_order_map := om; st_order_list := st_order_list st;
                st_trade_list := tl; st_last_price := last_price |}
    end
  else if (record_type =? "A")%string then
    match process_add_order row (st_order_map st) with
    | Raised e om =>
        Raised e {| st_order_map := om; st_order_list := st_order_list st;
                    st_trade_list := st_trade_list st;
                    st_last_price := st_last_price st |}
    | Done om =>
        Done {| st_order_map := om; st_order_list := st_order_list st;
                st_trade_list := st_trade_list st;
                st_last_price := st_last_price st |}
    end
  else if (record_type =? "D")%string then
    match process_delete_order row (st_order_map st) (st_order_list st)
            (st_last_price st) security_id with
    | Raised e (om, ol) =>
        Raised e {| st_order_map := om; st_order_list := ol;
                    st_trade_list := st_trade_list st;
                    st_last_price := st_last_price st |}
    | Done (om, ol) =>
        Done {| st_order_map := om; st_order_list := ol;
                st_trade_list := st_trade_list st;
                st_last_price := st_last_price st |}
    end
  else Done st.

(** The loop [for row in rows]: an exception ends it. *)
Fixpoint process_rows (security_id : string) (rows : list Row) (st : State)
  : outcome State :=
  match rows with
  | [] => Done st
  | row :: rows' =>
      match process_row security_id row st with
      | Done st' => process_rows security_id rows' st'
      | Raised e st' => Raised e st'
      end
  end.

(** Step 1 of [reconstruct_sh_tick_data]: drop [Type = 'S'], keep the
    continuous session, sort on [(TickTime, BizIndex)]. *)
Definition keep_row (row : Row) : bool :=
  negb (Type_ row =? "S")%string && is_continuous_trading_time (TickTime row).

Definition preprocess (df : list Row) : list Row :=
  sort_by_key (fun row => (TickTime row, BizIndex row)) (filter keep_row df).

(** [reconstruct_sh_tick_data(df, security_id)]: the two sorted lists, or the
    exception that a handler raised. *)
Definition reconstruct_sh_tick_data (df : list Row) (security_id : string)
  : result (list OrderRecord * list TradeRecord) :=
  let rows := preprocess df in
  match process_rows security_id rows init_state with
  | Raised e _ => Exc e
  | Done st =>
      match settle_orders (st_order_map st) (st_order_list st) security_id with
      | Raised e _ => Exc e
      | Done (_, order_list) =>
          Ret (sort_by_key (fun x => (or_TickTime x, or_BizIndex x)) order_list,
               sort_by_key (fun x => (tr_TickTime x, tr_BizIndex x))
                 (st_trade_list st))
      end
  end.

(** ** batch.py *)

(** [df['SecurityID'].unique().sort().to_list()]. *)
Fixpoint insert_string (x : string) (l : list string) : list string :=
  match l with
  | [] => [x]
  | y :: l' => if String.leb x y then x :: y :: l' else y :: insert_string x l'
  end.

Definition sort_strings (l : list string) : list string :=
  fold_right insert_string [] l.

Definition security_ids_of (df : list Row) : list string :=
  sort_strings (nodup string_dec (map SecurityID df)).

(** What the loop of [process_daily_data] has produced so far: the calls
    received by the observer, and the two accumulated lists. *)
Record Batch : Type := mkBatch {
  callback_calls : list (string * Z * Z);
  all_orders : list OrderRecord;
  all_trades : list TradeRecord
}.

(** Step 2 of [process_daily_data]: the loop
    [for i, security_id in enumerate(security_ids)], from index [i] on. *)
Fixpoint daily_loop (df : list Row) (progress_callback : bool)
    (total_securities : Z) (i : Z) (security_ids : list string) (b : Batch)
  : outcome Batch :=
  match security_ids with
  | [] => Done b
  | security_id :: rest =>
      let calls :=
        if progress_callback
        then callback_calls b ++ [(security_id, i + 1, total_securities)]
        else callback_calls b in
      let group_df := filter (fun row => (SecurityID row =? security_id)%string) df in
      match reconstruct_sh_tick_data group_df security_id with
      | Exc e =>
          Raised e {| callback_calls := calls; all_orders := all_orders b;
                      all_trades := all_trades b |}
      | Ret (orders, trades) =>
          daily_loop df progress_callback total_securities (i + 1) rest
            {| callback_calls := calls;
               all_orders := all_orders b ++ orders;
               all_trades := all_trades b ++ trades |}
      end
  end.

(** Steps 1 and 2 of [process_daily_data] on the frame read from the input
    file; the later steps build, sort and write the tables and do not call
    the observer. *)
Definition process_daily_data (df : list Row) (progress_callback : bool)
  : outcome Batch :=
  let security_ids := security_ids_of df in
  let total_securities := Z.of_nat (List.length security_ids) in
  daily_loop df progress_callback total_securities 0 security_ids
    {| callback_calls := []; all_orders := []; all_trades := [] |}.

(** ** time_filter.py: the session names and the clock fields *)

Definition OPEN_AUCTION_START : Z := 91500000.
Definition OPEN_AUCTION_END : Z := 92500000.

(** [get_trading_session(tick_time)]. *)
Definition get_trading_session (tick_time : Z) : string :=
  if tick_time <? OPEN_AUCTION_START then "closed"
  else if tick_time <? OPEN_AUCTION_END then "morning_auction"
  else if tick_time <? MORNING_START then "silent_period"
  else if tick_time <? MORNING_END then "morning_continuous"
  else if tick_time <? AFTERNOON_START then "lunch_break"
  else if tick_time <? AFTERNOON_END then "afternoon_continuous"
  else "closed".

(** [parse_tick_time(tick_time)]: [(hour, minute, second, millisecond)];
    [//] and [%] round towards minus infinity, as [/] and [mod] on [Z] do. *)
Definition parse_tick_time (tick_time : Z) : Z * Z * Z * Z :=
  let millisecond := tick_time mod 1000 in
  let tick_time := tick_time / 1000 in
  let second := tick_time mod 100 in
  let tick_time := tick_time / 100 in
  let minute := tick_time mod 100 in
  let hour := tick_time / 100 in
  (hour, minute, second, millisecond).

(** ** reconstructor.py: the helpers *)

(** The columns that [validate_input_df] requires. *)
Definition required_columns : list string :=
  ["BizIndex"; "TickTime"; "Type"; "BuyOrderNO"; "SellOrderNO";
   "Price"; "Qty"; "TradeMoney"; "TickBSFlag"; "SecurityID"].

(** [validate_input_df(df)], on the column names of the frame. *)
Definition validate_input_df (columns : list string) : result bool :=
  let missing :=
    filter (fun col => negb (existsb (String.eqb col) columns)) required_columns in
  match missing with
  | [] => Ret true
  | _ :: _ => Exc ValueError
  end.

Record ProcessingStats : Type := mkProcessingStats {
  original_rows : nat;
  filtered_rows : nat;
  output_orders : nat;
  output_trades : nat;
  new_orders : nat;
  cancel_orders : nat;
  aggressive_orders : nat;
  passive_orders : nat
}.

(** [o.get('IsAggressive') == True] and [== False]: [None] equals neither. *)
Definition is_aggressive_eq (o : OrderRecord) (b : bool) : bool :=
  match or_IsAggressive o with
  | Some b' => Bool.eqb b' b
  | None => false
  end.

(** [get_processing_stats(df_original, df_filtered, order_list, trade_list)]. *)
Definition get_processing_stats (df_original df_filtered : list Row)
    (order_list : list OrderRecord) (trade_list : list TradeRecord)
  : ProcessingStats :=
  {| original_rows := List.length df_original;
     filtered_rows := List.length df_filtered;
     output_orders := List.length order_list;
     output_trades := List.length trade_list;
     new_orders :=
       List.length (filter (fun o => (or_OrdType o =? "New")%string) order_list);
     cancel_orders :=
       List.length (filter (fun o => (or_OrdType o =? "Cancel")%string) order_list);
     aggressive_orders :=
       List.length
         (filter (fun o => (or_OrdType o =? "New")%string && is_aggressive_eq o true)
            order_list);
     passive_orders :=
       List.length
         (filter (fun o => (or_OrdType o =? "New")%string && is_aggressive_eq o false)
            order_list) |}.

(** ** scripts/validate_output.py: the checks on the order table *)

(** [verify_channel_math(orders_df)], on the rows of the table; a filter on
    [IsAggressive == True] or [== False] drops the rows where it is null. *)
Definition verify_channel_math (orders_df : list OrderRecord) : bool :=
  if (List.length orders_df =? 0)%nat then true
  else
    let new_orders := filter (fun o => (or_OrdType o =? "New")%string) orders_df in
    let ch7 := List.length (filter (fun o => (or_Side o =? "B")%string) new_orders) in
    let ch8 := List.length (filter (fun o => (or_Side o =? "S")%string) new_orders) in
    let ch9 :=
      List.length
        (filter (fun o => (or_Side o =? "B")%string && is_aggressive_eq o true)
           new_orders) in
    let ch10 :=
      List.length
        (filter (fun o => (or_Side o =? "S")%string && is_aggressive_eq o true)
           new_orders) in
    let ch11 :=
      List.length
        (filter (fun o => (or_Side o =? "B")%string && is_aggressive_eq o false)
           new_orders) in
    let ch12 :=
      List.length
        (filter (fun o => (or_Side o =? "S")%string && is_aggressive_eq o false)
           new_orders) in
    let buy_match := (ch7 =? ch9 + ch11)%nat in
    let sell_match := (ch8 =? ch10 + ch12)%nat in
    buy_match && sell_match.

(** [is_null] and [is_not_null] on the [IsAggressive] column. *)
Definition is_null (o : OrderRecord) : bool :=
  match or_IsAggressive o with
  | Some _ => false
  | None => true
  end.

(** [verify_is_aggressive(orders_df)]. *)
Definition verify_is_aggressive (orders_df : list OrderRecord) : bool :=
  if (List.length orders_df =? 0)%nat then true
  else
    let new_orders := filter (fun o => (or_OrdType o =? "New")%string) orders_df in
    let cancel_orders :=
      filter (fun o => (or_OrdType o =? "Cancel")%string) orders_df in
    let cancel_not_none :=
      List.length (filter (fun o => negb (is_null o)) cancel_orders) in
    if (0 <? cancel_not_none)%nat then false
    else
      let new_is_none := List.length (filter is_null new_orders) in
      if (0 <? new_is_none)%nat then false
      else true.

(** ** batch.py: the continuity check *)

(** [df.sort('BizIndex')['BizIndex'].to_list()]: the column in ascending
    order. *)
Fixpoint insert_Z (x : Z) (l : list Z) : list Z :=
  match l with
  | [] => [x]
  | y :: l' => if x <=? y then x :: y :: l' else y :: insert_Z x l'
  end.

Definition sort_Z (l : list Z) : list Z := fold_right insert_Z [] l.

(** [range(lo, hi)]. *)
Definition range (lo hi : Z) : list Z :=
  map (fun n => lo + Z.of_nat n) (seq 0 (Z.to_nat (hi - lo))).

(** The loop [for i in range(min_idx, max_idx + 1)] of
    [check_bizindex_continuity], over the values still to visit; it stops at
    ten gaps. *)
Fixpoint find_gaps (biz_set : list Z) (candidates : list Z) (gaps : list Z)
  : list Z :=
  match candidates with
  | [] => gaps
  | i :: rest =>
      if existsb (Z.eqb i) biz_set then find_gaps biz_set rest gaps
      else
        let gaps := gaps ++ [i] in
        if (10 <=? List.length gaps)%nat then gaps
        else find_gaps biz_set rest gaps
  end.

Record Continuity : Type := mkContinuity {
  is_continuous : bool;
  total_records : Z;
  min_bizindex : option Z;
  max_bizindex : option Z;
  expected_count : Z;
  gap_count : Z;
  gaps : list Z
}.

(** [check_bizindex_continuity(df)], on the [BizIndex] column of the frame:
    [None] when the frame has no such column. *)
Definition check_bizindex_continuity (biz_column : option (list Z))
  : result Continuity :=
  match biz_column with
  | None => Exc ValueError
  | Some column =>
      if (List.length column =? 0)%nat then
        Ret {| is_continuous := true; total_records := 0;
               min_bizindex := None; max_bizindex := None;
               expected_count := 0; gap_count := 0; gaps := [] |}
      else
        let biz_indices := sort_Z column in
        let min_idx := hd 0 biz_indices in
        let max_idx := last biz_indices 0 in
        let expected_count := max_idx - min_idx + 1 in
        let actual_count := Z.of_nat (List.length biz_indices) in
        let gap_count := expected_count - actual_count in
        let gaps :=
          if 0 <? gap_count
          then find_gaps biz_indices (range min_idx (max_idx + 1)) []
          else [] in
        Ret {| is_continuous := gap_count =? 0;
               total_records := actual_count;
               min_bizindex := Some min_idx;
               max_bizindex := Some max_idx;
               expected_count := expected_count;
               gap_count := gap_count;
               gaps := gaps |}
  end.

(** * Vocabulary of the statements *)

(** The same row with another [TickBSFlag]. *)
Definition with_flag (row : Row) (flag : string) : Row :=
  {| BizIndex := BizIndex row; TickTime := TickTime row; Type_ := Type_ row;
     BuyOrderNO := BuyOrderNO row; SellOrderNO := SellOrderNO row;
     Price := Price row; Qty := Qty row; TradeMoney := TradeMoney row;
     TickBSFlag := flag; SecurityID := SecurityID row |}.

(** The price test of level 0 of the cancel-price fallback. *)
Definition raw_price_positive (row : Row) : bool :=
  match Price row with
  | Some p => PrimFloat.ltb 0%float p
  | None => false
  end.

(** The order number that an Add or a Delete row names. *)
Definition named_order_no (row : Row) : Z :=
  if (TickBSFlag row =? "B")%string then BuyOrderNO row else SellOrderNO row.

Definition named_side (row : Row) : string :=
  if (TickBSFlag row =? "B")%string then "B" else "S".

(** [r] is a Cancel record made from the Delete row [row]. *)
Definition is_cancel_of (row : Row) (security_id : string) (r : OrderRecord) : Prop :=
  or_SecurityID r = security_id /\
  or_BizIndex r = BizIndex row /\
  or_TickTime r = TickTime row /\
  or_OrdID r = named_order_no row /\
  or_OrdType r = "Cancel" /\
  or_Side r = named_side row /\
  or_Qty r = Qty row /\
  or_IsAggressive r = None.

(** The range of the frame's 64-bit integer columns. *)
Definition int64 (z : Z) : Prop :=
  -9223372036854775808 <= z <= 9223372036854775807.

(** Scenario D of the design document, with the rows of the source's own
    end-to-end test: Add 1000 @ 70.0 for buy order 4001, then its Delete with
    quantity 500 and price 0. *)
Definition scenario_D : list Row :=
  [ mkRow 400 93003000 "A" 4001 0 (Some 70%float) 1000 (Some 0%float) "B" "600519";
    mkRow 401 93003500 "D" 4001 0 (Some 0%float) 500 (Some 0%float) "B" "600519" ].

(** The Add row and the Delete row of scenario D, and the state of the loop
    after the Add row: the cache holds order 4001. *)
Definition add_4001 : Row :=
  mkRow 400 93003000 "A" 4001 0 (Some 70%float) 1000 (Some 0%float) "B" "600519".

Definition delete_4001 : Row :=
  mkRow 401 93003500 "D" 4001 0 (Some 0%float) 500 (Some 0%float) "B" "600519".

Definition state_with_4001 : State :=
  state_of (process_row "600519" add_4001 init_state).

(** A trade between buy order 1001 and sell order 2001, flag to be set. *)
Definition sample_trade : Row :=
  mkRow 100 93000100 "T" 1001 2001 (Some 50.5%float) 1000 (Some 50500%float) "N" "600519".

(** The [ActiveSide] code of a Trade row. *)
Definition active_side_of (row : Row) : Z :=
  if (TickBSFlag row =? "B")%string then 1
  else if (TickBSFlag row =? "S")%string then 2
  else 0.

(** [r] is a trade record made from the Trade row [row], its [TradeMoney]
    apart. *)
Definition is_trade_of (row : Row) (security_id : string) (r : TradeRecord) : Prop :=
  tr_SecurityID r = security_id /\
  tr_BizIndex r = BizIndex row /\
  tr_TickTime r = TickTime row /\
  tr_BidOrdID r = BuyOrderNO row /\
  tr_AskOrdID r = SellOrderNO row /\
  tr_Price r = Price row /\
  tr_Qty r = Qty row /\
  tr_ActiveSide r = active_side_of row.

(** The trade money as the design document words it: the row's value when
    present and strictly positive, [price * qty] otherwise. *)
Definition documented_trade_money (row : Row) (price : float) : float :=
  match TradeMoney row with
  | Some m =>
      if PrimFloat.ltb 0%float m then m
      else PrimFloat.mul price (float_of_int (Qty row))
  | None => PrimFloat.mul price (float_of_int (Qty row))
  end.

(** A trade whose [TradeMoney] is negative. *)
Definition negative_money_trade : Row :=
  mkRow 100 93000100 "T" 1001 2001 (Some 10%float) 100 (Some (-1)%float) "B" "600519".

(** A first trade of buy order 1001 with a negative quantity, and a second,
    ordinary trade of the same order. *)
Definition negative_qty_trade : Row :=
  mkRow 100 93000100 "T" 1001 2001 (Some 10%float) (-100) (Some 1000%float) "B" "600519".

Definition second_trade : Row :=
  mkRow 101 93000200 "T" 1001 2002 (Some 10%float) 300 (Some 3000%float) "B" "600519".

(** The number of Trade rows of a list. *)
Definition count_trades (rows : list Row) : nat :=
  List.length (filter (fun row => (Type_ row =? "T")%string) rows).

(** The order number that a row brings into the cache or updates there: the
    aggressor of a Trade row flagged ['B'] or ['S'], the order named by an Add
    row; no other row writes the cache. *)
Definition cache_id (row : Row) : option Z :=
  if (Type_ row =? "T")%string then
    if (TickBSFlag row =? "B")%string then Some (BuyOrderNO row)
    else if (TickBSFlag row =? "S")%string then Some (SellOrderNO row)
    else None
  else if (Type_ row =? "A")%string then Some (named_order_no row)
  else None.

Definition refers_to (k : Z) (row : Row) : bool :=
  match cache_id row with
  | Some k' => k =? k'
  | None => false
  end.

(** The first row of the sequence that refers to order [k]. *)
Definition first_ref (k : Z) (rows : list Row) : option Row :=
  find (refers_to k) rows.

(** The sum of [Qty] over the rows that refer to order [k]. *)
Fixpoint sum_qty (k : Z) (rows : list Row) : Z :=
  match rows with
  | [] => 0
  | row :: rows' =>
      (if refers_to k row then Qty row else 0) + sum_qty k rows'
  end.

(** Every cached context has a [resting_price] that is a number. *)
Definition priced (m : OrderMap) : Prop :=
  forall k c, In (k, c) m -> resting_price c <> None.

(** The context of order [k] after a row that refers to it, from the context
    before it, if any. *)
Definition next_ctx (row : Row) (k : Z) (old : option OrderContext) : OrderContext :=
  if (Type_ row =? "T")%string then
    match old with
    | Some c => set_trade_price (set_trade_qty c (trade_qty c + Qty row)) (Price row)
    | None =>
        {| order_no := k; side := TickBSFlag row;
           first_time := TickTime row; first_biz_index := BizIndex row;
           trade_qty := Qty row; resting_qty := 0;
           trade_price := Price row; resting_price := Some 0%float;
           is_aggressive := true; has_resting := false |}
    end
  else
    match old with
    | Some c =>
        set_has_resting
          (set_resting_price (set_resting_qty c (resting_qty c + Qty row))
             (Price row)) true
    | None =>
        {| order_no := k; side := named_side row;
           first_time := TickTime row; first_biz_index := BizIndex row;
           trade_qty := 0; resting_qty := Qty row;
           trade_price := Some 0%float; resting_price := Price row;
           is_aggressive := false; has_resting := true |}
    end.

(** The fields of a context that are fixed when it is created. *)
Definition same_birth (c c' : OrderContext) : Prop :=
  is_aggressive c' = is_aggressive c /\
  first_time c' = first_time c /\
  first_biz_index c' = first_biz_index c /\
  side c' = side c /\
  order_no c' = order_no c.

(** The price of a settled order: [resting_price] when strictly positive,
    else [trade_price]. *)
Definition effective_price (ctx : OrderContext) : option float :=
  match resting_price ctx with
  | Some rp => if PrimFloat.ltb 0%float rp then Some rp else trade_price ctx
  | None => None
  end.

(** The New record of the cache entry [(k, ctx)]. *)
Definition settled_record (security_id : string) (k : Z) (ctx : OrderContext)
  : OrderRecord :=
  {| or_SecurityID := security_id;
     or_BizIndex := first_biz_index ctx;
     or_TickTime := first_time ctx;
     or_OrdID := k;
     or_OrdType := "New";
     or_Side := side ctx;
     or_Price := effective_price ctx;
     or_Qty := trade_qty ctx + resting_qty ctx;
     or_IsAggressive := Some (is_aggressive ctx) |}.

(** One New record per entry with a positive total, in cache order. *)
Fixpoint settled_records (security_id : string) (items : OrderMap)
  : list OrderRecord :=
  match items with
  | [] => []
  | (k, ctx) :: items' =>
      if trade_qty ctx + resting_qty ctx <=? 0
      then settled_records security_id items'
      else settled_record security_id k ctx :: settled_records security_id items'
  end.

(** A row that no handler rejects: a quantity that is not negative and a
    price that is a number. *)
Definition well_formed_row (row : Row) : Prop :=
  0 <= Qty row /\ Price row <> None.

(** Scenario B of the design document, with the rows of the source's own
    end-to-end test: buy order 1002 trades 600 @ 60.0 and then posts the
    remaining 400 @ 60.5. *)
Definition scenario_B : list Row :=
  [ mkRow 200 93001000 "T" 1002 2002 (Some 60%float) 600 (Some 36000%float) "B" "600519";
    mkRow 201 93001100 "A" 1002 0 (Some 60.5%float) 400 (Some 0%float) "B" "600519" ].

(** Scenario C: a lone Add of 2000 @ 45.0 for sell order 3001. *)
Definition scenario_C : list Row :=
  [ mkRow 300 93002000 "A" 0 3001 (Some 45%float) 2000 (Some 0%float) "S" "600519" ].

(** The calls [(security_id, position, total)] for a list of securities, the
    first of which stands at index [i]. *)
Fixpoint numbered (i total : Z) (ids : list string) : list (string * Z * Z) :=
  match ids with
  | [] => []
  | security_id :: rest => (security_id, i + 1, total) :: numbered (i + 1) total rest
  end.

(** The rows of one security. *)
Definition group_of (df : list Row) (security_id : string) : list Row :=
  filter (fun row => (SecurityID row =? security_id)%string) df.

(** The securities whose reconstruction the loop starts: all of them up to
    and including the first one whose reconstruction raises. *)
Fixpoint started (df : list Row) (ids : list string) : list string :=
  match ids with
  | [] => []
  | security_id :: rest =>
      security_id ::
      match reconstruct_sh_tick_data (group_of df security_id) security_id with
      | Ret _ => started df rest
      | Exc _ => []
      end
  end.

(** The securities whose reconstruction the loop completes: those before the
    first one whose reconstruction raises. *)
Fixpoint completed (df : list Row) (ids : list string) : list string :=
  match ids with
  | [] => []
  | security_id :: rest =>
      match reconstruct_sh_tick_data (group_of df security_id) security_id with
      | Ret _ => security_id :: completed df rest
      | Exc _ => []
      end
  end.

(** A day whose only security has one Add row with a negative quantity. *)
Definition failing_day : list Row :=
  [ mkRow 400 93003000 "A" 4001 0 (Some 70%float) (-1000) (Some 0%float) "B" "600519" ].

(** The trade money that [process_trade] computes in Step 3. *)
Definition step3_trade_money (row : Row) : result float :=
  match TradeMoney row with
  | Some m =>
      if PrimFloat.eqb m 0%float then
        match Price row with
        | Some p => Ret (PrimFloat.mul p (float_of_int (Qty row)))
        | None => Exc TypeError
        end
      else Ret m
  | None =>
      match Price row with
      | Some p => Ret (PrimFloat.mul p (float_of_int (Qty row)))
      | None => Exc TypeError
      end
  end.

Definition step3_record (row : Row) (security_id : string) (m : float) : TradeRecord :=
  {| tr_SecurityID := security_id;
     tr_BizIndex := BizIndex row;
     tr_TickTime := TickTime row;
     tr_BidOrdID := BuyOrderNO row;
     tr_AskOrdID := SellOrderNO row;
     tr_Price := Price row;
     tr_Qty := Qty row;
     tr_TradeMoney := m;
     tr_ActiveSide := active_side_of row |}.

(** A row that Step 1 drops: a Status row, or a row outside both sessions. *)
Definition dropped (row : Row) : Prop :=
  Type_ row = "S" \/
  ~ (93000000 <= TickTime row < 113000000 \/
     130000000 <= TickTime row < 150000000).

(** The three row types that the loop handles. *)
Definition is_trade_row (row : Row) : bool := (Type_ row =? "T")%string.
Definition is_add_row (row : Row) : bool := (Type_ row =? "A")%string.
Definition is_delete_row (row : Row) : bool := (Type_ row =? "D")%string.

(** A Trade row whose price is a strictly positive number. *)
Definition positive_trade (row : Row) : bool :=
  is_trade_row row && raw_price_positive row.

(** The side that a row gives to the order it brings into the cache. *)
Definition resolved_side (row : Row) : string :=
  if is_trade_row row then TickBSFlag row else named_side row.

(** The cached context of order [k] after the rows, from the one before. *)
Definition ctx_after (k : Z) (rows : list Row) (old : option OrderContext)
  : option OrderContext :=
  fold_left
    (fun o row => if refers_to k row then Some (next_ctx row k o) else o)
    rows old.

(** Every cached context has accumulated quantities that are not negative. *)
Definition nonneg_cache (m : OrderMap) : Prop :=
  forall k c, In (k, c) m -> 0 <= trade_qty c /\ 0 <= resting_qty c.

(** A Trade row, an Add row, that refers to order [k]. *)
Definition trade_refers_to (k : Z) (row : Row) : bool :=
  is_trade_row row && refers_to k row.

Definition add_refers_to (k : Z) (row : Row) : bool :=
  is_add_row row && refers_to k row.

(** A buy order 1002 that trades, then an Add row that names 1002 as a sell
    order. *)
Definition crossed_number_rows : list Row :=
  [ mkRow 200 93001000 "T" 1002 2002 (Some 60%float) 600 (Some 36000%float) "B" "600519";
    mkRow 201 93001100 "A" 0 1002 (Some 60.5%float) 400 (Some 0%float) "S" "600519" ].

(** An order record as the driver makes them: it names the security, a side
    ['B'] or ['S'], and is either a New record with a boolean [IsAggressive]
    and a positive quantity or a Cancel record with [IsAggressive = None]. *)
Definition driver_order_record (security_id : string) (r : OrderRecord) : Prop :=
  or_SecurityID r = security_id /\
  (or_Side r = "B" \/ or_Side r = "S") /\
  ((or_OrdType r = "New" /\ 0 < or_Qty r /\
    exists b, or_IsAggressive r = Some b) \/
   (or_OrdType r = "Cancel" /\ or_IsAggressive r = None)).

Definition driver_trade_record (security_id : string) (r : TradeRecord) : Prop :=
  tr_SecurityID r = security_id /\
  (tr_ActiveSide r = 0 \/ tr_ActiveSide r = 1 \/ tr_ActiveSide r = 2).

(** A New record has a boolean [IsAggressive], a Cancel record has none. *)
Definition tagged (r : OrderRecord) : Prop :=
  (or_OrdType r = "New" /\ exists b, or_IsAggressive r = Some b) \/
  (or_OrdType r = "Cancel" /\ or_IsAggressive r = None).

(** A list in ascending order of its key, ties allowed. *)
Definition ascending {A : Type} (key : A -> Z * Z) (l : list A) : Prop :=
  StronglySorted (fun a b => key_le (key a) (key b) = true) l.

Definition row_key (row : Row) : Z * Z := (TickTime row, BizIndex row).
Definition order_key (r : OrderRecord) : Z * Z := (or_TickTime r, or_BizIndex r).
Definition trade_key (r : TradeRecord) : Z * Z := (tr_TickTime r, tr_BizIndex r).

(** The integers from [lo] to [hi] that the column does not hold. *)
Definition missing_between (column : list Z) (lo hi : Z) : list Z :=
  filter (fun i => negb (existsb (Z.eqb i) column)) (range lo (hi + 1)).

(** The number of entries of the column that repeat an earlier value. *)
Definition repeats (column : list Z) : nat :=
  List.length column - List.length (nodup Z.eq_dec column).

(** The two lists that the driver returns for one security of the frame,
    empty when it raises. *)
Definition orders_of (df : list Row) (security_id : string) : list OrderRecord :=
  match reconstruct_sh_tick_data (group_of df security_id) security_id with
  | Ret (orders, _) => orders
  | Exc _ => []
  end.

Definition trades_of (df : list Row) (security_id : string) : list TradeRecord :=
  match reconstruct_sh_tick_data (group_of df security_id) security_id with
  | Ret (_, trades) => trades
  | Exc _ => []
  end.

(** The order of the final sort on [(SecurityID, TickTime, BizIndex)]:
    the security first, byte by byte, then the key. *)
Definition global_le (s1 : string) (k1 : Z * Z) (s2 : string) (k2 : Z * Z) : bool :=
  String.ltb s1 s2 || ((s1 =? s2)%string && key_le k1 k2).

Definition orders_globally_ascending (l : list OrderRecord) : Prop :=
  StronglySorted
    (fun a b => global_le (or_SecurityID a) (order_key a)
                  (or_SecurityID b) (order_key b) = true) l.

Definition trades_globally_ascending (l : list TradeRecord) : Prop :=
  StronglySorted
    (fun a b => global_le (tr_SecurityID a) (trade_key a)
                  (tr_SecurityID b) (trade_key b) = true) l.

(** Two securities, given in descending order. *)
Definition two_securities : list Row :=
  [ mkRow 300 93002000 "A" 0 3001 (Some 45%float) 2000 (Some 0%float) "S" "600519";
    mkRow 100 93000100 "T" 1001 2001 (Some 50.5%float) 1000 (Some 50500%float)
      "B" "000001" ].

(** * Properties *)

(** ** The dict operations *)

Lemma dict_get_set_same (k : Z) (v : OrderContext) (m : OrderMap) :
  dict_get k (dict_set k v m) = Some v.
Proof.
  induction m as [|[k' v'] m IH]; simpl.
  - now rewrite Z.eqb_refl.
  - destruct (k =? k') eqn:E; simpl; rewrite E; auto.
Qed.

Lemma dict_get_set_other (k k' : Z) (v : OrderContext) (m : OrderMap) :
  k' <> k -> dict_get k' (dict_set k v m) = dict_get k' m.
Proof.
  intros Hne. induction m as [|[k0 v0] m IH]; simpl.
  - destruct (k' =? k) eqn:E; auto. apply Z.eqb_eq in E. contradiction.
  - destruct (k =? k0) eqn:E; simpl.
    + apply Z.eqb_eq in E. subst k0.
      destruct (k' =? k) eqn:E'; auto. apply Z.eqb_eq in E'. contradiction.
    + destruct (k' =? k0); auto.
Qed.

Lemma dict_set_keys_present (k : Z) (v c : OrderContext) (m : OrderMap) :
  dict_get k m = Some c -> map fst (dict_set k v m) = map fst m.
Proof.
  induction m as [|[k' v'] m IH]; simpl; [discriminate|].
  destruct (k =? k') eqn:E; simpl; intros H; auto.
  now rewrite IH.
Qed.

Lemma dict_set_absent (k : Z) (v : OrderContext) (m : OrderMap) :
  dict_get k m = None -> dict_set k v m = m ++ [(k, v)].
Proof.
  induction m as [|[k' v'] m IH]; simpl; auto.
  destruct (k =? k') eqn:E; [discriminate|].
  intros H. now rewrite IH.
Qed.

Lemma dict_get_In (k : Z) (c : OrderContext) (m : OrderMap) :
  dict_get k m = Some c -> In (k, c) m.
Proof.
  induction m as [|[k' v'] m IH]; simpl; [discriminate|].
  destruct (k =? k') eqn:E.
  - apply Z.eqb_eq in E. subst. intros [= ->]. now left.
  - intros H. right. auto.
Qed.

Lemma dict_get_None_notin (k : Z) (m : OrderMap) :
  dict_get k m = None -> ~ In k (map fst m).
Proof.
  induction m as [|[k' v'] m IH]; simpl; [tauto|].
  destruct (k =? k') eqn:E; [discriminate|].
  apply Z.eqb_neq in E. intros H [Hk|Hk]; [congruence|]. now apply IH.
Qed.

Lemma In_dict_get (k : Z) (c : OrderContext) (m : OrderMap) :
  NoDup (map fst m) -> In (k, c) m -> dict_get k m = Some c.
Proof.
  induction m as [|[k' v'] m IH]; simpl; [tauto|].
  intros Hnd [Heq|Hin].
  - injection Heq as -> ->. now rewrite Z.eqb_refl.
  - inversion Hnd as [|? ? Hnotin Hnd']; subst.
    destruct (k =? k') eqn:E; auto.
    apply Z.eqb_eq in E. subst k'. exfalso. apply Hnotin.
    apply (in_map fst) in Hin. exact Hin.
Qed.

(** ** The Add and Delete handlers by cases *)

Lemma process_delete_order_cases (row : Row) (order_map : OrderMap)
    (order_list : list OrderRecord) (last_price : float) (security_id : string) :
  process_delete_order row order_map order_list last_price security_id =
  match (if raw_price_positive row then Ret (Price row)
         else match dict_get (named_order_no row) order_map with
              | Some ctx => get_price ctx
              | None => Ret (Some last_price)
              end) with
  | Exc e => Raised e (order_map, order_list)
  | Ret cancel_price =>
      Done (order_map,
            order_list ++
            [{| or_SecurityID := security_id;
                or_BizIndex := BizIndex row;
                or_TickTime := TickTime row;
                or_OrdID := named_order_no row;
                or_OrdType := "Cancel";
                or_Side := named_side row;
                or_Price := cancel_price;
                or_Qty := Qty row;
                or_IsAggressive := None |}])
  end.
Proof.
  unfold process_delete_order, named_order_no, named_side, raw_price_positive.
  destruct (TickBSFlag row =? "B")%string; reflexivity.
Qed.

Lemma process_add_order_cases (row : Row) (order_map : OrderMap) :
  process_add_order row order_map =
  let ctx0 :=
    match dict_get (named_order_no row) order_map with
    | Some ctx => ctx
    | None => new_OrderContext (named_order_no row) (named_side row)
                (TickTime row) (BizIndex row)
    end in
  if Qty row <? 0 then Raised ValueError order_map
  else Done (dict_set (named_order_no row)
               (set_has_resting
                  (set_resting_price
                     (set_resting_qty ctx0 (resting_qty ctx0 + Qty row))
                     (Price row)) true) order_map).
Proof.
  unfold process_add_order, named_order_no, named_side, add_resting_qty.
  destruct (TickBSFlag row =? "B")%string; cbv zeta;
    match goal with |- context [dict_get ?k ?m] => destruct (dict_get k m) end;
    destruct (Qty row <? 0); reflexivity.
Qed.

Lemma not_B_named (row : Row) :
  TickBSFlag row <> "B" ->
  named_order_no row = SellOrderNO row /\ named_side row = "S".
Proof.
  intros H. unfold named_order_no, named_side.
  destruct (TickBSFlag row =? "B")%string eqn:E; auto.
  apply String.eqb_eq in E. contradiction.
Qed.

(** C3.  A Delete row yields a Cancel record whose price is taken, in this
    order, from the row's own price when it is strictly positive, else from
    the cached context's price ([resting_price] when positive, else
    [trade_price]) when the order number is cached, else from [last_price];
    the record carries the Delete row's own [BizIndex] and [TickTime] and
    [IsAggressive = None]. *)
Theorem C3_cancel_price_fallback (row : Row) (order_map : OrderMap)
    (order_list : list OrderRecord) (last_price : float) (security_id : string) :
  (forall p, Price row = Some p -> PrimFloat.ltb 0%float p = true ->
     exists r,
       process_delete_order row order_map order_list last_price security_id
       = Done (order_map, order_list ++ [r]) /\
       or_Price r = Some p /\ is_cancel_of row security_id r) /\
  (forall ctx q, raw_price_positive row = false ->
     dict_get (named_order_no row) order_map = Some ctx ->
     get_price ctx = Ret q ->
     exists r,
       process_delete_order row order_map order_list last_price security_id
       = Done (order_map, order_list ++ [r]) /\
       or_Price r = q /\ is_cancel_of row security_id r) /\
  (raw_price_positive row = false ->
     dict_get (named_order_no row) order_map = None ->
     exists r,
       process_delete_order row order_map order_list last_price security_id
       = Done (order_map, order_list ++ [r]) /\
       or_Price r = Some last_price /\ is_cancel_of row security_id r) /\
  (forall ctx rp, resting_price ctx = Some rp ->
     get_price ctx
     = Ret (if PrimFloat.ltb 0%float rp then Some rp else trade_price ctx)).
Proof.
  rewrite process_delete_order_cases.
  repeat split.
  - intros p Hp Hpos. unfold raw_price_positive. rewrite Hp, Hpos.
    eexists. split; [reflexivity|]. unfold is_cancel_of; simpl. tauto.
  - intros ctx q Hraw Hget Hq. rewrite Hraw, Hget, Hq.
    eexists. split; [reflexivity|]. unfold is_cancel_of; simpl. tauto.
  - intros Hraw Hget. rewrite Hraw, Hget.
    eexists. split; [reflexivity|]. unfold is_cancel_of; simpl. tauto.
  - intros ctx rp Hrp. unfold get_price, gt_zero. rewrite Hrp.
    destruct (PrimFloat.ltb 0%float rp); reflexivity.
Qed.

Lemma C3_cancel_price_fallback_witness :
  (exists r,
     process_delete_order
       (mkRow 401 93003500 "D" 4001 0 (Some 71%float) 500 (Some 0%float) "B" "600519")
       [] [] 0%float "600519" = Done ([], [] ++ [r]) /\
     or_Price r = Some 71%float /\
     is_cancel_of
       (mkRow 401 93003500 "D" 4001 0 (Some 71%float) 500 (Some 0%float) "B" "600519")
       "600519" r) /\
  (exists r,
     process_delete_order
       (mkRow 401 93003500 "D" 4001 0 (Some 0%float) 500 (Some 0%float) "B" "600519")
       [(4001, next_ctx
                 (mkRow 400 93003000 "A" 4001 0 (Some 70%float) 1000 (Some 0%float)
                    "B" "600519") 4001 None)]
       [] 0%float "600519"
     = Done ([(4001, next_ctx
                 (mkRow 400 93003000 "A" 4001 0 (Some 70%float) 1000 (Some 0%float)
                    "B" "600519") 4001 None)], [] ++ [r]) /\
     or_Price r = Some 70%float /\
     is_cancel_of
       (mkRow 401 93003500 "D" 4001 0 (Some 0%float) 500 (Some 0%float) "B" "600519")
       "600519" r) /\
  (exists r,
     process_delete_order
       (mkRow 401 93003500 "D" 4001 0 None 500 (Some 0%float) "B" "600519")
       [] [] 69.5%float "600519" = Done ([], [] ++ [r]) /\
     or_Price r = Some 69.5%float /\
     is_cancel_of
       (mkRow 401 93003500 "D" 4001 0 None 500 (Some 0%float) "B" "600519")
       "600519" r).
Proof.
  split; [|split].
  - apply (proj1 (C3_cancel_price_fallback _ _ _ _ _)); reflexivity.
  - apply (proj1 (proj2 (C3_cancel_price_fallback _ _ _ _ _))
             (next_ctx
                (mkRow 400 93003000 "A" 4001 0 (Some 70%float) 1000 (Some 0%float)
                   "B" "600519") 4001 None)); reflexivity.
  - apply (proj1 (proj2 (proj2 (C3_cancel_price_fallback _ _ _ _ _))));
      reflexivity.
Defined.

(** ** Delete rows and the cache *)

Lemma process_delete_order_cache (row : Row) (order_map : OrderMap)
    (order_list : list OrderRecord) (last_price : float) (security_id : string) :
  fst (state_of (process_delete_order row order_map order_list last_price
                   security_id)) = order_map.
Proof.
  rewrite process_delete_order_cases.
  destruct (raw_price_positive row); [reflexivity|].
  destruct (dict_get (named_order_no row) order_map) as [ctx|]; [|reflexivity].
  destruct (get_price ctx); reflexivity.
Qed.

Lemma process_row_delete_cache (security_id : string) (row : Row) (st : State) :
  Type_ row = "D" ->
  st_order_map (state_of (process_row security_id row st)) = st_order_map st.
Proof.
  intros HD. unfold process_row. rewrite HD. simpl.
  pose proof (process_delete_order_cache row (st_order_map st) (st_order_list st)
                (st_last_price st) security_id) as H.
  destruct (process_delete_order row (st_order_map st) (st_order_list st)
              (st_last_price st) security_id) as [[om ol]|e [om ol]];
    simpl in *; exact H.
Qed.

(** C4.  A Delete row leaves the cache as it was, whether the handler returns
    or raises, so the settlement of the cache is the same with or without it;
    on scenario D the driver returns the settled New record of order 4001
    (quantity 1000, price 70.0, [IsAggressive = False]) together with the
    Cancel record (price 70.0, [IsAggressive = None]). *)
Theorem C4_delete_leaves_cache :
  (forall row order_map order_list last_price security_id,
     fst (state_of (process_delete_order row order_map order_list last_price
                      security_id)) = order_map) /\
  (forall security_id row st,
     Type_ row = "D" ->
     st_order_map (state_of (process_row security_id row st)) = st_order_map st /\
     forall order_list,
       settle_orders (st_order_map (state_of (process_row security_id row st)))
         order_list security_id
       = settle_orders (st_order_map st) order_list security_id) /\
  reconstruct_sh_tick_data scenario_D "600519"
  = Ret ([ {| or_SecurityID := "600519"; or_BizIndex := 400;
              or_TickTime := 93003000; or_OrdID := 4001; or_OrdType := "New";
              or_Side := "B"; or_Price := Some 70%float; or_Qty := 1000;
              or_IsAggressive := Some false |};
           {| or_SecurityID := "600519"; or_BizIndex := 401;
              or_TickTime := 93003500; or_OrdID := 4001; or_OrdType := "Cancel";
              or_Side := "B"; or_Price := Some 70%float; or_Qty := 500;
              or_IsAggressive := None |} ],
         []).
Proof.
  split; [exact process_delete_order_cache|]. split.
  - intros security_id row st HD.
    pose proof (process_row_delete_cache security_id row st HD) as H.
    split; [exact H|]. intros order_list. now rewrite H.
  - vm_compute. reflexivity.
Qed.

Lemma C4_delete_leaves_cache_witness :
  (exists ctx,
     st_order_map state_with_4001 = [(4001, ctx)] /\
     resting_qty ctx = 1000 /\ resting_price ctx = Some 70%float) /\
  process_row "600519" delete_4001 state_with_4001
  = Done (state_of (process_row "600519" delete_4001 state_with_4001)) /\
  List.length
    (st_order_list (state_of (process_row "600519" delete_4001 state_with_4001)))
  = 1%nat /\
  st_order_map (state_of (process_row "600519" delete_4001 state_with_4001))
  = st_order_map state_with_4001 /\
  forall order_list,
    settle_orders
      (st_order_map (state_of (process_row "600519" delete_4001 state_with_4001)))
      order_list "600519"
    = settle_orders (st_order_map state_with_4001) order_list "600519".
Proof.
  split; [eexists; repeat split; reflexivity|].
  split; [reflexivity|]. split; [reflexivity|].
  apply (proj1 (proj2 C4_delete_leaves_cache) "600519" delete_4001 state_with_4001).
  reflexivity.
Defined.

(** ** The flag of Add and Delete rows *)

(** C10.  In the Add and the Delete handler every [TickBSFlag] other than
    ['B'] is the sell side: the row is handled as the same row flagged ['S'],
    the order number is [SellOrderNO] and the side is ['S'] (on the context
    that an Add creates, on the Cancel record of a Delete).  The Trade
    handler is different: a flag that is neither ['B'] nor ['S'] leaves the
    cache alone, where ['S'] caches the sell order. *)
Theorem C10_flag_other_than_B_is_sell (row : Row) (order_map : OrderMap)
    (order_list : list OrderRecord) (last_price : float) (security_id : string) :
  TickBSFlag row <> "B" ->
  process_add_order row order_map
  = process_add_order (with_flag row "S") order_map /\
  process_delete_order row order_map order_list last_price security_id
  = process_delete_order (with_flag row "S") order_map order_list last_price
      security_id /\
  (dict_get (SellOrderNO row) order_map = None -> 0 <= Qty row ->
   process_add_order row order_map
   = Done (order_map ++
           [(SellOrderNO row,
             {| order_no := SellOrderNO row; side := "S";
                first_time := TickTime row; first_biz_index := BizIndex row;
                trade_qty := 0; resting_qty := Qty row;
                trade_price := Some 0%float; resting_price := Price row;
                is_aggressive := false; has_resting := true |})])) /\
  (forall k, k <> SellOrderNO row ->
     dict_get k (state_of (process_add_order row order_map))
     = dict_get k order_map) /\
  (forall order_map' order_list',
     process_delete_order row order_map order_list last_price security_id
     = Done (order_map', order_list') ->
     exists r, order_list' = order_list ++ [r] /\
               or_OrdID r = SellOrderNO row /\ or_Side r = "S") /\
  fst (state_of (process_trade (with_flag sample_trade "N") [] [] security_id))
  = [] /\
  map fst (fst (state_of (process_trade (with_flag sample_trade "S") [] []
                            security_id)))
  = [2001].
Proof.
  intros HB. destruct (not_B_named row HB) as [Hno Hside].
  assert (Hno' : named_order_no (with_flag row "S") = SellOrderNO row) by reflexivity.
  assert (Hside' : named_side (with_flag row "S") = "S") by reflexivity.
  split; [|split; [|split; [|split; [|split; [|split]]]]].
  - rewrite !process_add_order_cases. cbv zeta. rewrite Hno, Hside, Hno', Hside'.
    reflexivity.
  - rewrite !process_delete_order_cases. rewrite Hno, Hside, Hno', Hside'.
    reflexivity.
  - intros Hnone Hq. rewrite process_add_order_cases. cbv zeta.
    rewrite Hno, Hside, Hnone.
    destruct (Qty row <? 0) eqn:E; [apply Z.ltb_lt in E; lia|].
    rewrite (dict_set_absent _ _ _ Hnone). reflexivity.
  - intros k Hk. rewrite process_add_order_cases. cbv zeta. rewrite Hno.
    destruct (Qty row <? 0); simpl; [reflexivity|].
    now apply dict_get_set_other.
  - intros om' ol'. rewrite process_delete_order_cases. rewrite Hno, Hside.
    destruct (if raw_price_positive row then _ else _) as [q|e]; [|discriminate].
    intros [= <- <-]. eexists. split; [reflexivity|]. simpl. auto.
  - reflexivity.
  - reflexivity.
Qed.

Lemma C10_flag_other_than_B_is_sell_witness :
  process_add_order
    (mkRow 300 93002000 "A" 0 3001 (Some 45%float) 2000 (Some 0%float) "N" "600519") []
  = process_add_order
      (with_flag
         (mkRow 300 93002000 "A" 0 3001 (Some 45%float) 2000 (Some 0%float) "N" "600519")
         "S") [].
Proof.
  refine (proj1 (C10_flag_other_than_B_is_sell
           (mkRow 300 93002000 "A" 0 3001 (Some 45%float) 2000 (Some 0%float) "N" "600519")
           [] [] 0%float "600519" _)).
  discriminate.
Defined.

(** ** Trade rows *)

Lemma step3_record_is_trade_of (row : Row) (security_id : string) (m : float) :
  is_trade_of row security_id (step3_record row security_id m).
Proof. unfold is_trade_of; simpl; tauto. Qed.

(** Step 3 raises and nothing has been touched. *)
Lemma process_trade_no_money (row : Row) (order_map : OrderMap)
    (trade_list : list TradeRecord) (security_id : string) (e : exn) :
  step3_trade_money row = Exc e ->
  process_trade row order_map trade_list security_id
  = Raised e (order_map, trade_list).
Proof.
  unfold process_trade, step3_trade_money. intros H.
  destruct (TickBSFlag row =? "B")%string;
    [|destruct (TickBSFlag row =? "S")%string];
    cbv zeta; cbv beta iota; rewrite H; reflexivity.
Qed.

(** Step 3 appends the record; Steps 4 and 5 keep the list. *)
Lemma process_trade_list (row : Row) (order_map : OrderMap)
    (trade_list : list TradeRecord) (security_id : string) (m : float) :
  step3_trade_money row = Ret m ->
  snd (state_of (process_trade row order_map trade_list security_id))
  = trade_list ++ [step3_record row security_id m].
Proof.
  unfold process_trade, step3_trade_money, step3_record, active_side_of.
  intros H.
  destruct (TickBSFlag row =? "B")%string;
    [|destruct (TickBSFlag row =? "S")%string];
    cbv zeta; cbv beta iota; rewrite H;
    try reflexivity;
    match goal with |- context [dict_get ?k ?om] => destruct (dict_get k om) end;
    try reflexivity;
    match goal with |- context [add_trade_qty ?c ?q] => destruct (add_trade_qty c q) end;
    reflexivity.
Qed.

(** An auction trade returns after Step 4. *)
Lemma process_trade_auction (row : Row) (order_map : OrderMap)
    (trade_list : list TradeRecord) (security_id : string) (m : float) :
  TickBSFlag row <> "B" -> TickBSFlag row <> "S" ->
  step3_trade_money row = Ret m ->
  process_trade row order_map trade_list security_id
  = Done (order_map, trade_list ++ [step3_record row security_id m]).
Proof.
  intros HB HS H.
  unfold process_trade, step3_record, active_side_of.
  unfold step3_trade_money in H.
  destruct (TickBSFlag row =? "B")%string eqn:EB;
    [apply String.eqb_eq in EB; contradiction|].
  destruct (TickBSFlag row =? "S")%string eqn:ES;
    [apply String.eqb_eq in ES; contradiction|].
  cbv zeta; cbv beta iota. rewrite H. reflexivity.
Qed.

Lemma active_side_auction (row : Row) :
  TickBSFlag row <> "B" -> TickBSFlag row <> "S" -> active_side_of row = 0.
Proof.
  intros HB HS. unfold active_side_of.
  destruct (TickBSFlag row =? "B")%string eqn:EB;
    [apply String.eqb_eq in EB; contradiction|].
  destruct (TickBSFlag row =? "S")%string eqn:ES;
    [apply String.eqb_eq in ES; contradiction|].
  reflexivity.
Qed.

(** C6.  A Trade row whose flag is neither ['B'] nor ['S'] leaves the cache
    as it was, in the handler and in the driver's loop; when the row carries
    a price and a quantity in the 64-bit range (so that [price * qty] can be
    computed), or a non-zero trade money (so that no product is computed),
    the handler returns and has appended one trade record, with
    [ActiveSide = 0]. *)
Theorem C6_auction_trade_leaves_cache (row : Row) (order_map : OrderMap)
    (trade_list : list TradeRecord) (security_id : string) :
  TickBSFlag row <> "B" -> TickBSFlag row <> "S" ->
  fst (state_of (process_trade row order_map trade_list security_id))
  = order_map /\
  (forall st, Type_ row = "T" ->
     st_order_map (state_of (process_row security_id row st)) = st_order_map st) /\
  ((exists p, Price row = Some p /\ int64 (Qty row)) \/
   (exists m, TradeMoney row = Some m /\ PrimFloat.eqb m 0%float = false) ->
   exists r,
     process_trade row order_map trade_list security_id
     = Done (order_map, trade_list ++ [r]) /\
     tr_ActiveSide r = 0 /\ is_trade_of row security_id r).
Proof.
  intros HB HS.
  assert (Hcache : forall om tl,
             fst (state_of (process_trade row om tl security_id)) = om).
  { intros om tl. destruct (step3_trade_money row) as [m|e] eqn:E.
    - now rewrite (process_trade_auction row om tl security_id m HB HS E).
    - now rewrite (process_trade_no_money row om tl security_id e E). }
  split; [apply Hcache|]. split.
  - intros st HT. unfold process_row. rewrite HT. simpl.
    pose proof (Hcache (st_order_map st) (st_trade_list st)) as H.
    destruct (process_trade row (st_order_map st) (st_trade_list st) security_id)
      as [[om tl]|e [om tl]]; simpl in *; exact H.
  - intros Hmoney.
    assert (Hm : exists m, step3_trade_money row = Ret m).
    { unfold step3_trade_money.
      destruct Hmoney as [[p [Hp _]]|[m [Hm Hnz]]].
      - rewrite Hp. destruct (TradeMoney row) as [m|]; [|eauto].
        destruct (PrimFloat.eqb m 0%float); eauto.
      - rewrite Hm, Hnz. eauto. }
    destruct Hm as [m Hm].
    exists (step3_record row security_id m).
    split; [now apply process_trade_auction|].
    split; [simpl; now apply active_side_auction|].
    apply step3_record_is_trade_of.
Qed.

Lemma C6_auction_trade_leaves_cache_witness :
  fst (state_of (process_trade sample_trade [] [] "600519")) = [] /\
  exists r,
    process_trade sample_trade [] [] "600519" = Done ([], [] ++ [r]) /\
    tr_ActiveSide r = 0 /\ is_trade_of sample_trade "600519" r.
Proof.
  assert (HB : TickBSFlag sample_trade <> "B") by discriminate.
  assert (HS : TickBSFlag sample_trade <> "S") by discriminate.
  split.
  - exact (proj1 (C6_auction_trade_leaves_cache sample_trade [] [] "600519" HB HS)).
  - apply (proj2 (proj2 (C6_auction_trade_leaves_cache sample_trade [] [] "600519"
                           HB HS))).
    left. eexists. split; [reflexivity|]. unfold int64. simpl. lia.
Defined.

(** A strictly positive float is not equal to zero. *)
Lemma positive_not_zero (m : float) :
  PrimFloat.ltb 0%float m = true -> PrimFloat.eqb m 0%float = false.
Proof.
  rewrite ltb_spec, eqb_spec.
  replace (Prim2SF 0%float) with (S754_zero false) by reflexivity.
  destruct (Prim2SF m) as [sg|sg| |sg mant ex]; simpl;
    try discriminate; try reflexivity;
    destruct sg; simpl; try discriminate; reflexivity.
Qed.

Lemma process_row_trade_list (security_id : string) (row : Row) (st st' : State) :
  process_row security_id row st = Done st' ->
  List.length (st_trade_list st')
  = (List.length (st_trade_list st)
     + (if (Type_ row =? "T")%string then 1 else 0))%nat.
Proof.
  unfold process_row.
  destruct (Type_ row =? "T")%string.
  - destruct (step3_trade_money row) as [m|e] eqn:E.
    + pose proof (process_trade_list row (st_order_map st) (st_trade_list st)
                    security_id m E) as H.
      destruct (process_trade row (st_order_map st) (st_trade_list st) security_id)
        as [[om tl]|e [om tl]]; [|discriminate].
      intros [= <-]. simpl in *. rewrite H, length_app. reflexivity.
    + rewrite (process_trade_no_money row _ _ security_id e E). discriminate.
  - destruct (Type_ row =? "A")%string.
    + destruct (process_add_order row (st_order_map st)); [|discriminate].
      intros [= <-]. simpl. lia.
    + destruct (Type_ row =? "D")%string.
      * destruct (process_delete_order row (st_order_map st) (st_order_list st)
                    (st_last_price st) security_id) as [[om ol]|e [om ol]];
          [|discriminate].
        intros [= <-]. simpl. lia.
      * intros [= <-]. lia.
Qed.

Lemma process_rows_trade_list (security_id : string) (rows : list Row) :
  forall st st',
    process_rows security_id rows st = Done st' ->
    List.length (st_trade_list st')
    = (List.length (st_trade_list st) + count_trades rows)%nat.
Proof.
  unfold count_trades.
  induction rows as [|row rows IH]; simpl; intros st st' H.
  - injection H as <-. lia.
  - destruct (process_row security_id row st) as [st1|e st1] eqn:E; [|discriminate].
    apply IH in H. apply process_row_trade_list in E.
    rewrite H, E. destruct (Type_ row =? "T")%string; simpl; lia.
Qed.

(** At both ends of the 64-bit range the conversion is finite. *)
Lemma float_of_int_int64_ends :
  float_of_int (-9223372036854775808) = (-9223372036854775808)%float /\
  float_of_int 9223372036854775807 = 9223372036854775808%float /\
  PrimFloat.ltb (float_of_int 9223372036854775807) infinity = true /\
  PrimFloat.ltb neg_infinity (float_of_int (-9223372036854775808)) = true.
Proof. repeat split; vm_compute; reflexivity. Qed.

(** C5 (as the code has it).  [process_trade] appends exactly one trade
    record, whatever the flag and whether or not the cache is updated.  Its
    [TradeMoney] is the row's own value when that value is present and not
    equal to zero, strictly positive values included, and [price * qty] when
    it is absent or zero and the row carries a price and a quantity in the
    64-bit range.  A run of the loop that returns has appended one record per
    Trade row. *)
Theorem C5_trade_record_money (row : Row) (order_map : OrderMap)
    (trade_list : list TradeRecord) (security_id : string) :
  (forall m, TradeMoney row = Some m -> PrimFloat.eqb m 0%float = false ->
     exists r,
       snd (state_of (process_trade row order_map trade_list security_id))
       = trade_list ++ [r] /\
       tr_TradeMoney r = m /\ is_trade_of row security_id r) /\
  (forall m, TradeMoney row = Some m -> PrimFloat.ltb 0%float m = true ->
     exists r,
       snd (state_of (process_trade row order_map trade_list security_id))
       = trade_list ++ [r] /\
       tr_TradeMoney r = m /\ is_trade_of row security_id r) /\
  (forall p, Price row = Some p -> int64 (Qty row) ->
     TradeMoney row = None \/
     (exists m, TradeMoney row = Some m /\ PrimFloat.eqb m 0%float = true) ->
     exists r,
       snd (state_of (process_trade row order_map trade_list security_id))
       = trade_list ++ [r] /\
       tr_TradeMoney r = PrimFloat.mul p (float_of_int (Qty row)) /\
       is_trade_of row security_id r) /\
  (forall rows st st',
     process_rows security_id rows st = Done st' ->
     List.length (st_trade_list st')
     = (List.length (st_trade_list st) + count_trades rows)%nat).
Proof.
  assert (Hnz : forall m, TradeMoney row = Some m ->
                  PrimFloat.eqb m 0%float = false ->
                  exists r,
                    snd (state_of (process_trade row order_map trade_list
                                     security_id)) = trade_list ++ [r] /\
                    tr_TradeMoney r = m /\ is_trade_of row security_id r).
  { intros m Hm Hz.
    assert (E : step3_trade_money row = Ret m).
    { unfold step3_trade_money. now rewrite Hm, Hz. }
    exists (step3_record row security_id m).
    split; [now apply process_trade_list|].
    split; [reflexivity|apply step3_record_is_trade_of]. }
  split; [exact Hnz|]. split.
  - intros m Hm Hpos. apply Hnz; auto using positive_not_zero.
  - split.
    + intros p Hp _ Hmoney.
      assert (E : step3_trade_money row
                  = Ret (PrimFloat.mul p (float_of_int (Qty row)))).
      { unfold step3_trade_money. rewrite Hp.
        destruct Hmoney as [Hn|[m [Hm Hz]]]; [now rewrite Hn|now rewrite Hm, Hz]. }
      exists (step3_record row security_id
                (PrimFloat.mul p (float_of_int (Qty row)))).
      split; [now apply process_trade_list|].
      split; [reflexivity|apply step3_record_is_trade_of].
    + intros rows st st'. apply process_rows_trade_list.
Qed.

Lemma C5_trade_record_money_witness :
  (exists r,
     snd (state_of (process_trade negative_money_trade [] [] "600519"))
     = [] ++ [r] /\
     tr_TradeMoney r = (-1)%float /\
     is_trade_of negative_money_trade "600519" r) /\
  (exists r,
     snd (state_of (process_trade sample_trade [] [] "600519")) = [] ++ [r] /\
     tr_TradeMoney r = 50500%float /\ is_trade_of sample_trade "600519" r) /\
  (exists r,
     snd (state_of
            (process_trade
               (mkRow 1005 93000800 "T" 100005 200005 (Some 10%float) 100 None
                  "B" "600519") [] [] "600519")) = [] ++ [r] /\
     tr_TradeMoney r = PrimFloat.mul 10%float (float_of_int 100) /\
     is_trade_of
       (mkRow 1005 93000800 "T" 100005 200005 (Some 10%float) 100 None
          "B" "600519") "600519" r) /\
  List.length (st_trade_list
                 (state_of (process_rows "600519" [sample_trade] init_state)))
  = (List.length (st_trade_list init_state) + count_trades [sample_trade])%nat.
Proof.
  split; [|split; [|split]].
  - apply (proj1 (C5_trade_record_money negative_money_trade [] [] "600519"));
      reflexivity.
  - apply (proj1 (proj2 (C5_trade_record_money sample_trade [] [] "600519")));
      reflexivity.
  - apply (proj1 (proj2 (proj2 (C5_trade_record_money
             (mkRow 1005 93000800 "T" 100005 200005 (Some 10%float) 100 None
                "B" "600519") [] [] "600519"))) 10%float);
      [reflexivity|unfold int64; simpl; lia|left; reflexivity].
  - apply (proj2 (proj2 (proj2 (C5_trade_record_money sample_trade [] []
                                  "600519")))).
    reflexivity.
Defined.

(** C5 as the design document words it fails on a negative [TradeMoney]: the
    value is not strictly positive, and the record keeps it instead of
    [price * qty]. *)
Lemma C5_negative_money_kept :
  PrimFloat.ltb 0%float (-1)%float = false /\
  exists om r,
    process_trade negative_money_trade [] [] "600519" = Done (om, [r]) /\
    tr_TradeMoney r = (-1)%float /\
    tr_TradeMoney r <> documented_trade_money negative_money_trade 10%float.
Proof.
  split; [reflexivity|].
  eexists. eexists. split; [reflexivity|]. split; [reflexivity|].
  simpl. intros H.
  apply (f_equal (fun x => PrimFloat.ltb x 0%float)) in H.
  vm_compute in H. discriminate.
Qed.

(** ** Negative quantities *)

(** The Add handler rejects a negative quantity before it touches the cache,
    for a cached and for a new order number alike. *)
Lemma process_add_order_negative (row : Row) (order_map : OrderMap) :
  Qty row < 0 ->
  process_add_order row order_map = Raised ValueError order_map.
Proof.
  intros Hq. rewrite process_add_order_cases. cbv zeta.
  destruct (Qty row <? 0) eqn:E; [reflexivity|]. apply Z.ltb_ge in E. lia.
Qed.

(** The Trade handler rejects a negative quantity for a cached order number;
    the trade record has been appended, the cache is as before. *)
Lemma process_trade_negative_cached (row : Row) (order_map : OrderMap)
    (trade_list : list TradeRecord) (security_id : string)
    (k : Z) (ctx : OrderContext) (m : float) :
  Qty row < 0 ->
  (TickBSFlag row = "B" /\ k = BuyOrderNO row \/
   TickBSFlag row = "S" /\ k = SellOrderNO row) ->
  dict_get k order_map = Some ctx ->
  step3_trade_money row = Ret m ->
  process_trade row order_map trade_list security_id
  = Raised ValueError (order_map, trade_list ++ [step3_record row security_id m]).
Proof.
  intros Hq Hflag Hget Hm.
  unfold process_trade, step3_record, active_side_of, add_trade_qty.
  unfold step3_trade_money in Hm.
  assert (Hneg : (Qty row <? 0) = true) by (apply Z.ltb_lt; lia).
  destruct Hflag as [[HB ->]|[HS ->]].
  - rewrite HB. simpl. rewrite Hm, Hget, Hneg. reflexivity.
  - rewrite HS. simpl. rewrite Hm, Hget, Hneg. reflexivity.
Qed.

(** C8 (the code at the failing input).  A Trade row that brings a new order
    number into the cache is stored with its quantity unchecked: with
    [Qty = -100] the handler returns, the cached [trade_qty] is [-100], and a
    later trade of 300 for the same order settles as 200. *)
Theorem C8_negative_qty_first_trade :
  process_trade negative_qty_trade [] [] "600519"
  = Done ([(1001, {| order_no := 1001; side := "B";
                     first_time := 93000100; first_biz_index := 100;
                     trade_qty := -100; resting_qty := 0;
                     trade_price := Some 10%float;
                     resting_price := Some 0%float;
                     is_aggressive := true; has_resting := false |})],
          [{| tr_SecurityID := "600519"; tr_BizIndex := 100;
              tr_TickTime := 93000100; tr_BidOrdID := 1001; tr_AskOrdID := 2001;
              tr_Price := Some 10%float; tr_Qty := -100;
              tr_TradeMoney := 1000%float; tr_ActiveSide := 1 |}]) /\
  exists trades,
    reconstruct_sh_tick_data [negative_qty_trade; second_trade] "600519"
    = Ret ([{| or_SecurityID := "600519"; or_BizIndex := 100;
               or_TickTime := 93000100; or_OrdID := 1001; or_OrdType := "New";
               or_Side := "B"; or_Price := Some 10%float; or_Qty := 200;
               or_IsAggressive := Some true |}], trades).
Proof.
  split; [reflexivity|]. eexists. vm_compute. reflexivity.
Qed.

(** ** The session filter *)

Lemma is_continuous_trading_time_spec (t : Z) :
  is_continuous_trading_time t = true <->
  (93000000 <= t < 113000000 \/ 130000000 <= t < 150000000).
Proof.
  unfold is_continuous_trading_time, MORNING_START, MORNING_END,
    AFTERNOON_START, AFTERNOON_END.
  destruct (93000000 <=? t) eqn:E1; destruct (t <? 113000000) eqn:E2;
    destruct (130000000 <=? t) eqn:E3; destruct (t <? 150000000) eqn:E4;
    simpl;
    repeat match goal with
           | H : (_ <=? _) = true |- _ => apply Z.leb_le in H
           | H : (_ <=? _) = false |- _ => apply Z.leb_gt in H
           | H : (_ <? _) = true |- _ => apply Z.ltb_lt in H
           | H : (_ <? _) = false |- _ => apply Z.ltb_ge in H
           end;
    split; intros H; try reflexivity; try discriminate; lia.
Qed.

Lemma dropped_keep_row (row : Row) : dropped row -> keep_row row = false.
Proof.
  unfold dropped, keep_row. intros [HS|Ht].
  - rewrite HS. reflexivity.
  - destruct (is_continuous_trading_time (TickTime row)) eqn:E.
    + apply is_continuous_trading_time_spec in E. contradiction.
    + apply andb_false_r.
Qed.

Lemma filter_all_dropped (df : list Row) :
  (forall row, In row df -> dropped row) -> filter keep_row df = [].
Proof.
  induction df as [|row df IH]; simpl; intros H; [reflexivity|].
  rewrite (dropped_keep_row row) by (apply H; now left).
  apply IH. intros r Hr. apply H. now right.
Qed.

(** C7.  Status rows and rows outside the two half-open sessions
    [09:30:00.000, 11:30:00.000) and [13:00:00.000, 15:00:00.000) do not
    reach the loop: the driver returns the same result with or without such a
    row, wherever it stands in the input, and returns two empty lists when
    every row is such a row; a frame with a single row stamped 09:25 gives two
    empty lists whatever the row's type. *)
Theorem C7_dropped_rows_contribute_nothing (security_id : string) :
  (forall before after row,
     dropped row ->
     preprocess (before ++ row :: after) = preprocess (before ++ after) /\
     reconstruct_sh_tick_data (before ++ row :: after) security_id
     = reconstruct_sh_tick_data (before ++ after) security_id) /\
  (forall df,
     (forall row, In row df -> dropped row) ->
     reconstruct_sh_tick_data df security_id = Ret ([], [])) /\
  (forall row,
     TickTime row = 92500000 ->
     reconstruct_sh_tick_data [row] security_id = Ret ([], [])).
Proof.
  assert (Hall : forall df, (forall row, In row df -> dropped row) ->
                   reconstruct_sh_tick_data df security_id = Ret ([], [])).
  { intros df H. unfold reconstruct_sh_tick_data, preprocess.
    rewrite (filter_all_dropped df H). reflexivity. }
  split; [|split].
  - intros before after row Hd.
    assert (Hp : preprocess (before ++ row :: after) = preprocess (before ++ after)).
    { unfold preprocess. rewrite !filter_app. simpl.
      now rewrite (dropped_keep_row row Hd). }
    split; [exact Hp|]. unfold reconstruct_sh_tick_data. now rewrite Hp.
  - exact Hall.
  - intros row Ht. apply Hall. intros r [<-|[]].
    right. rewrite Ht. lia.
Qed.

Lemma C7_dropped_rows_contribute_nothing_witness :
  reconstruct_sh_tick_data
    ([] ++ mkRow 1 92500000 "T" 5001 6001 (Some 10%float) 100 (Some 1000%float)
             "B" "600519" :: scenario_D) "600519"
  = reconstruct_sh_tick_data ([] ++ scenario_D) "600519" /\
  reconstruct_sh_tick_data
    [mkRow 601 93000100 "S" 0 0 (Some 0%float) 0 (Some 0%float) "TRADE" "600519"]
    "600519" = Ret ([], []) /\
  reconstruct_sh_tick_data
    [mkRow 1 92500000 "A" 5001 0 (Some 10%float) 100 (Some 0%float) "B" "600519"]
    "600519" = Ret ([], []).
Proof.
  split; [|split].
  - apply (proj1 (C7_dropped_rows_contribute_nothing "600519")).
    right. simpl. lia.
  - apply (proj1 (proj2 (C7_dropped_rows_contribute_nothing "600519"))).
    intros row [<-|[]]. left. reflexivity.
  - apply (proj2 (proj2 (C7_dropped_rows_contribute_nothing "600519"))).
    reflexivity.
Defined.

(** ** The cache along a run of the loop *)

(** What one iteration does to the cache when it returns. *)
Lemma process_row_cache_done (security_id : string) (row : Row) (st st' : State) :
  process_row security_id row st = Done st' ->
  st_order_map st' =
  match cache_id row with
  | Some k => dict_set k (next_ctx row k (dict_get k (st_order_map st)))
                (st_order_map st)
  | None => st_order_map st
  end.
Proof.
  unfold process_row, cache_id, next_ctx.
  destruct (Type_ row =? "T")%string.
  - unfold process_trade.
    destruct (TickBSFlag row =? "B")%string eqn:EB;
      [|destruct (TickBSFlag row =? "S")%string eqn:ES];
      cbv zeta; cbv beta iota;
      match goal with
      | |- context [match ?tm with Ret _ => _ | Exc _ => _ end] =>
          destruct tm as [m|e]; [|discriminate]
      end;
      try (intros [= <-]; reflexivity);
      match goal with
      | |- context [dict_get ?k ?om] => destruct (dict_get k om) as [c|] eqn:G
      end;
      try (unfold add_trade_qty; destruct (Qty row <? 0); [discriminate|]);
      intros [= <-]; simpl.
    + reflexivity.
    + apply String.eqb_eq in EB. now rewrite EB.
    + reflexivity.
    + apply String.eqb_eq in ES. now rewrite ES.
  - destruct (Type_ row =? "A")%string.
    + rewrite process_add_order_cases. cbv zeta.
      destruct (Qty row <? 0); [discriminate|].
      intros [= <-]. simpl.
      destruct (dict_get (named_order_no row) (st_order_map st)); reflexivity.
    + destruct (Type_ row =? "D")%string.
      * pose proof (process_delete_order_cache row (st_order_map st)
                      (st_order_list st) (st_last_price st) security_id) as H.
        destruct (process_delete_order row (st_order_map st) (st_order_list st)
                    (st_last_price st) security_id) as [[om ol]|e [om ol]];
          [|discriminate].
        intros [= <-]. exact H.
      * intros [= <-]. reflexivity.
Qed.

(** An iteration that raises leaves the cache as it was. *)
Lemma process_row_cache_raised (security_id : string) (row : Row) (st st' : State)
    (e : exn) :
  process_row security_id row st = Raised e st' ->
  st_order_map st' = st_order_map st.
Proof.
  unfold process_row.
  destruct (Type_ row =? "T")%string.
  - unfold process_trade.
    destruct (TickBSFlag row =? "B")%string;
      [|destruct (TickBSFlag row =? "S")%string];
      cbv zeta; cbv beta iota;
      match goal with
      | |- context [match ?tm with Ret _ => _ | Exc _ => _ end] =>
          destruct tm as [m|e0]; [|intros [= <- <-]; reflexivity]
      end;
      try discriminate;
      match goal with
      | |- context [dict_get ?k ?om] => destruct (dict_get k om) as [c|]
      end;
      try discriminate;
      unfold add_trade_qty; destruct (Qty row <? 0); try discriminate;
      intros [= <- <-]; reflexivity.
  - destruct (Type_ row =? "A")%string.
    + rewrite process_add_order_cases. cbv zeta.
      destruct (Qty row <? 0); [|discriminate].
      intros [= <- <-]. reflexivity.
    + destruct (Type_ row =? "D")%string.
      * pose proof (process_delete_order_cache row (st_order_map st)
                      (st_order_list st) (st_last_price st) security_id) as H.
        destruct (process_delete_order row (st_order_map st) (st_order_list st)
                    (st_last_price st) security_id) as [[om ol]|e0 [om ol]];
          [discriminate|].
        intros [= <- <-]. exact H.
      * discriminate.
Qed.

Lemma process_row_key_done (security_id : string) (row : Row) (st st' : State)
    (k : Z) :
  process_row security_id row st = Done st' ->
  dict_get k (st_order_map st') =
  if refers_to k row
  then Some (next_ctx row k (dict_get k (st_order_map st)))
  else dict_get k (st_order_map st).
Proof.
  intros H. rewrite (process_row_cache_done _ _ _ _ H).
  unfold refers_to. destruct (cache_id row) as [k'|]; [|reflexivity].
  destruct (k =? k') eqn:E.
  - apply Z.eqb_eq in E. subst k'. apply dict_get_set_same.
  - apply Z.eqb_neq in E. now apply dict_get_set_other.
Qed.

Lemma refers_to_type (k : Z) (row : Row) :
  refers_to k row = true -> Type_ row = "T" \/ Type_ row = "A".
Proof.
  unfold refers_to, cache_id.
  destruct (Type_ row =? "T")%string eqn:ET.
  - apply String.eqb_eq in ET. auto.
  - destruct (Type_ row =? "A")%string eqn:EA; [|discriminate].
    apply String.eqb_eq in EA. auto.
Qed.

Lemma next_ctx_cached (row : Row) (k : Z) (c : OrderContext) :
  same_birth c (next_ctx row k (Some c)) /\
  get_total_qty (next_ctx row k (Some c)) = get_total_qty c + Qty row.
Proof.
  unfold next_ctx, same_birth, get_total_qty.
  destruct (Type_ row =? "T")%string; simpl; repeat split; lia.
Qed.

Lemma next_ctx_fresh (row : Row) (k : Z) :
  is_aggressive (next_ctx row k None) = (Type_ row =? "T")%string /\
  first_time (next_ctx row k None) = TickTime row /\
  first_biz_index (next_ctx row k None) = BizIndex row /\
  order_no (next_ctx row k None) = k /\
  get_total_qty (next_ctx row k None) = Qty row.
Proof.
  unfold next_ctx, get_total_qty.
  destruct (Type_ row =? "T")%string; simpl; repeat split; lia.
Qed.

(** One iteration, returning or raising, keeps a cached order cached and its
    [is_aggressive] as it is. *)
Lemma process_row_keeps_aggressive (security_id : string) (row : Row) (st : State)
    (k : Z) (c : OrderContext) :
  dict_get k (st_order_map st) = Some c ->
  exists c',
    dict_get k (st_order_map (state_of (process_row security_id row st))) = Some c' /\
    is_aggressive c' = is_aggressive c.
Proof.
  intros Hget.
  destruct (process_row security_id row st) as [st'|e st'] eqn:E; simpl.
  - rewrite (process_row_key_done _ _ _ _ k E), Hget.
    destruct (refers_to k row).
    + eexists. split; [reflexivity|]. apply next_ctx_cached.
    + eauto.
  - rewrite (process_row_cache_raised _ _ _ _ _ E). eauto.
Qed.

Lemma process_rows_keeps_aggressive (security_id : string) (rows : list Row) :
  forall (st : State) (k : Z) (c : OrderContext),
    dict_get k (st_order_map st) = Some c ->
    exists c',
      dict_get k (st_order_map (state_of (process_rows security_id rows st)))
      = Some c' /\
      is_aggressive c' = is_aggressive c.
Proof.
  induction rows as [|row rows IH]; simpl; intros st k c Hget; [eauto|].
  destruct (process_row_keeps_aggressive security_id row st k c Hget)
    as [c1 [Hget1 Hagg1]].
  destruct (process_row security_id row st) as [st1|e st1]; simpl in *.
  - destruct (IH st1 k c1 Hget1) as [c' [Hget' Hagg']].
    exists c'. split; [exact Hget'|congruence].
  - eauto.
Qed.

(** A run that returns: an order that was cached keeps the fields of its
    creation and has gained the quantities of the rows that refer to it. *)
Lemma process_rows_cached (security_id : string) (rows : list Row) :
  forall (st st' : State) (k : Z) (c : OrderContext),
    process_rows security_id rows st = Done st' ->
    dict_get k (st_order_map st) = Some c ->
    exists c',
      dict_get k (st_order_map st') = Some c' /\
      same_birth c c' /\
      get_total_qty c' = get_total_qty c + sum_qty k rows.
Proof.
  induction rows as [|row rows IH]; simpl; intros st st' k c Hrun Hget.
  - injection Hrun as <-. exists c. unfold same_birth. repeat split; auto; lia.
  - destruct (process_row security_id row st) as [st1|e st1] eqn:E; [|discriminate].
    pose proof (process_row_key_done _ _ _ _ k E) as Hk. rewrite Hget in Hk.
    destruct (refers_to k row).
    + destruct (IH st1 st' k _ Hrun Hk) as [c' [Hget' [Hb Ht]]].
      destruct (next_ctx_cached row k c) as [Hb1 Ht1].
      exists c'. split; [exact Hget'|]. split.
      * unfold same_birth in *. intuition congruence.
      * rewrite Ht, Ht1. lia.
    + destruct (IH st1 st' k c Hrun Hk) as [c' [Hget' [Hb Ht]]].
      exists c'. split; [exact Hget'|]. split; [exact Hb|]. rewrite Ht. lia.
Qed.

(** A run that returns: an order that was not cached is cached exactly when
    some row refers to it, with the fields of the first such row. *)
Lemma process_rows_fresh (security_id : string) (rows : list Row) :
  forall (st st' : State) (k : Z),
    process_rows security_id rows st = Done st' ->
    dict_get k (st_order_map st) = None ->
    match first_ref k rows with
    | Some row0 =>
        exists c',
          dict_get k (st_order_map st') = Some c' /\
          is_aggressive c' = (Type_ row0 =? "T")%string /\
          first_time c' = TickTime row0 /\
          first_biz_index c' = BizIndex row0 /\
          order_no c' = k /\
          get_total_qty c' = sum_qty k rows
    | None => dict_get k (st_order_map st') = None
    end.
Proof.
  unfold first_ref.
  induction rows as [|row rows IH]; simpl; intros st st' k Hrun Hget.
  - injection Hrun as <-. exact Hget.
  - destruct (process_row security_id row st) as [st1|e st1] eqn:E; [|discriminate].
    pose proof (process_row_key_done _ _ _ _ k E) as Hk. rewrite Hget in Hk.
    destruct (refers_to k row).
    + destruct (process_rows_cached security_id rows st1 st' k _ Hrun Hk)
        as [c' [Hget' [Hb Ht]]].
      destruct (next_ctx_fresh row k) as [Ha [Hft [Hfb [Hno Htot]]]].
      unfold same_birth in Hb.
      exists c'. rewrite Ht, Htot. intuition congruence.
    + specialize (IH st1 st' k Hrun Hk).
      destruct (find (refers_to k) rows); [|exact IH].
      destruct IH as [c' H]. exists c'. rewrite Z.add_0_l. exact H.
Qed.

(** ** Settlement *)

Lemma settle_items_done (security_id : string) (items : OrderMap) :
  forall order_list order_list',
    settle_items items order_list security_id = Done order_list' ->
    order_list' = order_list ++ settled_records security_id items.
Proof.
  induction items as [|[k ctx] items IH]; simpl; intros ol ol' H.
  - injection H as <-. now rewrite app_nil_r.
  - destruct (trade_qty ctx + resting_qty ctx <=? 0); [now apply IH|].
    unfold gt_zero in H.
    destruct (resting_price ctx) as [rp|] eqn:Hrp; [|discriminate].
    apply IH in H. rewrite H, <- app_assoc. simpl.
    unfold settled_record, effective_price. rewrite Hrp.
    destruct (PrimFloat.ltb 0%float rp); reflexivity.
Qed.

Lemma settle_items_priced (security_id : string) (items : OrderMap) :
  priced items ->
  forall order_list,
    settle_items items order_list security_id
    = Done (order_list ++ settled_records security_id items).
Proof.
  induction items as [|[k ctx] items IH]; simpl; intros Hp ol.
  - now rewrite app_nil_r.
  - assert (Hp' : priced items) by (intros k0 c0 H0; apply (Hp k0 c0); now right).
    destruct (trade_qty ctx + resting_qty ctx <=? 0); [now apply IH|].
    unfold gt_zero.
    destruct (resting_price ctx) as [rp|] eqn:Hrp.
    + rewrite IH by exact Hp'. rewrite <- app_assoc. simpl.
      unfold settled_record, effective_price. rewrite Hrp.
      destruct (PrimFloat.ltb 0%float rp); reflexivity.
    + exfalso. apply (Hp k ctx); [now left|exact Hrp].
Qed.

Lemma In_settled_records (security_id : string) (items : OrderMap) (r : OrderRecord) :
  In r (settled_records security_id items) ->
  exists k ctx,
    In (k, ctx) items /\ r = settled_record security_id k ctx /\
    0 < trade_qty ctx + resting_qty ctx.
Proof.
  induction items as [|[k ctx] items IH]; simpl; [tauto|].
  destruct (trade_qty ctx + resting_qty ctx <=? 0) eqn:E.
  - intros H. destruct (IH H) as [k0 [c0 [Hin H0]]]. exists k0, c0. auto.
  - apply Z.leb_gt in E. intros [<-|H].
    + exists k, ctx. auto.
    + destruct (IH H) as [k0 [c0 [Hin H0]]]. exists k0, c0. auto.
Qed.

Lemma notin_dict_get_None (k : Z) (m : OrderMap) :
  ~ In k (map fst m) -> dict_get k m = None.
Proof.
  induction m as [|[k' v'] m IH]; simpl; [reflexivity|].
  intros H. destruct (k =? k') eqn:E.
  - apply Z.eqb_eq in E. subst. tauto.
  - apply IH. tauto.
Qed.

(** The settled records of one order number. *)
Lemma settled_records_of_key (security_id : string) (items : OrderMap) (k : Z) :
  NoDup (map fst items) ->
  filter (fun r => or_OrdID r =? k) (settled_records security_id items) =
  match dict_get k items with
  | Some ctx =>
      if trade_qty ctx + resting_qty ctx <=? 0 then []
      else [settled_record security_id k ctx]
  | None => []
  end.
Proof.
  induction items as [|[k' ctx] items IH]; simpl; intros Hnd; [reflexivity|].
  inversion Hnd as [|? ? Hnotin Hnd']; subst.
  specialize (IH Hnd').
  destruct (k =? k') eqn:E.
  - apply Z.eqb_eq in E. subst k'.
    rewrite (notin_dict_get_None k items Hnotin) in IH.
    destruct (trade_qty ctx + resting_qty ctx <=? 0); [exact IH|].
    simpl. rewrite Z.eqb_refl, IH. reflexivity.
  - destruct (trade_qty ctx + resting_qty ctx <=? 0); [exact IH|].
    simpl. rewrite Z.eqb_sym, E. exact IH.
Qed.

(** ** Invariants of the loop *)

Lemma In_dict_set (k : Z) (v : OrderContext) (m : OrderMap) (k0 : Z)
    (c0 : OrderContext) :
  In (k0, c0) (dict_set k v m) -> (k0, c0) = (k, v) \/ In (k0, c0) m.
Proof.
  induction m as [|[k' v'] m IH]; simpl.
  - intros [H|[]]. now left.
  - destruct (k =? k') eqn:E; simpl.
    + apply Z.eqb_eq in E. subst k'. intros [H|H]; auto.
    + intros [H|H]; auto. destruct (IH H); auto.
Qed.

Lemma dict_set_NoDup (k : Z) (v : OrderContext) (m : OrderMap) :
  NoDup (map fst m) -> NoDup (map fst (dict_set k v m)).
Proof.
  induction m as [|[k' v'] m IH]; simpl; intros Hnd.
  - constructor; [simpl; tauto|constructor].
  - inversion Hnd as [|? ? Hnotin Hnd']; subst.
    destruct (k =? k') eqn:E; simpl; [now constructor|].
    constructor; [|now apply IH].
    intros Hin. apply in_map_iff in Hin. destruct Hin as [[k0 c0] [Hk0 Hin]].
    simpl in Hk0. subst k0. apply In_dict_set in Hin. destruct Hin as [Heq|Hin].
    + injection Heq as -> _. now rewrite Z.eqb_refl in E.
    + apply Hnotin. apply (in_map fst) in Hin. exact Hin.
Qed.

Lemma process_rows_NoDup (security_id : string) (rows : list Row) :
  forall st st',
    process_rows security_id rows st = Done st' ->
    NoDup (map fst (st_order_map st)) ->
    NoDup (map fst (st_order_map st')).
Proof.
  induction rows as [|row rows IH]; simpl; intros st st' Hrun Hnd.
  - now injection Hrun as <-.
  - destruct (process_row security_id row st) as [st1|e st1] eqn:E; [|discriminate].
    apply (IH st1 st' Hrun).
    rewrite (process_row_cache_done _ _ _ _ E).
    destruct (cache_id row); [now apply dict_set_NoDup|exact Hnd].
Qed.

(** The loop appends Cancel records only. *)
Lemma process_row_order_list (security_id : string) (row : Row) (st : State)
    (r : OrderRecord) :
  In r (st_order_list (state_of (process_row security_id row st))) ->
  In r (st_order_list st) \/ or_OrdType r = "Cancel".
Proof.
  unfold process_row.
  destruct (Type_ row =? "T")%string.
  - destruct (process_trade row (st_order_map st) (st_trade_list st) security_id)
      as [[om tl]|e [om tl]]; simpl; auto.
  - destruct (Type_ row =? "A")%string.
    + destruct (process_add_order row (st_order_map st)); simpl; auto.
    + destruct (Type_ row =? "D")%string; [|simpl; auto].
      rewrite process_delete_order_cases.
      destruct (if raw_price_positive row then _ else _) as [q|e]; simpl; auto.
      intros H. apply in_app_or in H. destruct H as [H|[<-|[]]]; auto.
Qed.

Lemma process_rows_order_list (security_id : string) (rows : list Row) :
  forall st,
    (forall r, In r (st_order_list st) -> or_OrdType r = "Cancel") ->
    forall r,
      In r (st_order_list (state_of (process_rows security_id rows st))) ->
      or_OrdType r = "Cancel".
Proof.
  induction rows as [|row rows IH]; simpl; intros st Hst r; [apply Hst|].
  pose proof (process_row_order_list security_id row st) as Hstep.
  destruct (process_row security_id row st) as [st1|e st1]; simpl in *.
  - apply IH. intros r1 H1. destruct (Hstep r1 H1); auto.
  - intros H1. destruct (Hstep r H1); auto.
Qed.

(** ** Rows that no handler rejects *)

Lemma priced_dict_set (k : Z) (v : OrderContext) (m : OrderMap) :
  priced m -> resting_price v <> None -> priced (dict_set k v m).
Proof.
  intros Hp Hv k0 c0 Hin. apply In_dict_set in Hin. destruct Hin as [Heq|Hin].
  - injection Heq as _ ->. exact Hv.
  - now apply (Hp k0 c0).
Qed.

Lemma next_ctx_priced (row : Row) (k : Z) (m : OrderMap) :
  priced m -> Price row <> None ->
  resting_price (next_ctx row k (dict_get k m)) <> None.
Proof.
  intros Hp Hprice. unfold next_ctx.
  destruct (dict_get k m) as [c|] eqn:G.
  - apply dict_get_In in G. apply Hp in G.
    destruct (Type_ row =? "T")%string; simpl; auto.
  - destruct (Type_ row =? "T")%string; simpl; [discriminate|auto].
Qed.

Lemma process_row_total (security_id : string) (row : Row) (st : State) :
  well_formed_row row -> priced (st_order_map st) ->
  exists st', process_row security_id row st = Done st' /\
              priced (st_order_map st').
Proof.
  intros [Hq Hprice] Hp.
  assert (Hdone : exists st', process_row security_id row st = Done st').
  { assert (Hnn : (Qty row <? 0) = false) by (apply Z.ltb_ge; lia).
    destruct (Price row) as [p|] eqn:Pr; [|congruence].
    unfold process_row.
    destruct (Type_ row =? "T")%string.
    - unfold process_trade. rewrite Pr.
      destruct (TickBSFlag row =? "B")%string;
        [|destruct (TickBSFlag row =? "S")%string];
        cbv zeta; cbv beta iota;
        (destruct (TradeMoney row) as [m|];
         [destruct (PrimFloat.eqb m 0%float)|]);
        try (eexists; reflexivity);
        match goal with
        | |- context [dict_get ?k ?om] => destruct (dict_get k om)
        end;
        unfold add_trade_qty; rewrite ?Hnn; eexists; reflexivity.
    - destruct (Type_ row =? "A")%string.
      + rewrite process_add_order_cases. cbv zeta. rewrite Hnn.
        eexists; reflexivity.
      + destruct (Type_ row =? "D")%string; [|eexists; reflexivity].
        rewrite process_delete_order_cases.
        destruct (raw_price_positive row); [eexists; reflexivity|].
        destruct (dict_get (named_order_no row) (st_order_map st)) as [c|] eqn:G;
          [|eexists; reflexivity].
        apply dict_get_In in G. apply Hp in G.
        unfold get_price, gt_zero.
        destruct (resting_price c) as [rp|]; [|congruence].
        destruct (PrimFloat.ltb 0%float rp); eexists; reflexivity. }
  destruct Hdone as [st' Hdone]. exists st'. split; [exact Hdone|].
  rewrite (process_row_cache_done _ _ _ _ Hdone).
  destruct (cache_id row) as [k|]; [|exact Hp].
  apply priced_dict_set; [exact Hp|now apply next_ctx_priced].
Qed.

(** On rows that no handler rejects the loop returns, and so does the
    settlement of the cache it leaves. *)
Lemma process_rows_total (security_id : string) (rows : list Row) :
  forall st,
    (forall row, In row rows -> well_formed_row row) ->
    priced (st_order_map st) ->
    exists st', process_rows security_id rows st = Done st' /\
                priced (st_order_map st').
Proof.
  induction rows as [|row rows IH]; simpl; intros st Hwf Hp; [eauto|].
  destruct (process_row_total security_id row st) as [st1 [E Hp1]];
    [apply Hwf; now left|exact Hp|].
  rewrite E. apply IH; [|exact Hp1]. intros r Hr. apply Hwf. now right.
Qed.

Lemma priced_init : priced (st_order_map init_state).
Proof. intros k c []. Qed.

(** The sort keeps the elements. *)
Lemma In_insert_by_key {A : Type} (key : A -> Z * Z) (x y : A) (l : list A) :
  In x (insert_by_key key y l) <-> x = y \/ In x l.
Proof.
  induction l as [|z l IH]; simpl.
  - intuition.
  - destruct (key_le (key y) (key z)); simpl; intuition.
Qed.

Lemma In_sort_by_key {A : Type} (key : A -> Z * Z) (x : A) (l : list A) :
  In x (sort_by_key key l) <-> In x l.
Proof.
  induction l as [|y l IH]; simpl; [tauto|].
  rewrite In_insert_by_key, IH. intuition.
Qed.

Lemma reconstruct_total (df : list Row) (security_id : string) :
  (forall row, In row df -> well_formed_row row) ->
  exists orders trades,
    reconstruct_sh_tick_data df security_id = Ret (orders, trades).
Proof.
  intros Hwf. unfold reconstruct_sh_tick_data.
  destruct (process_rows_total security_id (preprocess df) init_state)
    as [st [Hrun Hp]].
  { intros row Hin. unfold preprocess in Hin.
    apply In_sort_by_key in Hin. apply filter_In in Hin. now apply Hwf. }
  { exact priced_init. }
  rewrite Hrun. unfold settle_orders.
  rewrite (settle_items_priced security_id _ Hp). eauto.
Qed.

(** ** Whole runs: the birth mode and the settled record *)

Lemma first_ref_type (k : Z) (rows : list Row) (row0 : Row) :
  first_ref k rows = Some row0 -> Type_ row0 = "T" \/ Type_ row0 = "A".
Proof.
  unfold first_ref. intros H. apply find_some in H.
  apply (refers_to_type k). tauto.
Qed.

Lemma NoDup_init : NoDup (map fst (st_order_map init_state)).
Proof. constructor. Qed.

(** Every New record of a settled run of the loop comes from the cache. *)
Lemma settled_new_record (security_id : string) (st : State)
    (om : OrderMap) (ol : list OrderRecord) (r : OrderRecord) :
  (forall r0, In r0 (st_order_list st) -> or_OrdType r0 = "Cancel") ->
  NoDup (map fst (st_order_map st)) ->
  settle_orders (st_order_map st) (st_order_list st) security_id = Done (om, ol) ->
  In r ol -> or_OrdType r = "New" ->
  exists ctx,
    dict_get (or_OrdID r) (st_order_map st) = Some ctx /\
    r = settled_record security_id (or_OrdID r) ctx.
Proof.
  intros Hcancel Hnd Hsettle Hin Hnew.
  unfold settle_orders in Hsettle.
  destruct (settle_items (st_order_map st) (st_order_list st) security_id)
    as [l|e l] eqn:E; [|discriminate].
  injection Hsettle as _ <-.
  apply settle_items_done in E. subst l.
  apply in_app_or in Hin. destruct Hin as [Hin|Hin].
  - apply Hcancel in Hin. rewrite Hin in Hnew. discriminate.
  - apply In_settled_records in Hin.
    destruct Hin as [k [ctx [Hin [-> _]]]]. simpl.
    exists ctx. split; [now apply In_dict_get|reflexivity].
Qed.

(** C1.  [is_aggressive] is fixed by the first row that brings the order
    number into the cache: [True] when that row is a Trade, [False] when it is
    an Add.  No later iteration of the loop changes it, whatever the row and
    whether the handler returns or raises, and the New record that the order
    settles to, in the cache and in the driver's sorted output, carries that
    value. *)
Theorem C1_is_aggressive_fixed_by_first_row (security_id : string)
    (rows : list Row) (k : Z) (row0 : Row) :
  first_ref k rows = Some row0 ->
  (Type_ row0 = "T" \/ Type_ row0 = "A") /\
  (forall st,
     process_rows security_id rows init_state = Done st ->
     exists ctx,
       dict_get k (st_order_map st) = Some ctx /\
       is_aggressive ctx = (Type_ row0 =? "T")%string) /\
  (forall row st1 c1,
     dict_get k (st_order_map st1) = Some c1 ->
     exists c2,
       dict_get k (st_order_map (state_of (process_row security_id row st1)))
       = Some c2 /\
       is_aggressive c2 = is_aggressive c1) /\
  (forall st om ol r,
     process_rows security_id rows init_state = Done st ->
     settle_orders (st_order_map st) (st_order_list st) security_id
     = Done (om, ol) ->
     In r ol -> or_OrdType r = "New" -> or_OrdID r = k ->
     or_IsAggressive r = Some (Type_ row0 =? "T")%string) /\
  (forall df orders trades r,
     preprocess df = rows ->
     reconstruct_sh_tick_data df security_id = Ret (orders, trades) ->
     In r orders -> or_OrdType r = "New" -> or_OrdID r = k ->
     or_IsAggressive r = Some (Type_ row0 =? "T")%string).
Proof.
  intros Hfirst.
  assert (Hcache : forall st,
             process_rows security_id rows init_state = Done st ->
             exists ctx,
               dict_get k (st_order_map st) = Some ctx /\
               is_aggressive ctx = (Type_ row0 =? "T")%string).
  { intros st Hrun.
    pose proof (process_rows_fresh security_id rows init_state st k Hrun eq_refl)
      as H.
    rewrite Hfirst in H. destruct H as [c [Hget [Hagg _]]]. eauto. }
  assert (Hsettled : forall st om ol r,
             process_rows security_id rows init_state = Done st ->
             settle_orders (st_order_map st) (st_order_list st) security_id
             = Done (om, ol) ->
             In r ol -> or_OrdType r = "New" -> or_OrdID r = k ->
             or_IsAggressive r = Some (Type_ row0 =? "T")%string).
  { intros st om ol r Hrun Hsettle Hin Hnew Hid.
    destruct (Hcache st Hrun) as [ctx [Hget Hagg]].
    destruct (settled_new_record security_id st om ol r) as [ctx' [Hget' ->]]; auto.
    - intros r0 Hr0.
      apply (process_rows_order_list security_id rows init_state);
        [intros ? []|].
      rewrite Hrun. exact Hr0.
    - apply (process_rows_NoDup security_id rows init_state st Hrun NoDup_init).
    - simpl in *. subst k. rewrite Hget in Hget'. injection Hget' as <-.
      now rewrite Hagg. }
  split; [now apply (first_ref_type k rows)|].
  split; [exact Hcache|].
  split; [intros row st1 c1; apply process_row_keeps_aggressive|].
  split; [exact Hsettled|].
  intros df orders trades r Hpre. unfold reconstruct_sh_tick_data. rewrite Hpre.
  destruct (process_rows security_id rows init_state) as [st|e st] eqn:Hrun;
    [|discriminate].
  destruct (settle_orders (st_order_map st) (st_order_list st) security_id)
    as [[om ol]|e [om ol]] eqn:Hsettle; [|discriminate].
  intros [= <- _] Hin. apply In_sort_by_key in Hin.
  now apply (Hsettled st om ol r).
Qed.

Lemma C1_is_aggressive_fixed_by_first_row_witness :
  (exists ctx,
     dict_get 1002
       (st_order_map (state_of (process_rows "600519" scenario_B init_state)))
     = Some ctx /\
     is_aggressive ctx = true) /\
  (exists ctx,
     dict_get 3001
       (st_order_map (state_of (process_rows "600519" scenario_C init_state)))
     = Some ctx /\
     is_aggressive ctx = false).
Proof.
  split.
  - apply (proj1 (proj2
             (C1_is_aggressive_fixed_by_first_row "600519" scenario_B 1002
                (mkRow 200 93001000 "T" 1002 2002 (Some 60%float) 600
                   (Some 36000%float) "B" "600519") eq_refl))).
    reflexivity.
  - apply (proj1 (proj2
             (C1_is_aggressive_fixed_by_first_row "600519" scenario_C 3001
                (mkRow 300 93002000 "A" 0 3001 (Some 45%float) 2000
                   (Some 0%float) "S" "600519") eq_refl))).
    reflexivity.
Defined.

(** C2.  When the loop has returned and the cached resting prices are
    numbers, the settlement returns and appends, for every cached context
    with [trade_qty + resting_qty > 0], exactly one New record, and none for
    the others.  The record's quantity is that total, which is the sum of
    [Qty] over the rows of the run that refer to the order; its price is
    [resting_price] when strictly positive and [trade_price] otherwise; its
    [BizIndex] and [TickTime] are those of the first row that refers to the
    order; side and [IsAggressive] are the cached ones.  The records that
    were in the list before are Cancel records. *)
Theorem C2_settlement_records (security_id : string) (rows : list Row)
    (st : State) :
  process_rows security_id rows init_state = Done st ->
  priced (st_order_map st) ->
  exists news,
    settle_orders (st_order_map st) (st_order_list st) security_id
    = Done (st_order_map st, st_order_list st ++ news) /\
    (forall r, In r (st_order_list st) -> or_OrdType r = "Cancel") /\
    (forall r, In r news ->
       or_OrdType r = "New" /\
       exists ctx, dict_get (or_OrdID r) (st_order_map st) = Some ctx /\
                   0 < trade_qty ctx + resting_qty ctx) /\
    forall k ctx,
      dict_get k (st_order_map st) = Some ctx ->
      trade_qty ctx + resting_qty ctx = sum_qty k rows /\
      (exists row0,
         first_ref k rows = Some row0 /\
         first_biz_index ctx = BizIndex row0 /\
         first_time ctx = TickTime row0) /\
      (0 < trade_qty ctx + resting_qty ctx ->
       exists r,
         filter (fun r => or_OrdID r =? k) news = [r] /\
         or_SecurityID r = security_id /\
         or_OrdType r = "New" /\
         or_Qty r = trade_qty ctx + resting_qty ctx /\
         or_Qty r = sum_qty k rows /\
         (forall rp, resting_price ctx = Some rp ->
            or_Price r
            = if PrimFloat.ltb 0%float rp then Some rp else trade_price ctx) /\
         or_BizIndex r = first_biz_index ctx /\
         or_TickTime r = first_time ctx /\
         or_Side r = side ctx /\
         or_IsAggressive r = Some (is_aggressive ctx)) /\
      (trade_qty ctx + resting_qty ctx <= 0 ->
       filter (fun r => or_OrdID r =? k) news = []).
Proof.
  intros Hrun Hp.
  pose proof (process_rows_NoDup security_id rows init_state st Hrun NoDup_init)
    as Hnd.
  exists (settled_records security_id (st_order_map st)).
  split; [|split; [|split]].
  - unfold settle_orders. now rewrite (settle_items_priced security_id _ Hp).
  - intros r Hr.
    apply (process_rows_order_list security_id rows init_state); [intros ? []|].
    rewrite Hrun. exact Hr.
  - intros r Hr. apply In_settled_records in Hr.
    destruct Hr as [k [ctx [Hin [-> Hpos]]]]. simpl.
    split; [reflexivity|]. exists ctx. split; [now apply In_dict_get|exact Hpos].
  - intros k ctx Hget.
    pose proof (process_rows_fresh security_id rows init_state st k Hrun eq_refl)
      as Hfresh.
    destruct (first_ref k rows) as [row0|] eqn:Hfirst;
      [|rewrite Hget in Hfresh; discriminate].
    destruct Hfresh as [c' [Hget' [_ [Hft [Hfb [_ Htot]]]]]].
    rewrite Hget in Hget'. injection Hget' as <-.
    unfold get_total_qty in Htot.
    split; [exact Htot|]. split; [eauto|].
    rewrite (settled_records_of_key security_id _ k Hnd), Hget.
    split.
    + intros Hpos.
      destruct (trade_qty ctx + resting_qty ctx <=? 0) eqn:E;
        [apply Z.leb_le in E; lia|].
      exists (settled_record security_id k ctx). simpl.
      repeat split; auto.
      intros rp Hrp. unfold effective_price. now rewrite Hrp.
    + intros Hle.
      destruct (trade_qty ctx + resting_qty ctx <=? 0) eqn:E;
        [reflexivity|apply Z.leb_gt in E; lia].
Qed.

Lemma C2_settlement_records_witness :
  exists news,
    settle_orders
      (st_order_map (state_of (process_rows "600519" scenario_B init_state)))
      (st_order_list (state_of (process_rows "600519" scenario_B init_state)))
      "600519"
    = Done (st_order_map (state_of (process_rows "600519" scenario_B init_state)),
            st_order_list (state_of (process_rows "600519" scenario_B init_state))
            ++ news) /\
    forall r, In r news -> or_OrdType r = "New".
Proof.
  destruct (C2_settlement_records "600519" scenario_B
              (state_of (process_rows "600519" scenario_B init_state)) eq_refl)
    as [news [Hsettle [_ [Hnew _]]]].
  - intros k c Hin. vm_compute in Hin.
    destruct Hin as [Heq|[]]. injection Heq as _ <-. discriminate.
  - exists news. split; [exact Hsettle|]. intros r Hr. now apply Hnew.
Defined.

(** ** The observer of the daily loop *)

Lemma In_insert_string (x y : string) (l : list string) :
  In x (insert_string y l) <-> x = y \/ In x l.
Proof.
  induction l as [|z l IH]; simpl.
  - intuition.
  - destruct (String.leb y z); simpl; intuition.
Qed.

Lemma In_sort_strings (x : string) (l : list string) :
  In x (sort_strings l) <-> In x l.
Proof.
  unfold sort_strings. induction l as [|y l IH]; simpl; [tauto|].
  rewrite In_insert_string, IH. intuition.
Qed.

Lemma NoDup_insert_string (y : string) (l : list string) :
  ~ In y l -> NoDup l -> NoDup (insert_string y l).
Proof.
  induction l as [|z l IH]; simpl; intros Hy Hnd.
  - constructor; [simpl; tauto|constructor].
  - destruct (String.leb y z).
    + constructor; [simpl; tauto|exact Hnd].
    + inversion Hnd as [|? ? Hz Hnd']; subst.
      constructor; [|apply IH; tauto].
      rewrite In_insert_string. intros [->|H]; tauto.
Qed.

Lemma NoDup_sort_strings (l : list string) :
  NoDup l -> NoDup (sort_strings l).
Proof.
  unfold sort_strings. induction l as [|y l IH]; simpl; intros Hnd;
    [constructor|].
  inversion Hnd as [|? ? Hy Hnd']; subst.
  apply NoDup_insert_string; [|now apply IH].
  fold (sort_strings l). now rewrite In_sort_strings.
Qed.

Lemma length_insert_string (y : string) (l : list string) :
  List.length (insert_string y l) = S (List.length l).
Proof.
  induction l as [|z l IH]; simpl; [reflexivity|].
  destruct (String.leb y z); simpl; [reflexivity|now rewrite IH].
Qed.

Lemma length_sort_strings (l : list string) :
  List.length (sort_strings l) = List.length l.
Proof.
  unfold sort_strings. induction l as [|y l IH]; simpl; [reflexivity|].
  now rewrite length_insert_string, IH.
Qed.

Lemma security_ids_of_spec (df : list Row) :
  NoDup (security_ids_of df) /\
  (forall s, In s (security_ids_of df) <->
             exists row, In row df /\ SecurityID row = s) /\
  List.length (security_ids_of df)
  = List.length (nodup string_dec (map SecurityID df)).
Proof.
  unfold security_ids_of. split; [|split].
  - apply NoDup_sort_strings, NoDup_nodup.
  - intros s. rewrite In_sort_strings, nodup_In, in_map_iff.
    split; intros [row [H1 H2]]; exists row; tauto.
  - apply length_sort_strings.
Qed.

(** The observer is called at the head of each iteration that the loop
    starts. *)
Lemma daily_loop_calls (df : list Row) (total : Z) (ids : list string) :
  forall (i : Z) (b : Batch),
    callback_calls (state_of (daily_loop df true total i ids b))
    = callback_calls b ++ numbered i total (started df ids).
Proof.
  induction ids as [|s ids IH]; simpl; intros i b.
  - now rewrite app_nil_r.
  - fold (group_of df s).
    destruct (reconstruct_sh_tick_data (group_of df s) s) as [[orders trades]|e];
      simpl.
    + rewrite IH. simpl. now rewrite <- app_assoc.
    + reflexivity.
Qed.

Lemma daily_loop_no_callback (df : list Row) (total : Z) (ids : list string) :
  forall (i : Z) (b : Batch),
    callback_calls (state_of (daily_loop df false total i ids b))
    = callback_calls b.
Proof.
  induction ids as [|s ids IH]; simpl; intros i b; [reflexivity|].
  destruct (reconstruct_sh_tick_data _ s) as [[orders trades]|e]; simpl;
    [now rewrite IH|reflexivity].
Qed.

Lemma daily_loop_done_started (df : list Row) (cb : bool) (total : Z)
    (ids : list string) :
  forall (i : Z) (b b' : Batch),
    daily_loop df cb total i ids b = Done b' ->
    started df ids = ids /\ completed df ids = ids.
Proof.
  induction ids as [|s ids IH]; simpl; intros i b b' H; [auto|].
  fold (group_of df s) in H.
  destruct (reconstruct_sh_tick_data (group_of df s) s) as [[orders trades]|e];
    [|discriminate].
  apply IH in H. destruct H as [-> ->]. auto.
Qed.

Lemma numbered_nth (total : Z) (ids : list string) :
  forall (i : Z) (j : nat) (s : string),
    nth_error ids j = Some s ->
    nth_error (numbered i total ids) j = Some (s, i + Z.of_nat j + 1, total).
Proof.
  induction ids as [|s0 ids IH]; intros i j s; destruct j; simpl;
    try discriminate.
  - intros [= ->]. now rewrite Z.add_0_r.
  - intros H. rewrite (IH (i + 1) j s H). f_equal. f_equal. f_equal. lia.
Qed.

Lemma numbered_length (i total : Z) (ids : list string) :
  List.length (numbered i total ids) = List.length ids.
Proof.
  revert i. induction ids as [|s ids IH]; simpl; intros i; [reflexivity|].
  now rewrite IH.
Qed.

(** C9 (as the code has it).  With an observer the loop calls it once at the
    head of each iteration it starts, before that security is reconstructed,
    with the security, its position counted from 1 in the ascending list of
    the distinct securities of the frame, and the number of those
    securities.  A run that returns has made exactly one call per distinct
    security, the [j]-th of them with count [j]; a run that a security's
    reconstruction ends has made the call for that security too.  Without an
    observer there is no call. *)
Theorem C9_observer_calls (df : list Row) :
  let security_ids := security_ids_of df in
  let total := Z.of_nat (List.length security_ids) in
  NoDup security_ids /\
  (forall s, In s security_ids <-> exists row, In row df /\ SecurityID row = s) /\
  callback_calls (state_of (process_daily_data df true))
  = numbered 0 total (started df security_ids) /\
  (forall b,
     process_daily_data df true = Done b ->
     completed df security_ids = security_ids /\
     List.length (callback_calls b) = List.length security_ids /\
     forall j s,
       nth_error security_ids j = Some s ->
       nth_error (callback_calls b) j = Some (s, Z.of_nat j + 1, total)) /\
  callback_calls (state_of (process_daily_data df false)) = [].
Proof.
  cbv zeta.
  destruct (security_ids_of_spec df) as [Hnd [Hin _]].
  split; [exact Hnd|]. split; [exact Hin|].
  assert (Hcalls : callback_calls (state_of (process_daily_data df true))
                   = numbered 0 (Z.of_nat (List.length (security_ids_of df)))
                       (started df (security_ids_of df))).
  { unfold process_daily_data. now rewrite daily_loop_calls. }
  split; [exact Hcalls|]. split.
  - intros b Hdone.
    assert (Hb : callback_calls b
                 = numbered 0 (Z.of_nat (List.length (security_ids_of df)))
                     (security_ids_of df)).
    { rewrite Hdone in Hcalls. simpl in Hcalls. rewrite Hcalls.
      unfold process_daily_data in Hdone.
      apply daily_loop_done_started in Hdone. destruct Hdone as [-> _].
      reflexivity. }
    split.
    + unfold process_daily_data in Hdone.
      now apply daily_loop_done_started in Hdone.
    + rewrite Hb. split; [apply numbered_length|].
      intros j s Hj. rewrite (numbered_nth _ _ 0 j s Hj). reflexivity.
  - unfold process_daily_data. now rewrite daily_loop_no_callback.
Qed.

Lemma C9_observer_calls_witness :
  completed scenario_D (security_ids_of scenario_D) = security_ids_of scenario_D /\
  List.length (callback_calls (state_of (process_daily_data scenario_D true)))
  = List.length (security_ids_of scenario_D) /\
  nth_error (callback_calls (state_of (process_daily_data scenario_D true))) 0
  = Some ("600519", Z.of_nat 0 + 1,
          Z.of_nat (List.length (security_ids_of scenario_D))).
Proof.
  destruct (proj1 (proj2 (proj2 (proj2 (C9_observer_calls scenario_D))))
              (state_of (process_daily_data scenario_D true)))
    as [Hc [Hl Hn]].
  - vm_compute. reflexivity.
  - split; [exact Hc|]. split; [exact Hl|]. apply Hn. reflexivity.
Defined.

(** C9 as the design document words it, one call per completed security,
    fails on a day whose only security cannot be reconstructed: the observer
    has been called with count 1 and no security has completed. *)
Lemma C9_call_precedes_completion :
  reconstruct_sh_tick_data (group_of failing_day "600519") "600519"
  = Exc ValueError /\
  completed failing_day (security_ids_of failing_day) = [] /\
  callback_calls (state_of (process_daily_data failing_day true))
  = [("600519", 1, 1)] /\
  callback_calls (state_of (process_daily_data failing_day true))
  <> numbered 0 1 (completed failing_day (security_ids_of failing_day)).
Proof.
  split; [reflexivity|]. split; [reflexivity|]. split; [reflexivity|].
  vm_compute. discriminate.
Qed.

(** * Further properties *)

(** ** The session names and the clock fields *)

Ltac Z_bool_to_prop :=
  repeat match goal with
         | H : (_ <=? _) = true |- _ => apply Z.leb_le in H
         | H : (_ <=? _) = false |- _ => apply Z.leb_gt in H
         | H : (_ <? _) = true |- _ => apply Z.ltb_lt in H
         | H : (_ <? _) = false |- _ => apply Z.ltb_ge in H
         end.

Lemma get_trading_session_cases (t : Z) :
  (t < 91500000 /\ get_trading_session t = "closed") \/
  (91500000 <= t < 92500000 /\ get_trading_session t = "morning_auction") \/
  (92500000 <= t < 93000000 /\ get_trading_session t = "silent_period") \/
  (93000000 <= t < 113000000 /\ get_trading_session t = "morning_continuous") \/
  (113000000 <= t < 130000000 /\ get_trading_session t = "lunch_break") \/
  (130000000 <= t < 150000000 /\ get_trading_session t = "afternoon_continuous") \/
  (150000000 <= t /\ get_trading_session t = "closed").
Proof.
  unfold get_trading_session, OPEN_AUCTION_START, OPEN_AUCTION_END,
    MORNING_START, MORNING_END, AFTERNOON_START, AFTERNOON_END.
  destruct (t <? 91500000) eqn:E1; Z_bool_to_prop; [auto|].
  destruct (t <? 92500000) eqn:E2; Z_bool_to_prop; [auto 10|].
  destruct (t <? 93000000) eqn:E3; Z_bool_to_prop; [auto 10|].
  destruct (t <? 113000000) eqn:E4; Z_bool_to_prop; [auto 10|].
  destruct (t <? 130000000) eqn:E5; Z_bool_to_prop; [auto 10|].
  destruct (t <? 150000000) eqn:E6; Z_bool_to_prop; auto 10.
Qed.

(** X1.  The two views of the trading day agree: a time passes
    [is_continuous_trading_time] exactly when [get_trading_session] names it
    ['morning_continuous'] or ['afternoon_continuous']; the times the filter
    drops are named ['closed'], ['morning_auction'], ['silent_period'] or
    ['lunch_break'], and the time 15:00:00.000 itself is ['closed']. *)
Theorem X1_session_name_agrees_with_filter (t : Z) :
  (is_continuous_trading_time t = true <->
   get_trading_session t = "morning_continuous" \/
   get_trading_session t = "afternoon_continuous") /\
  (is_continuous_trading_time t = false <->
   get_trading_session t = "closed" \/
   get_trading_session t = "morning_auction" \/
   get_trading_session t = "silent_period" \/
   get_trading_session t = "lunch_break") /\
  get_trading_session 150000000 = "closed".
Proof.
  assert (Hf : is_continuous_trading_time t = false <->
               ~ (93000000 <= t < 113000000 \/ 130000000 <= t < 150000000)).
  { rewrite <- is_continuous_trading_time_spec.
    destruct (is_continuous_trading_time t); split; intros H.
    - discriminate.
    - exfalso. now apply H.
    - discriminate.
    - reflexivity. }
  split; [|split; [|reflexivity]].
  - rewrite is_continuous_trading_time_spec.
    destruct (get_trading_session_cases t)
      as [[H ->]|[[H ->]|[[H ->]|[[H ->]|[[H ->]|[[H ->]|[H ->]]]]]]];
      split; intros H'; try (destruct H' as [H'|H']; try discriminate); auto; lia.
  - rewrite Hf.
    destruct (get_trading_session_cases t)
      as [[H ->]|[[H ->]|[[H ->]|[[H ->]|[[H ->]|[[H ->]|[H ->]]]]]]];
      split; intros H'; auto;
      try (intros [?|?]; lia);
      try (exfalso; apply H'; lia);
      try (destruct H' as [H'|[H'|[H'|H']]]; discriminate).
Qed.

Lemma parse_tick_time_fields (t : Z) :
  let '(hour, minute, second, millisecond) := parse_tick_time t in
  t = ((hour * 100 + minute) * 100 + second) * 1000 + millisecond /\
  0 <= millisecond < 1000 /\
  0 <= second < 100 /\
  0 <= minute < 100 /\
  (0 <= t -> 0 <= hour).
Proof.
  unfold parse_tick_time. cbv zeta.
  pose proof (Z.div_mod t 1000 ltac:(lia)) as H1.
  pose proof (Z.mod_pos_bound t 1000 ltac:(lia)) as B1.
  pose proof (Z.div_mod (t / 1000) 100 ltac:(lia)) as H2.
  pose proof (Z.mod_pos_bound (t / 1000) 100 ltac:(lia)) as B2.
  pose proof (Z.div_mod (t / 1000 / 100) 100 ltac:(lia)) as H3.
  pose proof (Z.mod_pos_bound (t / 1000 / 100) 100 ltac:(lia)) as B3.
  repeat split; lia.
Qed.

(** X2.  [parse_tick_time] loses nothing: for every integer the four fields
    put back together give the time, the millisecond field lies in
    [0, 1000) and the second and minute fields in [0, 100); the hour field
    is not negative when the time is not. *)
Theorem X2_parse_tick_time_round_trip (t : Z) :
  let '(hour, minute, second, millisecond) := parse_tick_time t in
  t = ((hour * 100 + minute) * 100 + second) * 1000 + millisecond /\
  0 <= millisecond < 1000 /\
  0 <= second < 100 /\
  0 <= minute < 100 /\
  (0 <= t -> 0 <= hour).
Proof. exact (parse_tick_time_fields t). Qed.

Lemma X2_parse_tick_time_round_trip_witness :
  parse_tick_time 145959999 = (14, 59, 59, 999) /\
  145959999 = ((14 * 100 + 59) * 100 + 59) * 1000 + 999 /\
  0 <= 14.
Proof.
  pose proof (X2_parse_tick_time_round_trip 145959999) as H.
  change (parse_tick_time 145959999) with (14, 59, 59, 999) in H.
  destruct H as [H1 [_ [_ [_ H5]]]].
  split; [reflexivity|]. split; [exact H1|]. apply H5. lia.
Defined.

(** X3.  The filter in clock terms: a time passes
    [is_continuous_trading_time] exactly when its hour and minute fields, as
    [parse_tick_time] gives them, lie from 09:30 to 11:29 or from 13:00 to
    14:59, whatever the second and millisecond fields. *)
Theorem X3_filter_by_hour_and_minute (t : Z) :
  let '(hour, minute, second, millisecond) := parse_tick_time t in
  is_continuous_trading_time t = true <->
  (930 <= hour * 100 + minute < 1130 \/ 1300 <= hour * 100 + minute < 1500).
Proof.
  pose proof (parse_tick_time_fields t) as H.
  destruct (parse_tick_time t) as [[[hour minute] second] millisecond].
  rewrite is_continuous_trading_time_spec. lia.
Qed.

(** ** The loop, row by row *)

Lemma process_rows_app (security_id : string) (rows1 rows2 : list Row) :
  forall st,
    process_rows security_id (rows1 ++ rows2) st =
    match process_rows security_id rows1 st with
    | Done st1 => process_rows security_id rows2 st1
    | Raised e st1 => Raised e st1
    end.
Proof.
  induction rows1 as [|row rows1 IH]; simpl; intros st; [reflexivity|].
  destruct (process_row security_id row st) as [st1|e st1]; [apply IH|reflexivity].
Qed.

(** What one iteration that returns does to the trade list, the order list
    and the last price. *)
Lemma process_row_lists_done (security_id : string) (row : Row) (st st' : State) :
  process_row security_id row st = Done st' ->
  (if is_trade_row row
   then exists r, st_trade_list st' = st_trade_list st ++ [r] /\
                  is_trade_of row security_id r
   else st_trade_list st' = st_trade_list st) /\
  (if negb (is_trade_row row) && negb (is_add_row row) && is_delete_row row
   then exists r, st_order_list st' = st_order_list st ++ [r] /\
                  is_cancel_of row security_id r
   else st_order_list st' = st_order_list st) /\
  st_last_price st' =
  (if positive_trade row
   then match Price row with Some p => p | None => st_last_price st end
   else st_last_price st).
Proof.
  unfold process_row, positive_trade, raw_price_positive, is_trade_row,
    is_add_row, is_delete_row.
  destruct (Type_ row =? "T")%string; simpl.
  - destruct (step3_trade_money row) as [m|e] eqn:E.
    + pose proof (process_trade_list row (st_order_map st) (st_trade_list st)
                    security_id m E) as H.
      destruct (process_trade row (st_order_map st) (st_trade_list st) security_id)
        as [[om tl]|e [om tl]]; [|discriminate].
      intros [= <-]. simpl in *. split; [|split; [reflexivity|]].
      * exists (step3_record row security_id m).
        split; [exact H|apply step3_record_is_trade_of].
      * destruct (Price row) as [p|]; [|reflexivity].
        destruct (PrimFloat.ltb 0%float p); reflexivity.
    + rewrite (process_trade_no_money row _ _ security_id e E). discriminate.
  - destruct (Type_ row =? "A")%string; simpl.
    + destruct (process_add_order row (st_order_map st)); [|discriminate].
      intros [= <-]. simpl. auto.
    + destruct (Type_ row =? "D")%string.
      * rewrite process_delete_order_cases.
        destruct (if raw_price_positive row then _ else _) as [q|e];
          [|discriminate].
        intros [= <-]. simpl. split; [reflexivity|]. split; [|reflexivity].
        eexists. split; [reflexivity|]. unfold is_cancel_of; simpl. tauto.
      * intros [= <-]. auto.
Qed.

Lemma Forall2_snoc {A B : Type} (R : A -> B -> Prop) (l : list A) (l' : list B)
    (a : A) (b : B) :
  Forall2 R l l' -> R a b -> Forall2 R (l ++ [a]) (l' ++ [b]).
Proof. intros H1 H2. apply Forall2_app; [exact H1|]. constructor; auto. Qed.

Lemma process_rows_trade_records (security_id : string) (rows : list Row) :
  forall st st',
    process_rows security_id rows st = Done st' ->
    exists new,
      st_trade_list st' = st_trade_list st ++ new /\
      Forall2 (fun row r => is_trade_of row security_id r)
        (filter is_trade_row rows) new.
Proof.
  induction rows as [|row rows IH]; simpl; intros st st' H.
  - injection H as <-. exists []. rewrite app_nil_r. split; [reflexivity|constructor].
  - destruct (process_row security_id row st) as [st1|e st1] eqn:E; [|discriminate].
    destruct (IH st1 st' H) as [new [Hl HF]].
    destruct (process_row_lists_done _ _ _ _ E) as [Ht _].
    destruct (is_trade_row row).
    + destruct Ht as [r [Hr Hof]]. exists (r :: new). split.
      * rewrite Hl, Hr, <- app_assoc. reflexivity.
      * constructor; assumption.
    + exists new. split; [congruence|exact HF].
Qed.

Lemma process_rows_cancel_records (security_id : string) (rows : list Row) :
  forall st st',
    process_rows security_id rows st = Done st' ->
    exists new,
      st_order_list st' = st_order_list st ++ new /\
      Forall2 (fun row r => is_cancel_of row security_id r)
        (filter is_delete_row rows) new.
Proof.
  induction rows as [|row rows IH]; simpl; intros st st' H.
  - injection H as <-. exists []. rewrite app_nil_r. split; [reflexivity|constructor].
  - destruct (process_row security_id row st) as [st1|e st1] eqn:E; [|discriminate].
    destruct (IH st1 st' H) as [new [Hl HF]].
    destruct (process_row_lists_done _ _ _ _ E) as [_ [Hc _]].
    unfold is_trade_row, is_add_row, is_delete_row in *.
    destruct (Type_ row =? "D")%string eqn:ED.
    + apply String.eqb_eq in ED. rewrite ED in Hc. simpl in Hc.
      destruct Hc as [r [Hr Hof]]. exists (r :: new). split.
      * rewrite Hl, Hr, <- app_assoc. reflexivity.
      * constructor; assumption.
    + rewrite andb_false_r in Hc. exists new. split; [congruence|exact HF].
Qed.

(** X4.  When the loop returns, the trade list has gained exactly one record
    per Trade row, in row order, each copying its row's [BizIndex],
    [TickTime], both order numbers, price and quantity, with [ActiveSide] 1,
    2 or 0 for the flags ['B'], ['S'] and any other; Add and Delete rows add
    nothing to it. *)
Theorem X4_trade_records_follow_trade_rows (security_id : string)
    (rows : list Row) (st st' : State) :
  process_rows security_id rows st = Done st' ->
  exists new,
    st_trade_list st' = st_trade_list st ++ new /\
    Forall2 (fun row r => is_trade_of row security_id r)
      (filter is_trade_row rows) new /\
    forall r, In r new ->
      tr_ActiveSide r = 0 \/ tr_ActiveSide r = 1 \/ tr_ActiveSide r = 2.
Proof.
  intros H.
  destruct (process_rows_trade_records security_id rows st st' H) as [new [Hl HF]].
  exists new. split; [exact Hl|]. split; [exact HF|].
  clear Hl. induction HF as [|row r rows' new' Hof HF IH]; [intros ? []|].
  intros r0 [<-|Hin]; [|now apply IH].
  destruct Hof as [_ [_ [_ [_ [_ [_ [_ Hside]]]]]]]. rewrite Hside.
  unfold active_side_of.
  destruct (TickBSFlag row =? "B")%string; [auto|].
  destruct (TickBSFlag row =? "S")%string; auto.
Qed.

Lemma X4_trade_records_follow_trade_rows_witness :
  exists new,
    st_trade_list (state_of (process_rows "600519" scenario_B init_state))
    = st_trade_list init_state ++ new /\
    Forall2 (fun row r => is_trade_of row "600519" r)
      (filter is_trade_row scenario_B) new /\
    forall r, In r new ->
      tr_ActiveSide r = 0 \/ tr_ActiveSide r = 1 \/ tr_ActiveSide r = 2.
Proof.
  apply (X4_trade_records_follow_trade_rows "600519" scenario_B init_state).
  reflexivity.
Defined.

(** X5.  When the loop returns, the order list has gained exactly one Cancel
    record per Delete row, in row order, each with the Delete row's own
    [BizIndex], [TickTime] and quantity, the order number and side that its
    flag names, and [IsAggressive = None]; Trade and Add rows add nothing to
    it. *)
Theorem X5_cancel_records_follow_delete_rows (security_id : string)
    (rows : list Row) (st st' : State) :
  process_rows security_id rows st = Done st' ->
  exists new,
    st_order_list st' = st_order_list st ++ new /\
    Forall2 (fun row r => is_cancel_of row security_id r)
      (filter is_delete_row rows) new.
Proof. apply process_rows_cancel_records. Qed.

Lemma X5_cancel_records_follow_delete_rows_witness :
  exists new,
    st_order_list (state_of (process_rows "600519" scenario_D init_state))
    = st_order_list init_state ++ new /\
    Forall2 (fun row r => is_cancel_of row "600519" r)
      (filter is_delete_row scenario_D) new.
Proof.
  apply (X5_cancel_records_follow_delete_rows "600519" scenario_D init_state).
  reflexivity.
Defined.

(** ** The last trade price *)

Lemma process_rows_last_price_kept (security_id : string) (rows : list Row) :
  forall st st',
    process_rows security_id rows st = Done st' ->
    (forall row, In row rows -> positive_trade row = false) ->
    st_last_price st' = st_last_price st.
Proof.
  induction rows as [|row rows IH]; simpl; intros st st' H Hno.
  - now injection H as <-.
  - destruct (process_row security_id row st) as [st1|e st1] eqn:E; [|discriminate].
    destruct (process_row_lists_done _ _ _ _ E) as [_ [_ Hp]].
    rewrite (Hno row (or_introl eq_refl)) in Hp.
    rewrite (IH st1 st' H); [exact Hp|]. intros r Hr. apply Hno. now right.
Qed.

(** X6.  When the loop returns, [last_price] is the price of the last Trade
    row whose price is strictly positive, wherever in the day that row
    stands and whatever its flag; rows of the other types and trades without
    a positive price leave it alone, and with no such trade at all it keeps
    its starting value. *)
Theorem X6_last_price_is_last_positive_trade_price (security_id : string)
    (rows : list Row) (st st' : State) :
  process_rows security_id rows st = Done st' ->
  ((forall row, In row rows -> positive_trade row = false) ->
   st_last_price st' = st_last_price st) /\
  (forall before t after p,
     rows = before ++ t :: after ->
     Type_ t = "T" -> Price t = Some p -> PrimFloat.ltb 0%float p = true ->
     (forall row, In row after -> positive_trade row = false) ->
     st_last_price st' = p).
Proof.
  intros H. split; [now apply (process_rows_last_price_kept security_id rows)|].
  intros before t after p -> HT Hp Hpos Hno.
  rewrite process_rows_app in H.
  destruct (process_rows security_id before st) as [st1|e st1]; [|discriminate].
  simpl in H.
  destruct (process_row security_id t st1) as [st2|e st2] eqn:E; [|discriminate].
  destruct (process_row_lists_done _ _ _ _ E) as [_ [_ Hlp]].
  unfold positive_trade, is_trade_row, raw_price_positive in Hlp.
  rewrite HT, Hp, Hpos in Hlp. simpl in Hlp.
  rewrite (process_rows_last_price_kept security_id after st2 st' H Hno).
  exact Hlp.
Qed.

Lemma X6_last_price_is_last_positive_trade_price_witness :
  st_last_price (state_of (process_rows "600519" scenario_B init_state))
  = 60%float.
Proof.
  apply (proj2 (X6_last_price_is_last_positive_trade_price "600519" scenario_B
                  init_state _ eq_refl)
           [] (mkRow 200 93001000 "T" 1002 2002 (Some 60%float) 600
                 (Some 36000%float) "B" "600519")
           [mkRow 201 93001100 "A" 1002 0 (Some 60.5%float) 400 (Some 0%float)
              "B" "600519"]);
    try reflexivity.
  intros row [<-|[]]. reflexivity.
Defined.

(** ** Rows of other types *)

Lemma process_row_other_type (security_id : string) (row : Row) (st : State) :
  Type_ row <> "T" -> Type_ row <> "A" -> Type_ row <> "D" ->
  process_row security_id row st = Done st.
Proof.
  intros HT HA HD. unfold process_row.
  destruct (Type_ row =? "T")%string eqn:ET;
    [apply String.eqb_eq in ET; contradiction|].
  destruct (Type_ row =? "A")%string eqn:EA;
    [apply String.eqb_eq in EA; contradiction|].
  destruct (Type_ row =? "D")%string eqn:ED;
    [apply String.eqb_eq in ED; contradiction|].
  reflexivity.
Qed.

(** X7.  A row whose type is none of ['T'], ['A'], ['D'] is skipped by the
    loop without an error, whatever its other fields hold: the loop ends in
    the same state, or with the same exception, with or without such a row
    at any place of the sequence. *)
Theorem X7_rows_of_other_types_are_skipped (security_id : string)
    (before after : list Row) (row : Row) (st : State) :
  Type_ row <> "T" -> Type_ row <> "A" -> Type_ row <> "D" ->
  process_row security_id row st = Done st /\
  process_rows security_id (before ++ row :: after) st
  = process_rows security_id (before ++ after) st.
Proof.
  intros HT HA HD. split; [now apply process_row_other_type|].
  rewrite !process_rows_app.
  destruct (process_rows security_id before st) as [st1|e st1]; [|reflexivity].
  simpl. now rewrite process_row_other_type.
Qed.

Lemma X7_rows_of_other_types_are_skipped_witness :
  process_rows "600519"
    ([mkRow 200 93001000 "T" 1002 2002 (Some 60%float) 600 (Some 36000%float)
        "B" "600519"]
     ++ mkRow 7 93001050 "X" 1 2 None (-5) None "?" "600519"
     :: [mkRow 201 93001100 "A" 1002 0 (Some 60.5%float) 400 (Some 0%float)
           "B" "600519"]) init_state
  = process_rows "600519"
      ([mkRow 200 93001000 "T" 1002 2002 (Some 60%float) 600 (Some 36000%float)
          "B" "600519"]
       ++ [mkRow 201 93001100 "A" 1002 0 (Some 60.5%float) 400 (Some 0%float)
             "B" "600519"]) init_state.
Proof.
  refine (proj2 (X7_rows_of_other_types_are_skipped "600519" _ _ _ _ _ _ _));
    discriminate.
Defined.

(** ** Quantities that are not negative *)

Lemma nonneg_dict_set (k : Z) (v : OrderContext) (m : OrderMap) :
  nonneg_cache m -> 0 <= trade_qty v /\ 0 <= resting_qty v ->
  nonneg_cache (dict_set k v m).
Proof.
  intros Hm Hv k0 c0 Hin. apply In_dict_set in Hin. destruct Hin as [Heq|Hin].
  - injection Heq as _ ->. exact Hv.
  - now apply (Hm k0 c0).
Qed.

Lemma next_ctx_nonneg (row : Row) (k : Z) (m : OrderMap) :
  nonneg_cache m -> 0 <= Qty row ->
  0 <= trade_qty (next_ctx row k (dict_get k m)) /\
  0 <= resting_qty (next_ctx row k (dict_get k m)).
Proof.
  intros Hm Hq. unfold next_ctx.
  destruct (dict_get k m) as [c|] eqn:G.
  - apply dict_get_In in G. apply Hm in G.
    destruct (Type_ row =? "T")%string; simpl; lia.
  - destruct (Type_ row =? "T")%string; simpl; lia.
Qed.

Lemma process_rows_nonneg (security_id : string) (rows : list Row) :
  forall st,
    (forall row, In row rows -> 0 <= Qty row) ->
    nonneg_cache (st_order_map st) ->
    nonneg_cache (st_order_map (state_of (process_rows security_id rows st))).
Proof.
  induction rows as [|row rows IH]; simpl; intros st Hq Hm; [exact Hm|].
  destruct (process_row security_id row st) as [st1|e st1] eqn:E.
  - apply IH; [intros r Hr; apply Hq; now right|].
    rewrite (process_row_cache_done _ _ _ _ E).
    destruct (cache_id row) as [k|]; [|exact Hm].
    apply nonneg_dict_set; [exact Hm|].
    apply next_ctx_nonneg; [exact Hm|apply Hq; now left].
  - simpl. now rewrite (process_row_cache_raised _ _ _ _ _ E).
Qed.

(** X8.  When no row has a negative quantity, no cached context ever holds a
    negative [trade_qty] or [resting_qty], whether the loop returns or an
    exception ends it. *)
Theorem X8_quantities_stay_nonnegative (security_id : string) (rows : list Row)
    (k : Z) (ctx : OrderContext) :
  (forall row, In row rows -> 0 <= Qty row) ->
  dict_get k (st_order_map (state_of (process_rows security_id rows init_state)))
  = Some ctx ->
  0 <= trade_qty ctx /\ 0 <= resting_qty ctx /\ 0 <= get_total_qty ctx.
Proof.
  intros Hq Hget.
  pose proof (process_rows_nonneg security_id rows init_state Hq) as H.
  apply dict_get_In in Hget. apply H in Hget; [|intros ? ? []].
  unfold get_total_qty. lia.
Qed.

Lemma X8_quantities_stay_nonnegative_witness :
  0 <= trade_qty
         (next_ctx
            (mkRow 201 93001100 "A" 1002 0 (Some 60.5%float) 400 (Some 0%float)
               "B" "600519") 1002
            (Some (next_ctx
                     (mkRow 200 93001000 "T" 1002 2002 (Some 60%float) 600
                        (Some 36000%float) "B" "600519") 1002 None))) /\
  0 <= resting_qty
         (next_ctx
            (mkRow 201 93001100 "A" 1002 0 (Some 60.5%float) 400 (Some 0%float)
               "B" "600519") 1002
            (Some (next_ctx
                     (mkRow 200 93001000 "T" 1002 2002 (Some 60%float) 600
                        (Some 36000%float) "B" "600519") 1002 None))) /\
  0 <= get_total_qty
         (next_ctx
            (mkRow 201 93001100 "A" 1002 0 (Some 60.5%float) 400 (Some 0%float)
               "B" "600519") 1002
            (Some (next_ctx
                     (mkRow 200 93001000 "T" 1002 2002 (Some 60%float) 600
                        (Some 36000%float) "B" "600519") 1002 None))).
Proof.
  apply (X8_quantities_stay_nonnegative "600519" scenario_B 1002).
  - intros row [<-|[<-|[]]]; simpl; lia.
  - reflexivity.
Defined.

(** ** One order along the run *)

Lemma process_rows_ctx_after (security_id : string) (rows : list Row) (k : Z) :
  forall st st',
    process_rows security_id rows st = Done st' ->
    dict_get k (st_order_map st') = ctx_after k rows (dict_get k (st_order_map st)).
Proof.
  unfold ctx_after.
  induction rows as [|row rows IH]; simpl; intros st st' H.
  - now injection H as <-.
  - destruct (process_row security_id row st) as [st1|e st1] eqn:E; [|discriminate].
    rewrite (IH st1 st' H), (process_row_key_done _ _ _ _ k E). reflexivity.
Qed.

Lemma ctx_after_cons (k : Z) (row : Row) (rows : list Row)
    (o : option OrderContext) :
  ctx_after k (row :: rows) o =
  ctx_after k rows (if refers_to k row then Some (next_ctx row k o) else o).
Proof. reflexivity. Qed.

Lemma ctx_after_app (k : Z) (rows1 rows2 : list Row) (o : option OrderContext) :
  ctx_after k (rows1 ++ rows2) o = ctx_after k rows2 (ctx_after k rows1 o).
Proof. unfold ctx_after. apply fold_left_app. Qed.

Lemma refers_to_trade_or_add (k : Z) (row : Row) :
  refers_to k row = true ->
  (is_trade_row row = true /\ is_add_row row = false /\
   (TickBSFlag row = "B" \/ TickBSFlag row = "S")) \/
  (is_trade_row row = false /\ is_add_row row = true).
Proof.
  unfold refers_to, cache_id, is_trade_row, is_add_row.
  destruct (Type_ row =? "T")%string eqn:ET.
  - apply String.eqb_eq in ET. rewrite ET. simpl.
    destruct (TickBSFlag row =? "B")%string eqn:EB.
    + apply String.eqb_eq in EB. auto.
    + destruct (TickBSFlag row =? "S")%string eqn:ES; [|discriminate].
      apply String.eqb_eq in ES. auto.
  - destruct (Type_ row =? "A")%string; [auto|discriminate].
Qed.

(** The fields of the context along rows that refer to it. *)
Lemma ctx_after_fields (k : Z) (rows : list Row) :
  forall o c',
    ctx_after k rows o = Some c' ->
    (forall c, o = Some c -> side c' = side c) /\
    has_resting c'
    = (match o with Some c => has_resting c | None => false end)
      || existsb (add_refers_to k) rows /\
    ((forall row, In row rows -> add_refers_to k row = false) ->
     resting_price c'
     = match o with Some c => resting_price c | None => Some 0%float end) /\
    ((forall row, In row rows -> trade_refers_to k row = false) ->
     trade_price c'
     = match o with Some c => trade_price c | None => Some 0%float end).
Proof.
  induction rows as [|row rows IH]; intros o c'.
  - unfold ctx_after. simpl. intros ->. rewrite orb_false_r.
    repeat split; auto. now intros c [= ->].
  - rewrite ctx_after_cons. intros H.
    assert (Hin : forall (f : Row -> bool),
               (forall r, In r (row :: rows) -> f r = false) ->
               f row = false /\ forall r, In r rows -> f r = false).
    { intros f Hf. split; [apply Hf; now left|intros r Hr; apply Hf; now right]. }
    simpl existsb.
    destruct (refers_to k row) eqn:R.
    + destruct (IH _ c' H) as [Hs [Hh [Hr Ht]]].
      specialize (Hs _ eq_refl). rewrite Hh. clear Hh.
      destruct (refers_to_trade_or_add k row R) as [[E1 [E2 _]]|[E1 E2]].
      * assert (Ha : add_refers_to k row = false)
          by (unfold add_refers_to; now rewrite E2).
        assert (Hb : trade_refers_to k row = true)
          by (unfold trade_refers_to; now rewrite E1, R).
        unfold next_ctx in *. unfold is_trade_row in E1. rewrite E1 in *.
        rewrite Ha. simpl orb.
        split; [intros c ->; exact Hs|].
        split; [destruct o; reflexivity|].
        split.
        -- intros Hno. destruct (Hin _ Hno) as [_ Hno']. rewrite (Hr Hno').
           destruct o; reflexivity.
        -- intros Hno. destruct (Hin _ Hno) as [Hbad _]. congruence.
      * assert (Ha : add_refers_to k row = true)
          by (unfold add_refers_to; now rewrite E2, R).
        assert (Hb : trade_refers_to k row = false)
          by (unfold trade_refers_to; now rewrite E1).
        unfold next_ctx in *. unfold is_trade_row in E1. rewrite E1 in *.
        rewrite Ha.
        split; [intros c ->; exact Hs|].
        split; [destruct o as [c|]; simpl; now rewrite ?orb_true_r|].
        split.
        -- intros Hno. destruct (Hin _ Hno) as [Hbad _]. congruence.
        -- intros Hno. destruct (Hin _ Hno) as [_ Hno']. rewrite (Ht Hno').
           destruct o; reflexivity.
    + destruct (IH _ c' H) as [Hs [Hh [Hr Ht]]].
      assert (Ha : add_refers_to k row = false)
        by (unfold add_refers_to; now rewrite R, andb_false_r).
      rewrite Hh, Ha. simpl.
      split; [exact Hs|]. split; [reflexivity|].
      split; intros Hno; destruct (Hin _ Hno) as [_ Hno']; auto.
Qed.

Lemma ctx_after_Some (k : Z) (rows : list Row) (c : OrderContext) :
  exists c', ctx_after k rows (Some c) = Some c'.
Proof.
  revert c. induction rows as [|row rows IH]; intros c; [now exists c|].
  rewrite ctx_after_cons. destruct (refers_to k row); apply IH.
Qed.

Lemma ctx_after_first_ref (k : Z) (rows : list Row) (row0 : Row) :
  first_ref k rows = Some row0 ->
  exists before after,
    rows = before ++ row0 :: after /\
    refers_to k row0 = true /\
    ctx_after k before None = None.
Proof.
  unfold first_ref.
  induction rows as [|row rows IH]; simpl; [discriminate|].
  destruct (refers_to k row) eqn:R.
  - intros [= <-]. exists [], rows. auto.
  - intros H. destruct (IH H) as [before [after [-> [R0 Hb]]]].
    exists (row :: before), after. split; [reflexivity|]. split; [exact R0|].
    rewrite ctx_after_cons, R. exact Hb.
Qed.

Lemma named_side_B_or_S (row : Row) : named_side row = "B" \/ named_side row = "S".
Proof. unfold named_side. destruct (TickBSFlag row =? "B")%string; auto. Qed.

Lemma process_rows_side (security_id : string) (rows : list Row)
    (st : State) (k : Z) (row0 : Row) :
  process_rows security_id rows init_state = Done st ->
  first_ref k rows = Some row0 ->
  exists ctx,
    dict_get k (st_order_map st) = Some ctx /\
    order_no ctx = k /\
    side ctx = resolved_side row0 /\
    (side ctx = "B" \/ side ctx = "S").
Proof.
  intros Hrun Hfirst.
  pose proof (process_rows_fresh security_id rows init_state st k Hrun eq_refl)
    as Hfresh.
  rewrite Hfirst in Hfresh. destruct Hfresh as [ctx [Hget [_ [_ [_ [Hno _]]]]]].
  exists ctx. split; [exact Hget|]. split; [exact Hno|].
  rewrite (process_rows_ctx_after security_id rows k _ _ Hrun) in Hget.
  simpl in Hget.
  destruct (ctx_after_first_ref k rows row0 Hfirst) as [before [after [-> [R Hb]]]].
  rewrite ctx_after_app, Hb, ctx_after_cons, R in Hget.
  destruct (ctx_after_fields k after _ ctx Hget) as [Hs _].
  specialize (Hs _ eq_refl).
  assert (Hside : side ctx = resolved_side row0).
  { rewrite Hs. unfold next_ctx, resolved_side, is_trade_row.
    destruct (Type_ row0 =? "T")%string; reflexivity. }
  split; [exact Hside|]. rewrite Hside. unfold resolved_side.
  destruct (refers_to_trade_or_add k row0 R) as [[E1 [_ Hflag]]|[E1 _]];
    rewrite E1; [exact Hflag|apply named_side_B_or_S].
Qed.

(** X9.  The side of a cached order is the side resolved by the first row
    that refers to its number (the flag of a Trade row, the named side of an
    Add row), it is ['B'] or ['S'], and the context is stored under its own
    number.  The cache is keyed by the number alone, so a later row that
    names the same number from the other side adds to the same context and
    leaves the side as it is. *)
Theorem X9_side_fixed_by_first_row (security_id : string) (rows : list Row)
    (st : State) (k : Z) (row0 : Row) :
  process_rows security_id rows init_state = Done st ->
  first_ref k rows = Some row0 ->
  exists ctx,
    dict_get k (st_order_map st) = Some ctx /\
    order_no ctx = k /\
    side ctx = resolved_side row0 /\
    (side ctx = "B" \/ side ctx = "S").
Proof. apply process_rows_side. Qed.

Lemma X9_side_fixed_by_first_row_witness :
  exists ctx,
    dict_get 1002
      (st_order_map (state_of (process_rows "600519" crossed_number_rows init_state)))
    = Some ctx /\
    order_no ctx = 1002 /\
    side ctx
    = resolved_side
        (mkRow 200 93001000 "T" 1002 2002 (Some 60%float) 600 (Some 36000%float)
           "B" "600519") /\
    (side ctx = "B" \/ side ctx = "S").
Proof.
  apply (X9_side_fixed_by_first_row "600519" crossed_number_rows); reflexivity.
Defined.

(** X10.  When the loop returns, a cached order's [has_resting] tells
    whether some Add row referred to it; its [resting_price] is the price of
    the last Add row that referred to it and its [trade_price] the price of
    the last Trade row that did, each 0.0 when there is no such row.  An
    order that no Add row referred to therefore settles at the price of its
    last trade. *)
Theorem X10_cached_prices_are_the_latest (security_id : string)
    (rows : list Row) (st : State) (k : Z) (ctx : OrderContext) :
  process_rows security_id rows init_state = Done st ->
  dict_get k (st_order_map st) = Some ctx ->
  has_resting ctx = existsb (add_refers_to k) rows /\
  ((forall row, In row rows -> add_refers_to k row = false) ->
   resting_price ctx = Some 0%float /\ effective_price ctx = trade_price ctx) /\
  ((forall row, In row rows -> trade_refers_to k row = false) ->
   trade_price ctx = Some 0%float) /\
  (forall before a after,
     rows = before ++ a :: after ->
     add_refers_to k a = true ->
     (forall row, In row after -> add_refers_to k row = false) ->
     resting_price ctx = Price a) /\
  (forall before t after,
     rows = before ++ t :: after ->
     trade_refers_to k t = true ->
     (forall row, In row after -> trade_refers_to k row = false) ->
     trade_price ctx = Price t).
Proof.
  intros Hrun Hget.
  rewrite (process_rows_ctx_after security_id rows k _ _ Hrun) in Hget.
  simpl in Hget.
  destruct (ctx_after_fields k rows None ctx Hget) as [_ [Hh [Hr Ht]]].
  split; [exact Hh|]. split; [|split; [exact Ht|split]].
  - intros Hno. rewrite (Hr Hno). split; [reflexivity|].
    unfold effective_price. rewrite (Hr Hno). reflexivity.
  - intros before a after -> Ha Hno.
    rewrite ctx_after_app, ctx_after_cons in Hget.
    unfold add_refers_to in Ha. apply andb_prop in Ha. destruct Ha as [HA R].
    rewrite R in Hget.
    destruct (ctx_after_fields k after _ ctx Hget) as [_ [_ [Hr' _]]].
    rewrite (Hr' Hno). unfold next_ctx.
    unfold is_add_row in HA. apply String.eqb_eq in HA. rewrite HA. simpl.
    destruct (ctx_after k before None); reflexivity.
  - intros before t after -> Htr Hno.
    rewrite ctx_after_app, ctx_after_cons in Hget.
    unfold trade_refers_to in Htr. apply andb_prop in Htr. destruct Htr as [HT R].
    rewrite R in Hget.
    destruct (ctx_after_fields k after _ ctx Hget) as [_ [_ [_ Ht']]].
    rewrite (Ht' Hno). unfold next_ctx.
    unfold is_trade_row in HT. rewrite HT.
    destruct (ctx_after k before None); reflexivity.
Qed.

Lemma X10_cached_prices_are_the_latest_witness :
  resting_price
    (next_ctx
       (mkRow 201 93001100 "A" 1002 0 (Some 60.5%float) 400 (Some 0%float)
          "B" "600519") 1002
       (Some (next_ctx
                (mkRow 200 93001000 "T" 1002 2002 (Some 60%float) 600
                   (Some 36000%float) "B" "600519") 1002 None)))
  = Some 60.5%float /\
  trade_price
    (next_ctx
       (mkRow 201 93001100 "A" 1002 0 (Some 60.5%float) 400 (Some 0%float)
          "B" "600519") 1002
       (Some (next_ctx
                (mkRow 200 93001000 "T" 1002 2002 (Some 60%float) 600
                   (Some 36000%float) "B" "600519") 1002 None)))
  = Some 60%float.
Proof.
  destruct (X10_cached_prices_are_the_latest "600519" scenario_B
              (state_of (process_rows "600519" scenario_B init_state)) 1002
              _ eq_refl eq_refl) as [_ [_ [_ [Hr Ht]]]].
  split.
  - apply (Hr [mkRow 200 93001000 "T" 1002 2002 (Some 60%float) 600
                 (Some 36000%float) "B" "600519"]
              (mkRow 201 93001100 "A" 1002 0 (Some 60.5%float) 400 (Some 0%float)
                 "B" "600519") []); [reflexivity|reflexivity|intros ? []].
  - apply (Ht [] (mkRow 200 93001000 "T" 1002 2002 (Some 60%float) 600
                    (Some 36000%float) "B" "600519")
              [mkRow 201 93001100 "A" 1002 0 (Some 60.5%float) 400 (Some 0%float)
                 "B" "600519"]); [reflexivity|reflexivity|].
    intros row [<-|[]]. reflexivity.
Defined.

(** ** When the driver returns and when it raises *)

(** One iteration on a row with a price and a cache with prices: it returns,
    or it raises [ValueError] on a negative quantity. *)
Lemma process_row_priced (security_id : string) (row : Row) (st : State) :
  Price row <> None -> priced (st_order_map st) ->
  (exists st', process_row security_id row st = Done st' /\
               priced (st_order_map st')) \/
  (exists st', process_row security_id row st = Raised ValueError st' /\
               Qty row < 0).
Proof.
  intros Hprice Hp.
  destruct (Qty row <? 0) eqn:Hq.
  - apply Z.ltb_lt in Hq.
    destruct (process_row security_id row st) as [st'|e st'] eqn:E.
    + left. exists st'. split; [reflexivity|].
      rewrite (process_row_cache_done _ _ _ _ E).
      destruct (cache_id row) as [k|]; [|exact Hp].
      apply priced_dict_set; [exact Hp|now apply next_ctx_priced].
    + right. exists st'. split; [|exact Hq]. f_equal.
      revert E. unfold process_row.
      destruct (Price row) as [p|] eqn:Pr; [|congruence].
      destruct (Type_ row =? "T")%string.
      * unfold process_trade. rewrite Pr.
        destruct (TickBSFlag row =? "B")%string;
          [|destruct (TickBSFlag row =? "S")%string];
          cbv zeta; cbv beta iota;
          (destruct (TradeMoney row) as [m|];
           [destruct (PrimFloat.eqb m 0%float)|]);
          try discriminate;
          match goal with
          | |- context [dict_get ?k ?om] => destruct (dict_get k om)
          end;
          try discriminate;
          unfold add_trade_qty; destruct (Qty row <? 0); try discriminate;
          intros [= <- _]; reflexivity.
      * destruct (Type_ row =? "A")%string.
        -- rewrite process_add_order_cases. cbv zeta.
           destruct (Qty row <? 0); [|discriminate]. now intros [= <- _].
        -- destruct (Type_ row =? "D")%string; [|discriminate].
           rewrite process_delete_order_cases.
           destruct (raw_price_positive row); [discriminate|].
           destruct (dict_get (named_order_no row) (st_order_map st)) as [c|] eqn:G;
             [|discriminate].
           apply dict_get_In in G. apply Hp in G.
           unfold get_price, gt_zero.
           destruct (resting_price c) as [rp|]; [|congruence].
           destruct (PrimFloat.ltb 0%float rp); discriminate.
  - apply Z.ltb_ge in Hq. left.
    apply process_row_total; [split; [lia|exact Hprice]|exact Hp].
Qed.

Lemma process_rows_priced (security_id : string) (rows : list Row) :
  forall st,
    (forall row, In row rows -> Price row <> None) ->
    priced (st_order_map st) ->
    (exists st', process_rows security_id rows st = Done st' /\
                 priced (st_order_map st') /\
                 forall row, In row rows -> Type_ row = "A" -> 0 <= Qty row) \/
    (exists st' row, process_rows security_id rows st = Raised ValueError st' /\
                     In row rows /\ Qty row < 0).
Proof.
  induction rows as [|row rows IH]; simpl; intros st Hprice Hp.
  - left. exists st. split; [reflexivity|]. split; [exact Hp|]. intros ? [].
  - destruct (process_row_priced security_id row st) as [[st1 [E Hp1]]|[st1 [E Hq]]];
      [apply Hprice; now left|exact Hp| |].
    + rewrite E.
      destruct (IH st1) as [[st' [Hrun [Hp' Hadd]]]|[st' [r [Hrun [Hin Hq]]]]];
        [intros r Hr; apply Hprice; now right|exact Hp1| |].
      * left. exists st'. split; [exact Hrun|]. split; [exact Hp'|].
        intros r [<-|Hr] HA; [|now apply Hadd].
        destruct (Qty row <? 0) eqn:Hneg; [|apply Z.ltb_ge in Hneg; lia].
        apply Z.ltb_lt in Hneg.
        unfold process_row in E. rewrite HA in E. simpl in E.
        rewrite (process_add_order_negative row _ Hneg) in E. discriminate.
      * right. exists st', r. split; [exact Hrun|]. split; [now right|exact Hq].
    + rewrite E. right. exists st1, row. split; [reflexivity|]. split; [now left|exact Hq].
Qed.

Lemma In_preprocess (row : Row) (df : list Row) :
  In row (preprocess df) <-> In row df /\ keep_row row = true.
Proof. unfold preprocess. rewrite In_sort_by_key. apply filter_In. Qed.

Lemma driver_returns_on_kept_rows (df : list Row)
    (security_id : string) :
  (forall row, In row df -> keep_row row = true -> well_formed_row row) ->
  exists orders trades,
    reconstruct_sh_tick_data df security_id = Ret (orders, trades).
Proof.
  intros Hwf. unfold reconstruct_sh_tick_data.
  destruct (process_rows_total security_id (preprocess df) init_state)
    as [st [Hrun Hp]].
  { intros row Hin. apply In_preprocess in Hin. now apply Hwf. }
  { exact priced_init. }
  rewrite Hrun. unfold settle_orders.
  rewrite (settle_items_priced security_id _ Hp). eauto.
Qed.

(** X11.  The driver returns its two lists whenever every row that survives
    the filter has a quantity that is not negative and a price that is a
    number; what the dropped rows hold does not matter. *)
Theorem X11_driver_returns_on_well_formed_rows (df : list Row)
    (security_id : string) :
  (forall row, In row df -> keep_row row = true -> well_formed_row row) ->
  exists orders trades,
    reconstruct_sh_tick_data df security_id = Ret (orders, trades).
Proof. apply driver_returns_on_kept_rows. Qed.

Lemma X11_driver_returns_on_well_formed_rows_witness :
  exists orders trades,
    reconstruct_sh_tick_data
      (mkRow 1 92500000 "A" 5001 0 None (-7) None "B" "600519" :: scenario_D)
      "600519" = Ret (orders, trades).
Proof.
  apply X11_driver_returns_on_well_formed_rows.
  intros row [<-|[<-|[<-|[]]]] Hkeep;
    try discriminate; split; simpl; try lia; discriminate.
Defined.

(** X12.  When every row that survives the filter has a price that is a
    number, the driver raises nothing but [ValueError], and raises it only
    for a surviving row with a negative quantity; a surviving Add row with a
    negative quantity always makes it raise [ValueError], so that no output
    is returned for the security. *)
Theorem X12_driver_raises_only_on_negative_quantity (df : list Row)
    (security_id : string) :
  (forall row, In row df -> keep_row row = true -> Price row <> None) ->
  ((exists orders trades,
      reconstruct_sh_tick_data df security_id = Ret (orders, trades)) \/
   (reconstruct_sh_tick_data df security_id = Exc ValueError /\
    exists row, In row df /\ keep_row row = true /\ Qty row < 0)) /\
  (forall row,
     In row df -> keep_row row = true -> Type_ row = "A" -> Qty row < 0 ->
     reconstruct_sh_tick_data df security_id = Exc ValueError).
Proof.
  intros Hprice.
  assert (Hprice' : forall row, In row (preprocess df) -> Price row <> None).
  { intros row Hin. apply In_preprocess in Hin. now apply Hprice. }
  unfold reconstruct_sh_tick_data.
  destruct (process_rows_priced security_id (preprocess df) init_state Hprice'
              priced_init)
    as [[st [Hrun [Hp Hadd]]]|[st [r [Hrun [Hin Hq]]]]]; rewrite Hrun.
  - unfold settle_orders. rewrite (settle_items_priced security_id _ Hp).
    split; [left; eauto|].
    intros row Hin Hkeep HA Hq. exfalso.
    assert (0 <= Qty row); [|lia].
    apply Hadd; [|exact HA]. apply In_preprocess. auto.
  - apply In_preprocess in Hin. destruct Hin as [Hin Hkeep].
    split; [right; split; [reflexivity|exists r; auto]|reflexivity].
Qed.

Lemma X12_driver_raises_only_on_negative_quantity_witness :
  reconstruct_sh_tick_data failing_day "600519" = Exc ValueError.
Proof.
  refine (proj2 (X12_driver_raises_only_on_negative_quantity failing_day "600519" _)
            (mkRow 400 93003000 "A" 4001 0 (Some 70%float) (-1000) (Some 0%float)
               "B" "600519") _ _ _ _).
  - intros row [<-|[]] _. discriminate.
  - now left.
  - reflexivity.
  - reflexivity.
  - simpl. lia.
Defined.

(** ** The records of the driver's output *)

Lemma Forall2_In_r {A B : Type} (R : A -> B -> Prop) (l : list A) (l' : list B)
    (b : B) :
  Forall2 R l l' -> In b l' -> exists a, In a l /\ R a b.
Proof.
  induction 1 as [|a0 b0 l0 l0' HR HF IH]; simpl; [tauto|].
  intros [<-|Hin]; [eauto|]. destruct (IH Hin) as [a [Ha HRa]]. eauto.
Qed.

Lemma cached_has_first_ref (security_id : string) (rows : list Row) (st : State)
    (k : Z) (ctx : OrderContext) :
  process_rows security_id rows init_state = Done st ->
  dict_get k (st_order_map st) = Some ctx ->
  exists row0, first_ref k rows = Some row0.
Proof.
  intros Hrun Hget.
  pose proof (process_rows_fresh security_id rows init_state st k Hrun eq_refl)
    as Hfresh.
  destruct (first_ref k rows) as [row0|]; [eauto|congruence].
Qed.

(** The loop and the settlement make records of the driver's kind only. *)
Lemma loop_order_records (security_id : string) (rows : list Row) (st : State)
    (om : OrderMap) (ol : list OrderRecord) (r : OrderRecord) :
  process_rows security_id rows init_state = Done st ->
  settle_orders (st_order_map st) (st_order_list st) security_id = Done (om, ol) ->
  In r ol -> driver_order_record security_id r.
Proof.
  intros Hrun Hsettle Hin.
  unfold settle_orders in Hsettle.
  destruct (settle_items (st_order_map st) (st_order_list st) security_id)
    as [l|e l] eqn:E; [|discriminate].
  injection Hsettle as _ <-. apply settle_items_done in E. subst l.
  apply in_app_or in Hin. destruct Hin as [Hin|Hin].
  - destruct (process_rows_cancel_records security_id rows init_state st Hrun)
      as [new [Hl HF]].
    simpl in Hl. rewrite Hl in Hin.
    destruct (Forall2_In_r _ _ _ r HF Hin) as [row [_ Hof]].
    destruct Hof as [H1 [_ [_ [_ [H5 [H6 [_ H8]]]]]]].
    split; [exact H1|]. split; [rewrite H6; apply named_side_B_or_S|]. auto.
  - apply In_settled_records in Hin.
    destruct Hin as [k [ctx [Hin [-> Hpos]]]].
    apply In_dict_get in Hin;
      [|apply (process_rows_NoDup security_id rows init_state st Hrun NoDup_init)].
    destruct (cached_has_first_ref security_id rows st k ctx Hrun Hin) as [row0 H0].
    destruct (process_rows_side security_id rows st k row0 Hrun H0)
      as [ctx' [Hget' [_ [_ Hside]]]].
    rewrite Hin in Hget'. injection Hget' as <-.
    split; [reflexivity|]. split; [exact Hside|]. left. simpl. eauto.
Qed.

Lemma driver_records (df : list Row) (security_id : string)
    (orders : list OrderRecord) (trades : list TradeRecord) :
  reconstruct_sh_tick_data df security_id = Ret (orders, trades) ->
  (forall r, In r orders -> driver_order_record security_id r) /\
  (forall r, In r trades -> driver_trade_record security_id r).
Proof.
  unfold reconstruct_sh_tick_data.
  destruct (process_rows security_id (preprocess df) init_state) as [st|e st] eqn:Hrun;
    [|discriminate].
  destruct (settle_orders (st_order_map st) (st_order_list st) security_id)
    as [[om ol]|e [om ol]] eqn:Hsettle; [|discriminate].
  intros [= <- <-]. split.
  - intros r Hin. apply In_sort_by_key in Hin.
    now apply (loop_order_records security_id (preprocess df) st om ol r).
  - intros r Hin. apply In_sort_by_key in Hin.
    destruct (process_rows_trade_records security_id _ init_state st Hrun)
      as [new [Hl HF]].
    simpl in Hl. rewrite Hl in Hin.
    destruct (Forall2_In_r _ _ _ r HF Hin) as [row [_ Hof]].
    destruct Hof as [H1 [_ [_ [_ [_ [_ [_ H8]]]]]]].
    split; [exact H1|]. rewrite H8. unfold active_side_of.
    destruct (TickBSFlag row =? "B")%string; [auto|].
    destruct (TickBSFlag row =? "S")%string; auto.
Qed.

(** X13.  Every record that the driver returns names the security given as
    argument, whatever the rows' own [SecurityID] column holds.  An order
    record has side ['B'] or ['S'] and is either a New record with a positive
    quantity and [IsAggressive] [True] or [False], or a Cancel record with
    [IsAggressive = None]; a trade record has [ActiveSide] 0, 1 or 2. *)
Theorem X13_driver_records_are_well_formed (df : list Row) (security_id : string)
    (orders : list OrderRecord) (trades : list TradeRecord) :
  reconstruct_sh_tick_data df security_id = Ret (orders, trades) ->
  (forall r, In r orders -> driver_order_record security_id r) /\
  (forall r, In r trades -> driver_trade_record security_id r).
Proof. apply driver_records. Qed.

Lemma X13_driver_records_are_well_formed_witness :
  driver_order_record "000001"
    {| or_SecurityID := "000001"; or_BizIndex := 401; or_TickTime := 93003500;
       or_OrdID := 4001; or_OrdType := "Cancel"; or_Side := "B";
       or_Price := Some 70%float; or_Qty := 500; or_IsAggressive := None |}.
Proof.
  apply (proj1 (X13_driver_records_are_well_formed scenario_D "000001" _ _ eq_refl)).
  simpl. right. left. reflexivity.
Defined.

(** ** The checks of the order table *)

Lemma driver_order_record_tagged (security_id : string) (r : OrderRecord) :
  driver_order_record security_id r -> tagged r.
Proof.
  intros [_ [_ [[H1 [_ H2]]|H]]]; [left|right]; auto.
Qed.

Lemma tagged_no_bad_cancel (l : list OrderRecord) :
  Forall tagged l ->
  filter (fun o => negb (is_null o))
    (filter (fun o => (or_OrdType o =? "Cancel")%string) l) = [] /\
  filter is_null (filter (fun o => (or_OrdType o =? "New")%string) l) = [].
Proof.
  induction 1 as [|r l Hr HF [IH1 IH2]]; simpl; [auto|].
  unfold is_null in *.
  destruct Hr as [[Ht [b Hb]]|[Ht Hb]]; rewrite Ht; simpl; rewrite Hb; simpl; auto.
Qed.

Lemma verify_is_aggressive_tagged (l : list OrderRecord) :
  Forall tagged l -> verify_is_aggressive l = true.
Proof.
  intros H. unfold verify_is_aggressive.
  destruct (List.length l =? 0)%nat; [reflexivity|].
  destruct (tagged_no_bad_cancel l H) as [-> ->]. reflexivity.
Qed.

(** The New rows of a table that passes [verify_is_aggressive] have a
    boolean [IsAggressive]. *)
Lemma verify_is_aggressive_new_rows (l : list OrderRecord) :
  verify_is_aggressive l = true ->
  filter is_null (filter (fun o => (or_OrdType o =? "New")%string) l) = [].
Proof.
  unfold verify_is_aggressive.
  destruct (List.length l =? 0)%nat eqn:E.
  - apply Nat.eqb_eq in E. apply length_zero_iff_nil in E. now subst.
  - destruct (0 <? _)%nat; [discriminate|].
    destruct (filter is_null _) as [|r rest]; [reflexivity|]. simpl. discriminate.
Qed.

Lemma channel_split (side : string) (l : list OrderRecord) :
  filter is_null l = [] ->
  List.length (filter (fun o => (or_Side o =? side)%string) l)
  = (List.length
       (filter (fun o => (or_Side o =? side)%string && is_aggressive_eq o true) l)
     + List.length
         (filter (fun o => (or_Side o =? side)%string && is_aggressive_eq o false) l))%nat.
Proof.
  induction l as [|r l IH]; simpl; [reflexivity|].
  unfold is_null, is_aggressive_eq in *.
  destruct (or_IsAggressive r) as [b|]; [|discriminate].
  intros H. specialize (IH H).
  destruct (or_Side r =? side)%string; simpl; [|exact IH].
  destruct b; simpl; lia.
Qed.

Lemma verify_channel_math_of_new_rows (l : list OrderRecord) :
  filter is_null (filter (fun o => (or_OrdType o =? "New")%string) l) = [] ->
  verify_channel_math l = true.
Proof.
  intros H. unfold verify_channel_math.
  destruct (List.length l =? 0)%nat; [reflexivity|].
  cbv zeta. rewrite (channel_split "B" _ H), (channel_split "S" _ H).
  now rewrite !Nat.eqb_refl.
Qed.

(** X14.  The two checks of the order table compose: every table that passes
    [verify_is_aggressive] passes [verify_channel_math], the empty table
    included; a New row with a null [IsAggressive] is the only way to fail
    either channel equation, and it already fails the first check. *)
Theorem X14_is_aggressive_check_implies_channel_math (orders_df : list OrderRecord) :
  (verify_is_aggressive orders_df = true -> verify_channel_math orders_df = true) /\
  (verify_channel_math orders_df = false ->
   exists o, In o orders_df /\ or_OrdType o = "New" /\ or_IsAggressive o = None).
Proof.
  split.
  - intros H. apply verify_channel_math_of_new_rows.
    now apply verify_is_aggressive_new_rows.
  - intros H.
    destruct (filter is_null
                (filter (fun o => (or_OrdType o =? "New")%string) orders_df))
      as [|o rest] eqn:E.
    + rewrite (verify_channel_math_of_new_rows _ E) in H. discriminate.
    + assert (Hin : In o (filter is_null
                (filter (fun o => (or_OrdType o =? "New")%string) orders_df)))
        by (rewrite E; now left).
      apply filter_In in Hin. destruct Hin as [Hin Hnull].
      apply filter_In in Hin. destruct Hin as [Hin Hnew].
      exists o. split; [exact Hin|]. split; [now apply String.eqb_eq|].
      unfold is_null in Hnull. destruct (or_IsAggressive o); [discriminate|reflexivity].
Qed.

Lemma X14_is_aggressive_check_implies_channel_math_witness :
  verify_channel_math
    (fst (match reconstruct_sh_tick_data scenario_D "600519" with
          | Ret p => p
          | Exc _ => ([], [])
          end)) = true.
Proof.
  apply (proj1 (X14_is_aggressive_check_implies_channel_math _)).
  vm_compute. reflexivity.
Defined.

(** X15.  The order list that the driver returns passes
    [verify_is_aggressive] and [verify_channel_math], and so does the list
    that the daily loop has accumulated over all securities when it
    returns. *)
Theorem X15_output_passes_the_checks :
  (forall df security_id orders trades,
     reconstruct_sh_tick_data df security_id = Ret (orders, trades) ->
     verify_is_aggressive orders = true /\ verify_channel_math orders = true) /\
  (forall df progress_callback b,
     process_daily_data df progress_callback = Done b ->
     verify_is_aggressive (all_orders b) = true /\
     verify_channel_math (all_orders b) = true).
Proof.
  assert (Hboth : forall l, Forall tagged l ->
                    verify_is_aggressive l = true /\ verify_channel_math l = true).
  { intros l H. pose proof (verify_is_aggressive_tagged l H) as H1.
    split; [exact H1|].
    apply verify_channel_math_of_new_rows.
    now apply verify_is_aggressive_new_rows. }
  split.
  - intros df security_id orders trades H. apply Hboth.
    apply Forall_forall. intros r Hr.
    apply (driver_order_record_tagged security_id).
    now apply (proj1 (driver_records df security_id orders trades H)).
  - intros df cb b H. apply Hboth.
    unfold process_daily_data in H.
    assert (Hloop : forall ids i b0 b1,
               daily_loop df cb (Z.of_nat (List.length (security_ids_of df))) i ids b0
               = Done b1 ->
               Forall tagged (all_orders b0) -> Forall tagged (all_orders b1)).
    { induction ids as [|s ids IH]; simpl; intros i b0 b1 Hl H0.
      - now injection Hl as <-.
      - destruct (reconstruct_sh_tick_data _ s) as [[orders trades]|e] eqn:E;
          [|discriminate].
        apply (IH _ _ _ Hl). simpl. apply Forall_app. split; [exact H0|].
        apply Forall_forall. intros r Hr.
        apply (driver_order_record_tagged s).
        now apply (proj1 (driver_records _ s orders trades E)). }
    apply (Hloop _ _ _ _ H). constructor.
Qed.

Lemma X15_output_passes_the_checks_witness :
  verify_is_aggressive (all_orders (state_of (process_daily_data scenario_D false)))
  = true /\
  verify_channel_math (all_orders (state_of (process_daily_data scenario_D false)))
  = true.
Proof.
  apply (proj2 X15_output_passes_the_checks scenario_D false).
  vm_compute. reflexivity.
Defined.

(** ** The statistics of a run *)

Lemma filter_insert_by_key_length {A : Type} (key : A -> Z * Z) (f : A -> bool)
    (x : A) (l : list A) :
  List.length (filter f (insert_by_key key x l))
  = List.length (filter f (x :: l)).
Proof.
  induction l as [|y l IH]; simpl; [reflexivity|].
  destruct (key_le (key x) (key y)); simpl; [reflexivity|].
  simpl in IH. destruct (f y); simpl; rewrite IH; destruct (f x); reflexivity.
Qed.

Lemma filter_sort_by_key_length {A : Type} (key : A -> Z * Z) (f : A -> bool)
    (l : list A) :
  List.length (filter f (sort_by_key key l)) = List.length (filter f l).
Proof.
  induction l as [|x l IH]; simpl; [reflexivity|].
  rewrite filter_insert_by_key_length. simpl.
  destruct (f x); simpl; now rewrite IH.
Qed.

Lemma sort_by_key_length {A : Type} (key : A -> Z * Z) (l : list A) :
  List.length (sort_by_key key l) = List.length l.
Proof.
  assert (Hins : forall x l0, List.length (insert_by_key key x l0) = S (List.length l0)).
  { intros x l0. induction l0 as [|y l0 IH]; simpl; [reflexivity|].
    destruct (key_le (key x) (key y)); simpl; [reflexivity|now rewrite IH]. }
  induction l as [|x l IH]; simpl; [reflexivity|]. now rewrite Hins, IH.
Qed.

Lemma filter_all {A : Type} (f : A -> bool) (l : list A) :
  (forall x, In x l -> f x = true) -> filter f l = l.
Proof.
  induction l as [|x l IH]; simpl; intros H; [reflexivity|].
  rewrite (H x (or_introl eq_refl)), IH; [reflexivity|].
  intros y Hy. apply H. now right.
Qed.

Lemma filter_none {A : Type} (f : A -> bool) (l : list A) :
  (forall x, In x l -> f x = false) -> filter f l = [].
Proof.
  induction l as [|x l IH]; simpl; intros H; [reflexivity|].
  rewrite (H x (or_introl eq_refl)). apply IH. intros y Hy. apply H. now right.
Qed.

Lemma filter_two_length {A : Type} (f g : A -> bool) (l : list A) :
  (forall x, In x l -> f x = negb (g x)) ->
  (List.length (filter f l) + List.length (filter g l))%nat = List.length l.
Proof.
  induction l as [|x l IH]; simpl; intros H; [reflexivity|].
  rewrite (H x (or_introl eq_refl)).
  assert (IH' := IH (fun y Hy => H y (or_intror Hy))).
  destruct (g x); simpl; lia.
Qed.

Lemma filter_disjoint_length {A : Type} (f g : A -> bool) (l : list A) :
  (forall x, f x = true -> g x = false) ->
  (List.length (filter f l) + List.length (filter g l) <= List.length l)%nat.
Proof.
  intros H. induction l as [|x l IH]; simpl; [lia|].
  destruct (f x) eqn:F; [rewrite (H x F)|destruct (g x)]; simpl; lia.
Qed.

Lemma filter_length_app {A : Type} (f : A -> bool) (l l' : list A) :
  List.length (filter f (l ++ l'))
  = (List.length (filter f l) + List.length (filter f l'))%nat.
Proof. now rewrite filter_app, length_app. Qed.

Lemma aggressive_passive_length (l : list OrderRecord) :
  (forall r, In r l -> tagged r) ->
  (List.length
     (filter (fun o => (or_OrdType o =? "New")%string && is_aggressive_eq o true) l)
   + List.length
       (filter (fun o => (or_OrdType o =? "New")%string && is_aggressive_eq o false) l)
   = List.length (filter (fun o => (or_OrdType o =? "New")%string) l))%nat.
Proof.
  induction l as [|r l IH]; simpl; intros H; [reflexivity|].
  assert (IH' := IH (fun y Hy => H y (or_intror Hy))).
  unfold is_aggressive_eq in *.
  destruct (H r (or_introl eq_refl)) as [[Ht [b Hb]]|[Ht Hb]]; rewrite Ht, Hb; simpl.
  - destruct b; simpl; lia.
  - exact IH'.
Qed.

(** X16.  On the driver's own frames and output [get_processing_stats] adds
    up: New and Cancel records are all the order records, aggressive and
    passive ones are all the New records, there is one Cancel record per
    Delete row and one trade record per Trade row among the rows that
    survive the filter, and these are no more than the surviving rows, which
    are no more than the rows given. *)
Theorem X16_processing_stats_add_up (df : list Row) (security_id : string)
    (orders : list OrderRecord) (trades : list TradeRecord) :
  reconstruct_sh_tick_data df security_id = Ret (orders, trades) ->
  let stats := get_processing_stats df (filter keep_row df) orders trades in
  (new_orders stats + cancel_orders stats = output_orders stats /\
   aggressive_orders stats + passive_orders stats = new_orders stats /\
   cancel_orders stats = List.length (filter is_delete_row (filter keep_row df)) /\
   output_trades stats = List.length (filter is_trade_row (filter keep_row df)) /\
   output_trades stats + cancel_orders stats <= filtered_rows stats /\
   filtered_rows stats <= original_rows stats)%nat.
Proof.
  intros H. cbv zeta. unfold get_processing_stats. simpl.
  pose proof (driver_records df security_id orders trades H) as [Hrec _].
  unfold reconstruct_sh_tick_data in H.
  destruct (process_rows security_id (preprocess df) init_state) as [st|e st] eqn:Hrun;
    [|discriminate].
  unfold settle_orders in H.
  destruct (settle_items (st_order_map st) (st_order_list st) security_id)
    as [l|e l] eqn:Hsettle; [|discriminate].
  injection H as <- <-.
  apply settle_items_done in Hsettle. subst l.
  destruct (process_rows_cancel_records security_id _ init_state st Hrun)
    as [cancels [Hcl HcF]]. simpl in Hcl.
  destruct (process_rows_trade_records security_id _ init_state st Hrun)
    as [trs [Htl HtF]]. simpl in Htl.
  assert (Hcancel :
            List.length
              (filter (fun o => (or_OrdType o =? "Cancel")%string)
                 (sort_by_key (fun x => (or_TickTime x, or_BizIndex x))
                    (st_order_list st ++ settled_records security_id (st_order_map st))))
            = List.length (filter is_delete_row (filter keep_row df))).
  { rewrite filter_sort_by_key_length, filter_length_app.
    rewrite filter_all, (filter_none _ (settled_records _ _)).
    - simpl. rewrite Nat.add_0_r, Hcl.
      rewrite <- (Forall2_length HcF). unfold preprocess.
      apply filter_sort_by_key_length.
    - intros r Hr. apply In_settled_records in Hr.
      destruct Hr as [k [c [_ [-> _]]]]. reflexivity.
    - intros r Hr. rewrite Hcl in Hr.
      destruct (Forall2_In_r _ _ _ r HcF Hr) as [row [_ Hof]].
      destruct Hof as [_ [_ [_ [_ [H5 _]]]]]. now rewrite H5. }
  assert (Htrade :
            List.length (sort_by_key (fun x => (tr_TickTime x, tr_BizIndex x))
                           (st_trade_list st))
            = List.length (filter is_trade_row (filter keep_row df))).
  { rewrite sort_by_key_length, Htl, <- (Forall2_length HtF). unfold preprocess.
    apply filter_sort_by_key_length. }
  split; [|split; [|split; [exact Hcancel|split; [exact Htrade|split]]]].
  - apply filter_two_length. intros r Hr.
    destruct (Hrec r Hr) as [_ [_ [[Ht _]|[Ht _]]]]; now rewrite Ht.
  - apply aggressive_passive_length. intros r Hr.
    apply (driver_order_record_tagged security_id). now apply Hrec.
  - rewrite Hcancel, Htrade. apply filter_disjoint_length.
    intros row. unfold is_trade_row, is_delete_row.
    destruct (Type_ row =? "T")%string eqn:E; [|discriminate].
    apply String.eqb_eq in E. now rewrite E.
  - clear. induction df as [|row df IH]; simpl; [lia|].
    destruct (keep_row row); simpl; lia.
Qed.

Lemma X16_processing_stats_add_up_witness :
  (new_orders
     (get_processing_stats scenario_D (filter keep_row scenario_D)
        (fst (match reconstruct_sh_tick_data scenario_D "600519" with
              | Ret p => p | Exc _ => ([], []) end))
        (snd (match reconstruct_sh_tick_data scenario_D "600519" with
              | Ret p => p | Exc _ => ([], []) end)))
   + cancel_orders
       (get_processing_stats scenario_D (filter keep_row scenario_D)
          (fst (match reconstruct_sh_tick_data scenario_D "600519" with
                | Ret p => p | Exc _ => ([], []) end))
          (snd (match reconstruct_sh_tick_data scenario_D "600519" with
                | Ret p => p | Exc _ => ([], []) end)))
   = 2)%nat.
Proof.
  refine (proj1 (X16_processing_stats_add_up scenario_D "600519" _ _ _)).
  vm_compute. reflexivity.
Defined.

(** ** The order of the output *)

Lemma key_le_refl (a : Z * Z) : key_le a a = true.
Proof.
  unfold key_le. rewrite Z.eqb_refl, Z.leb_refl. simpl. apply orb_true_r.
Qed.

Lemma key_le_cases (a b : Z * Z) :
  key_le a b = true <-> fst a < fst b \/ (fst a = fst b /\ snd a <= snd b).
Proof.
  unfold key_le. rewrite orb_true_iff, andb_true_iff, Z.ltb_lt, Z.eqb_eq, Z.leb_le.
  tauto.
Qed.

Lemma key_le_total (a b : Z * Z) : key_le a b = false -> key_le b a = true.
Proof.
  intros H. apply key_le_cases.
  destruct (key_le a b) eqn:E; [discriminate|].
  assert (Hn : ~ (fst a < fst b \/ (fst a = fst b /\ snd a <= snd b))).
  { intros Hc. apply key_le_cases in Hc. congruence. }
  lia.
Qed.

Lemma key_le_trans (a b c : Z * Z) :
  key_le a b = true -> key_le b c = true -> key_le a c = true.
Proof. rewrite !key_le_cases. lia. Qed.

Lemma insert_by_key_ascending {A : Type} (key : A -> Z * Z) (x : A) (l : list A) :
  ascending key l -> ascending key (insert_by_key key x l).
Proof.
  unfold ascending.
  induction 1 as [|y l Hl IH Hy]; simpl.
  - repeat constructor.
  - destruct (key_le (key x) (key y)) eqn:E.
    + constructor; [now constructor|].
      constructor; [exact E|].
      eapply Forall_impl; [|exact Hy]. intros z Hz. simpl in Hz.
      now apply (key_le_trans _ (key y)).
    + constructor; [exact IH|].
      apply Forall_forall. intros z Hz. apply In_insert_by_key in Hz.
      destruct Hz as [->|Hz]; [now apply key_le_total|].
      now apply (proj1 (Forall_forall _ _) Hy).
Qed.

Lemma sort_by_key_ascending {A : Type} (key : A -> Z * Z) (l : list A) :
  ascending key (sort_by_key key l).
Proof.
  induction l as [|x l IH]; simpl; [constructor|].
  now apply insert_by_key_ascending.
Qed.

Lemma insert_by_key_Permutation {A : Type} (key : A -> Z * Z) (x : A) (l : list A) :
  Permutation (insert_by_key key x l) (x :: l).
Proof.
  induction l as [|y l IH]; simpl; [reflexivity|].
  destruct (key_le (key x) (key y)); [reflexivity|].
  rewrite IH. apply perm_swap.
Qed.

Lemma sort_by_key_Permutation {A : Type} (key : A -> Z * Z) (l : list A) :
  Permutation (sort_by_key key l) l.
Proof.
  induction l as [|x l IH]; simpl; [reflexivity|].
  rewrite insert_by_key_Permutation. now constructor.
Qed.

(** Sorting a list that is in order changes nothing. *)
Lemma sort_by_key_ascending_id {A : Type} (key : A -> Z * Z) (l : list A) :
  ascending key l -> sort_by_key key l = l.
Proof.
  unfold ascending.
  induction 1 as [|x l Hl IH Hx]; simpl; [reflexivity|].
  rewrite IH. destruct l as [|y l]; simpl; [reflexivity|].
  inversion Hx as [|? ? Hxy _]; subst. now rewrite Hxy.
Qed.

Lemma ascending_filter {A : Type} (key : A -> Z * Z) (f : A -> bool) (l : list A) :
  ascending key l -> ascending key (filter f l).
Proof.
  unfold ascending.
  induction 1 as [|x l Hl IH Hx]; simpl; [constructor|].
  destruct (f x); [|exact IH].
  constructor; [exact IH|].
  apply Forall_forall. intros z Hz. apply filter_In in Hz.
  now apply (proj1 (Forall_forall _ _) Hx).
Qed.

(** Records that copy the keys of an ascending list are in order too. *)
Lemma ascending_Forall2 {A B : Type} (keyA : A -> Z * Z) (keyB : B -> Z * Z)
    (R : A -> B -> Prop) (l : list A) (l' : list B) :
  (forall a b, R a b -> keyB b = keyA a) ->
  Forall2 R l l' -> ascending keyA l -> ascending keyB l'.
Proof.
  intros Hkey HF. unfold ascending.
  induction HF as [|a b l l' HR HF IH]; intros Hs; [constructor|].
  inversion Hs as [|? ? Hl Ha]; subst.
  constructor; [now apply IH|].
  apply Forall_forall. intros b' Hb'.
  destruct (Forall2_In_r _ _ _ b' HF Hb') as [a' [Ha' HR']].
  rewrite (Hkey _ _ HR), (Hkey _ _ HR').
  now apply (proj1 (Forall_forall _ _) Ha).
Qed.

(** X17.  The order list that the driver returns is in ascending
    [(TickTime, BizIndex)] order and holds exactly the Cancel records that
    the loop appended and the New records of the settlement, each as often
    as it was made; the rows reach the loop in ascending
    [(TickTime, BizIndex)] order. *)
Theorem X17_order_output_is_sorted (df : list Row) (security_id : string)
    (orders : list OrderRecord) (trades : list TradeRecord) :
  reconstruct_sh_tick_data df security_id = Ret (orders, trades) ->
  ascending row_key (preprocess df) /\
  ascending order_key orders /\
  exists st,
    process_rows security_id (preprocess df) init_state = Done st /\
    Permutation orders
      (st_order_list st ++ settled_records security_id (st_order_map st)).
Proof.
  unfold reconstruct_sh_tick_data.
  destruct (process_rows security_id (preprocess df) init_state) as [st|e st] eqn:Hrun;
    [|discriminate].
  unfold settle_orders.
  destruct (settle_items (st_order_map st) (st_order_list st) security_id)
    as [l|e l] eqn:Hsettle; [|discriminate].
  intros [= <- _]. apply settle_items_done in Hsettle. subst l.
  split; [apply sort_by_key_ascending|].
  split; [apply sort_by_key_ascending|].
  exists st. split; [reflexivity|apply sort_by_key_Permutation].
Qed.

Lemma X17_order_output_is_sorted_witness :
  ascending order_key
    (fst (match reconstruct_sh_tick_data scenario_D "600519" with
          | Ret p => p | Exc _ => ([], []) end)).
Proof.
  refine (proj1 (proj2 (X17_order_output_is_sorted scenario_D "600519" _ _ _))).
  vm_compute. reflexivity.
Defined.

(** X18.  The trade list that the driver returns is the list that the loop
    built: one record per Trade row that survives the filter, in ascending
    [(TickTime, BizIndex)] order of the rows.  The loop appends the records in that order already, so the
    final sort of the trade list changes nothing. *)
Theorem X18_trade_output_follows_the_rows (df : list Row) (security_id : string)
    (orders : list OrderRecord) (trades : list TradeRecord) :
  reconstruct_sh_tick_data df security_id = Ret (orders, trades) ->
  Forall2 (fun row r => is_trade_of row security_id r)
    (filter is_trade_row (preprocess df)) trades /\
  ascending trade_key trades /\
  exists st,
    process_rows security_id (preprocess df) init_state = Done st /\
    trades = st_trade_list st.
Proof.
  unfold reconstruct_sh_tick_data.
  destruct (process_rows security_id (preprocess df) init_state) as [st|e st] eqn:Hrun;
    [|discriminate].
  destruct (settle_orders (st_order_map st) (st_order_list st) security_id)
    as [[om ol]|e [om ol]]; [|discriminate].
  intros [= _ <-].
  destruct (process_rows_trade_records security_id _ init_state st Hrun)
    as [new [Hl HF]]. simpl in Hl. subst new.
  assert (Hasc : ascending trade_key (st_trade_list st)).
  { apply (ascending_Forall2 row_key trade_key _ _ _
             (fun row r (H : is_trade_of row security_id r) =>
                match H with
                | conj _ (conj Hb (conj Ht _)) =>
                    f_equal2 pair Ht Hb
                end) HF).
    apply ascending_filter. apply sort_by_key_ascending. }
  fold trade_key. rewrite (sort_by_key_ascending_id trade_key _ Hasc).
  split; [exact HF|]. split; [exact Hasc|]. eauto.
Qed.

Lemma X18_trade_output_follows_the_rows_witness :
  ascending trade_key
    (snd (match reconstruct_sh_tick_data scenario_B "600519" with
          | Ret p => p | Exc _ => ([], []) end)).
Proof.
  refine (proj1 (proj2 (X18_trade_output_follows_the_rows scenario_B "600519" _ _ _))).
  vm_compute. reflexivity.
Defined.

(** ** The continuity check *)

Lemma In_insert_Z (x y : Z) (l : list Z) :
  In x (insert_Z y l) <-> x = y \/ In x l.
Proof.
  induction l as [|z l IH]; simpl; [intuition|].
  destruct (y <=? z); simpl; intuition.
Qed.

Lemma In_sort_Z (x : Z) (l : list Z) : In x (sort_Z l) <-> In x l.
Proof.
  unfold sort_Z. induction l as [|y l IH]; simpl; [tauto|].
  rewrite In_insert_Z, IH. intuition.
Qed.

Lemma length_insert_Z (y : Z) (l : list Z) :
  List.length (insert_Z y l) = S (List.length l).
Proof.
  induction l as [|z l IH]; simpl; [reflexivity|].
  destruct (y <=? z); simpl; [reflexivity|now rewrite IH].
Qed.

Lemma length_sort_Z (l : list Z) : List.length (sort_Z l) = List.length l.
Proof.
  unfold sort_Z. induction l as [|y l IH]; simpl; [reflexivity|].
  now rewrite length_insert_Z, IH.
Qed.

Lemma insert_Z_sorted (y : Z) (l : list Z) :
  StronglySorted Z.le l -> StronglySorted Z.le (insert_Z y l).
Proof.
  induction 1 as [|z l Hl IH Hz]; simpl; [repeat constructor|].
  destruct (y <=? z) eqn:E.
  - apply Z.leb_le in E. constructor; [now constructor|].
    constructor; [exact E|].
    eapply Forall_impl; [|exact Hz]. intros w Hw. simpl in Hw. lia.
  - apply Z.leb_gt in E. constructor; [exact IH|].
    apply Forall_forall. intros w Hw. apply In_insert_Z in Hw.
    destruct Hw as [->|Hw]; [lia|].
    now apply (proj1 (Forall_forall _ _) Hz).
Qed.

Lemma sort_Z_sorted (l : list Z) : StronglySorted Z.le (sort_Z l).
Proof.
  unfold sort_Z. induction l as [|y l IH]; simpl; [constructor|].
  now apply insert_Z_sorted.
Qed.

(** The first and the last element of a sorted list bound the others. *)
Lemma sorted_hd_last (l : list Z) :
  StronglySorted Z.le l -> l <> [] ->
  In (hd 0 l) l /\ In (last l 0) l /\
  forall x, In x l -> hd 0 l <= x <= last l 0.
Proof.
  induction 1 as [|y l Hl IH Hy]; [congruence|]. intros _.
  destruct l as [|z l].
  - simpl. split; [auto|]. split; [auto|]. intros x [<-|[]]. lia.
  - destruct (IH ltac:(discriminate)) as [Hh [Hla Hb]].
    change (last (y :: z :: l) 0) with (last (z :: l) 0).
    change (hd 0 (y :: z :: l)) with y.
    pose proof (proj1 (Forall_forall _ _) Hy) as Hy'.
    split; [now left|]. split; [now right|].
    intros x [<-|Hx].
    + split; [lia|]. now apply Hy'.
    + specialize (Hb x Hx). specialize (Hy' (hd 0 (z :: l)) Hh). lia.
Qed.

Lemma In_range (lo hi x : Z) : In x (range lo hi) <-> lo <= x < hi.
Proof.
  unfold range. rewrite in_map_iff. split.
  - intros [n [<- Hn]]. apply in_seq in Hn. lia.
  - intros H. exists (Z.to_nat (x - lo)). split; [lia|].
    apply in_seq. lia.
Qed.

Lemma NoDup_range (lo hi : Z) : NoDup (range lo hi).
Proof.
  unfold range. apply Finite.Injective_map_NoDup; [|apply seq_NoDup].
  intros a b H. lia.
Qed.

Lemma length_range (lo hi : Z) : lo <= hi ->
  Z.of_nat (List.length (range lo hi)) = hi - lo.
Proof. intros H. unfold range. rewrite length_map, length_seq. lia. Qed.

Lemma existsb_Z_In (x : Z) (l : list Z) :
  existsb (Z.eqb x) l = true <-> In x l.
Proof.
  rewrite existsb_exists. split.
  - intros [y [Hy E]]. apply Z.eqb_eq in E. now subst.
  - intros H. exists x. split; [exact H|apply Z.eqb_refl].
Qed.

(** The loop collects the first ten missing values. *)
Lemma find_gaps_firstn (biz_set : list Z) (candidates : list Z) :
  forall acc,
    (List.length acc < 10)%nat ->
    find_gaps biz_set candidates acc =
    acc ++ firstn (10 - List.length acc)
             (filter (fun i => negb (existsb (Z.eqb i) biz_set)) candidates).
Proof.
  induction candidates as [|i rest IH]; intros acc Hacc.
  - cbn [find_gaps filter]. now rewrite firstn_nil, app_nil_r.
  - cbn [find_gaps filter].
    destruct (existsb (Z.eqb i) biz_set); cbn [negb]; [now apply IH|].
    assert (Hlen : List.length (acc ++ [i]) = S (List.length acc))
      by (rewrite length_app; simpl; lia).
    destruct (10 - List.length acc)%nat as [|n] eqn:D; [lia|].
    cbn [firstn].
    destruct (10 <=? List.length (acc ++ [i]))%nat eqn:E.
    + apply Nat.leb_le in E. assert (n = 0%nat) by lia. subst n.
      now rewrite firstn_O.
    + apply Nat.leb_gt in E. rewrite IH by lia.
      replace (10 - List.length (acc ++ [i]))%nat with n by lia.
      now rewrite <- app_assoc.
Qed.

(** Counting: the values of the column and the missing ones fill the range. *)
Lemma present_plus_missing (column : list Z) (lo hi : Z) :
  column <> [] ->
  (forall x, In x column -> lo <= x <= hi) ->
  Z.of_nat (List.length (nodup Z.eq_dec column))
  + Z.of_nat (List.length (missing_between column lo hi))
  = hi - lo + 1.
Proof.
  intros Hne Hb.
  assert (Hlh : lo <= hi).
  { destruct column as [|x c]; [congruence|].
    specialize (Hb x (or_introl eq_refl)). lia. }
  unfold missing_between.
  assert (Hsplit : forall l,
             (List.length (filter (fun i => existsb (Z.eqb i) column) l)
              + List.length (filter (fun i => negb (existsb (Z.eqb i) column)) l)
              = List.length l)%nat).
  { induction l as [|x l IH]; cbn [filter]; [reflexivity|].
    destruct (existsb (Z.eqb x) column); cbn [negb List.length]; lia. }
  specialize (Hsplit (range lo (hi + 1))).
  assert (Hperm : Permutation (nodup Z.eq_dec column)
                    (filter (fun i => existsb (Z.eqb i) column) (range lo (hi + 1)))).
  { apply NoDup_Permutation.
    - apply NoDup_nodup.
    - apply NoDup_filter, NoDup_range.
    - intros x. rewrite nodup_In, filter_In, In_range.
      rewrite existsb_Z_In. split; [|tauto].
      intros Hx. split; [|exact Hx]. specialize (Hb x Hx). lia. }
  apply Permutation_length in Hperm.
  pose proof (length_range lo (hi + 1) ltac:(lia)) as Hlen.
  lia.
Qed.

Lemma nodup_length_le (l : list Z) :
  (List.length (nodup Z.eq_dec l) <= List.length l)%nat.
Proof.
  apply NoDup_incl_length; [apply NoDup_nodup|].
  intros x Hx. now apply nodup_In in Hx.
Qed.

Lemma missing_between_sorted_set (column : list Z) (lo hi : Z) :
  filter (fun i => negb (existsb (Z.eqb i) (sort_Z column))) (range lo (hi + 1))
  = missing_between column lo hi.
Proof.
  unfold missing_between. apply filter_ext. intros i. f_equal.
  destruct (existsb (Z.eqb i) column) eqn:E.
  - apply existsb_Z_In. apply In_sort_Z. now apply (proj1 (existsb_Z_In _ _)).
  - destruct (existsb (Z.eqb i) (sort_Z column)) eqn:E'; [|reflexivity].
    apply (proj1 (existsb_Z_In _ _)) in E'. apply (proj1 (In_sort_Z _ _)) in E'.
    apply (proj2 (existsb_Z_In _ _)) in E'. congruence.
Qed.

Lemma In_missing_between (column : list Z) (lo hi g : Z) :
  In g (missing_between column lo hi) <-> lo <= g <= hi /\ ~ In g column.
Proof.
  unfold missing_between. rewrite filter_In, In_range, negb_true_iff. split.
  - intros [H1 H2]. split; [lia|]. intros Hin.
    apply existsb_Z_In in Hin. congruence.
  - intros [H1 H2]. split; [lia|].
    destruct (existsb (Z.eqb g) column) eqn:E; [|reflexivity].
    apply existsb_Z_In in E. contradiction.
Qed.

(** What the check returns for a column that is not empty. *)
Lemma check_bizindex_continuity_fields (column : list Z) (r : Continuity) :
  column <> [] ->
  check_bizindex_continuity (Some column) = Ret r ->
  exists lo hi,
    min_bizindex r = Some lo /\ max_bizindex r = Some hi /\
    In lo column /\ In hi column /\
    (forall x, In x column -> lo <= x <= hi) /\
    total_records r = Z.of_nat (List.length column) /\
    expected_count r = hi - lo + 1 /\
    gap_count r
    = Z.of_nat (List.length (missing_between column lo hi))
      - Z.of_nat (repeats column) /\
    is_continuous r = (gap_count r =? 0) /\
    gaps r = if 0 <? gap_count r
             then firstn 10 (missing_between column lo hi) else [].
Proof.
  intros Hne. unfold check_bizindex_continuity.
  destruct (List.length column =? 0)%nat eqn:E.
  { apply Nat.eqb_eq in E. apply length_zero_iff_nil in E. contradiction. }
  cbv zeta. intros [= <-]. cbn [min_bizindex max_bizindex total_records
    expected_count gap_count is_continuous gaps].
  assert (Hne' : sort_Z column <> []).
  { intros H0. apply (f_equal (@List.length Z)) in H0.
    rewrite length_sort_Z in H0. simpl in H0.
    apply length_zero_iff_nil in H0. contradiction. }
  destruct (sorted_hd_last (sort_Z column) (sort_Z_sorted column) Hne')
    as [Hh [Hl Hb]].
  set (lo := hd 0 (sort_Z column)) in *.
  set (hi := last (sort_Z column) 0) in *.
  assert (Hb' : forall x, In x column -> lo <= x <= hi).
  { intros x Hx. apply Hb. now apply In_sort_Z. }
  exists lo, hi.
  pose proof (present_plus_missing column lo hi Hne Hb') as Hcount.
  pose proof (nodup_length_le column) as Hnd.
  assert (Hgap : hi - lo + 1 - Z.of_nat (List.length (sort_Z column))
                 = Z.of_nat (List.length (missing_between column lo hi))
                   - Z.of_nat (repeats column)).
  { rewrite length_sort_Z. unfold repeats. lia. }
  repeat split; try reflexivity.
  - now apply In_sort_Z.
  - now apply In_sort_Z.
  - now apply Hb'.
  - now apply Hb'.
  - now rewrite length_sort_Z.
  - exact Hgap.
  - destruct (0 <? _); [|reflexivity].
    rewrite find_gaps_firstn by (simpl; lia).
    simpl. now rewrite missing_between_sorted_set.
Qed.

(** X19.  For a column that is not empty the check reports the least and the
    greatest value, and a gap count equal to the number of integers between
    them that the column does not hold, less the number of entries that
    repeat an earlier value.  When the values are distinct the count is the
    number of missing integers, and the column is reported continuous exactly
    when every integer from the least to the greatest value occurs. *)
Theorem X19_gap_count_of_the_continuity_check (column : list Z) (r : Continuity) :
  column <> [] ->
  check_bizindex_continuity (Some column) = Ret r ->
  exists lo hi,
    min_bizindex r = Some lo /\ max_bizindex r = Some hi /\
    In lo column /\ In hi column /\
    (forall x, In x column -> lo <= x <= hi) /\
    total_records r = Z.of_nat (List.length column) /\
    gap_count r
    = Z.of_nat (List.length (missing_between column lo hi))
      - Z.of_nat (repeats column) /\
    (NoDup column ->
     gap_count r = Z.of_nat (List.length (missing_between column lo hi)) /\
     (is_continuous r = true <-> forall i, lo <= i <= hi -> In i column)).
Proof.
  intros Hne H.
  destruct (check_bizindex_continuity_fields column r Hne H)
    as [lo [hi [H1 [H2 [H3 [H4 [H5 [H6 [_ [H8 [H9 _]]]]]]]]]]].
  exists lo, hi. repeat (split; [assumption|]).
  intros Hnd.
  assert (Hrep : repeats column = 0%nat).
  { unfold repeats. rewrite (nodup_fixed_point Z.eq_dec Hnd). lia. }
  rewrite Hrep in H8. simpl in H8. rewrite Z.sub_0_r in H8.
  split; [exact H8|].
  rewrite H9, Z.eqb_eq, H8. split.
  - intros H0 i Hi.
    assert (Hnil : missing_between column lo hi = []).
    { apply length_zero_iff_nil. lia. }
    destruct (in_dec Z.eq_dec i column) as [Hin|Hnot]; [exact Hin|].
    exfalso. assert (Hm : In i (missing_between column lo hi))
      by (apply In_missing_between; auto).
    now rewrite Hnil in Hm.
  - intros Hall.
    destruct (missing_between column lo hi) as [|g rest] eqn:E; [reflexivity|].
    exfalso. assert (Hg : In g (missing_between column lo hi))
      by (rewrite E; now left).
    apply In_missing_between in Hg. destruct Hg as [Hg1 Hg2]. auto.
Qed.

Lemma X19_gap_count_of_the_continuity_check_witness :
  exists lo hi,
    Some 100 = Some lo /\ Some 104 = Some hi /\
    In lo [100; 101; 104; 102] /\ In hi [100; 101; 104; 102] /\
    (forall x, In x [100; 101; 104; 102] -> lo <= x <= hi) /\
    4 = Z.of_nat (List.length [100; 101; 104; 102]) /\
    1 = Z.of_nat (List.length (missing_between [100; 101; 104; 102] lo hi))
        - Z.of_nat (repeats [100; 101; 104; 102]) /\
    (NoDup [100; 101; 104; 102] ->
     1 = Z.of_nat (List.length (missing_between [100; 101; 104; 102] lo hi)) /\
     (false = true <-> forall i, lo <= i <= hi -> In i [100; 101; 104; 102])).
Proof.
  apply (X19_gap_count_of_the_continuity_check [100; 101; 104; 102]
           {| is_continuous := false; total_records := 4;
              min_bizindex := Some 100; max_bizindex := Some 104;
              expected_count := 5; gap_count := 1; gaps := [103] |}).
  - discriminate.
  - reflexivity.
Defined.

Lemma firstn_In_full {A : Type} (n : nat) (l : list A) (x : A) :
  In x (firstn n l) -> In x l.
Proof.
  revert l. induction n as [|n IH]; intros l; simpl; [tauto|].
  destruct l as [|y l]; simpl; [tauto|]. intros [H|H]; auto.
Qed.

(** X20.  The reported gaps are the first ten missing integers when the gap
    count is positive and none otherwise: each reported gap lies strictly
    between the least and the greatest value and is not in the column, and
    at most ten are reported.  The gap count is positive only when more
    integers are missing than entries repeat, so a column whose repeats are
    as many as its missing integers is reported continuous with no gap.  A
    frame with no rows is reported continuous, and a frame without the
    column raises [ValueError]. *)
Theorem X20_reported_gaps (column : list Z) (r : Continuity) :
  column <> [] ->
  check_bizindex_continuity (Some column) = Ret r ->
  (exists lo hi,
     min_bizindex r = Some lo /\ max_bizindex r = Some hi /\
     gaps r = (if 0 <? gap_count r
               then firstn 10 (missing_between column lo hi) else []) /\
     (forall g, In g (gaps r) -> lo < g < hi /\ ~ In g column) /\
     (List.length (missing_between column lo hi) = repeats column ->
      is_continuous r = true /\ gaps r = [])) /\
  (List.length (gaps r) <= 10)%nat /\
  check_bizindex_continuity (Some [])
  = Ret {| is_continuous := true; total_records := 0;
           min_bizindex := None; max_bizindex := None;
           expected_count := 0; gap_count := 0; gaps := [] |} /\
  check_bizindex_continuity None = Exc ValueError.
Proof.
  intros Hne H.
  destruct (check_bizindex_continuity_fields column r Hne H)
    as [lo [hi [H1 [H2 [H3 [H4 [H5 [H6 [_ [H8 [H9 H10]]]]]]]]]]].
  split; [|split; [|split; reflexivity]].
  - exists lo, hi. split; [exact H1|]. split; [exact H2|]. split; [exact H10|].
    split.
    + intros g Hg. rewrite H10 in Hg.
      destruct (0 <? gap_count r); [|destruct Hg].
      apply firstn_In_full in Hg. apply In_missing_between in Hg.
      destruct Hg as [Hg1 Hg2]. split; [|exact Hg2].
      assert (g <> lo) by (intros ->; contradiction).
      assert (g <> hi) by (intros ->; contradiction). lia.
    + intros Heq. rewrite H9, H10, H8, Heq, Z.sub_diag. split; reflexivity.
  - rewrite H10. destruct (0 <? gap_count r); [apply firstn_le_length|simpl; lia].
Qed.

Lemma X20_reported_gaps_witness :
  exists lo hi,
    Some 1 = Some lo /\ Some 3 = Some hi /\
    @nil Z = (if 0 <? 0 then firstn 10 (missing_between [1; 1; 3] lo hi) else []) /\
    (forall g, In g (@nil Z) -> lo < g < hi /\ ~ In g [1; 1; 3]) /\
    (List.length (missing_between [1; 1; 3] lo hi) = repeats [1; 1; 3] ->
     true = true /\ @nil Z = []).
Proof.
  apply (proj1 (X20_reported_gaps [1; 1; 3]
           {| is_continuous := true; total_records := 3;
              min_bizindex := Some 1; max_bizindex := Some 3;
              expected_count := 3; gap_count := 0; gaps := [] |}
           ltac:(discriminate) eq_refl)).
Defined.

(** ** The daily loop, security by security *)

Lemma daily_loop_done (df : list Row) (cb : bool) (total : Z) (ids : list string) :
  forall (i : Z) (b b' : Batch),
    daily_loop df cb total i ids b = Done b' ->
    all_orders b' = all_orders b ++ flat_map (orders_of df) ids /\
    all_trades b' = all_trades b ++ flat_map (trades_of df) ids /\
    forall s, In s ids ->
      exists orders trades,
        reconstruct_sh_tick_data (group_of df s) s = Ret (orders, trades).
Proof.
  induction ids as [|s ids IH]; simpl; intros i b b' H.
  - injection H as <-. rewrite !app_nil_r. repeat split. intros ? [].
  - fold (group_of df s) in H. unfold orders_of, trades_of.
    destruct (reconstruct_sh_tick_data (group_of df s) s) as [[orders trades]|e]
      eqn:E; [|discriminate].
    destruct (IH _ _ _ H) as [Ho [Ht Hall]]. simpl in Ho, Ht.
    rewrite Ho, Ht, <- !app_assoc. repeat split.
    intros s' [<-|Hs']; [eauto|now apply Hall].
Qed.

Lemma orders_of_security (df : list Row) (s : string) (r : OrderRecord) :
  In r (orders_of df s) -> or_SecurityID r = s.
Proof.
  unfold orders_of.
  destruct (reconstruct_sh_tick_data (group_of df s) s) as [[orders trades]|e] eqn:E;
    [|intros []].
  intros Hr. now apply (proj1 (driver_records _ s orders trades E)).
Qed.

Lemma trades_of_security (df : list Row) (s : string) (r : TradeRecord) :
  In r (trades_of df s) -> tr_SecurityID r = s.
Proof.
  unfold trades_of.
  destruct (reconstruct_sh_tick_data (group_of df s) s) as [[orders trades]|e] eqn:E;
    [|intros []].
  intros Hr. now apply (proj2 (driver_records _ s orders trades E)).
Qed.

(** The records of one security among those of a list of distinct
    securities. *)
Lemma filter_flat_map_security {A : Type} (sec : A -> string)
    (f : string -> list A) (ids : list string) (s : string) :
  (forall s' r, In r (f s') -> sec r = s') ->
  NoDup ids -> In s ids ->
  filter (fun r => (sec r =? s)%string) (flat_map f ids) = f s.
Proof.
  intros Hsec. induction ids as [|s0 ids IH]; simpl; [tauto|].
  intros Hnd Hin. inversion Hnd as [|? ? Hnot Hnd']; subst.
  rewrite filter_app.
  assert (Hout : forall ids', ~ In s ids' ->
                   filter (fun r => (sec r =? s)%string) (flat_map f ids') = []).
  { intros ids' Hn. apply filter_none. intros r Hr.
    apply in_flat_map in Hr. destruct Hr as [s' [Hs' Hr]].
    apply String.eqb_neq. rewrite (Hsec s' r Hr). intros ->. contradiction. }
  destruct Hin as [->|Hin].
  - rewrite (Hout ids Hnot), app_nil_r. apply filter_all.
    intros r Hr. apply String.eqb_eq. now apply Hsec.
  - rewrite (IH Hnd' Hin).
    rewrite filter_none; [reflexivity|].
    intros r Hr. apply String.eqb_neq. rewrite (Hsec s0 r Hr).
    intros ->. contradiction.
Qed.

(** X21.  Securities do not mix in the daily loop.  When it returns, every
    security of the frame has been reconstructed from its own rows alone,
    the accumulated lists are the per-security outputs in ascending order of
    the security, and the records that name a security in the accumulated
    lists are exactly the output of the driver for that security's rows;
    every accumulated record names a security of the frame.  The lists do
    not depend on whether an observer is given. *)
Theorem X21_securities_are_independent (df : list Row) (progress_callback : bool)
    (b : Batch) :
  process_daily_data df progress_callback = Done b ->
  all_orders b = flat_map (orders_of df) (security_ids_of df) /\
  all_trades b = flat_map (trades_of df) (security_ids_of df) /\
  (forall s, In s (security_ids_of df) ->
     exists orders trades,
       reconstruct_sh_tick_data (group_of df s) s = Ret (orders, trades) /\
       filter (fun r => (or_SecurityID r =? s)%string) (all_orders b) = orders /\
       filter (fun r => (tr_SecurityID r =? s)%string) (all_trades b) = trades) /\
  (forall r, In r (all_orders b) -> In (or_SecurityID r) (security_ids_of df)) /\
  (forall r, In r (all_trades b) -> In (tr_SecurityID r) (security_ids_of df)) /\
  (forall b', process_daily_data df (negb progress_callback) = Done b' ->
     all_orders b' = all_orders b /\ all_trades b' = all_trades b).
Proof.
  intros H. unfold process_daily_data in H.
  destruct (daily_loop_done _ _ _ _ _ _ _ H) as [Ho [Ht Hall]].
  simpl in Ho, Ht.
  destruct (security_ids_of_spec df) as [Hnd _].
  split; [exact Ho|]. split; [exact Ht|].
  split; [|split; [|split]].
  - intros s Hs. destruct (Hall s Hs) as [orders [trades E]].
    exists orders, trades. split; [exact E|].
    rewrite Ho, Ht.
    rewrite (filter_flat_map_security or_SecurityID (orders_of df) _ s
               (orders_of_security df) Hnd Hs).
    rewrite (filter_flat_map_security tr_SecurityID (trades_of df) _ s
               (trades_of_security df) Hnd Hs).
    unfold orders_of, trades_of. rewrite E. auto.
  - intros r Hr. rewrite Ho in Hr. apply in_flat_map in Hr.
    destruct Hr as [s [Hs Hr]]. now rewrite (orders_of_security df s r Hr).
  - intros r Hr. rewrite Ht in Hr. apply in_flat_map in Hr.
    destruct Hr as [s [Hs Hr]]. now rewrite (trades_of_security df s r Hr).
  - intros b' H'. unfold process_daily_data in H'.
    destruct (daily_loop_done _ _ _ _ _ _ _ H') as [Ho' [Ht' _]].
    simpl in Ho', Ht'. split; congruence.
Qed.

Lemma X21_securities_are_independent_witness :
  all_orders (state_of (process_daily_data scenario_D true))
  = flat_map (orders_of scenario_D) (security_ids_of scenario_D).
Proof.
  refine (proj1 (X21_securities_are_independent scenario_D true _ _)).
  vm_compute. reflexivity.
Defined.

(** ** The input columns *)

Lemma existsb_string_In (c : string) (l : list string) :
  existsb (String.eqb c) l = true <-> In c l.
Proof.
  rewrite existsb_exists. split.
  - intros [y [Hy E]]. apply String.eqb_eq in E. now subst.
  - intros H. exists c. split; [exact H|apply String.eqb_refl].
Qed.

Lemma validate_input_df_accepts (columns : list string) :
  validate_input_df columns = Ret true <->
  forall c, In c required_columns -> In c columns.
Proof.
  unfold validate_input_df.
  destruct (filter (fun col => negb (existsb (String.eqb col) columns))
              required_columns) as [|c rest] eqn:E.
  - split; [|reflexivity]. intros _ c Hc.
    destruct (existsb (String.eqb c) columns) eqn:Ec;
      [now apply existsb_string_In|].
    assert (Hin : In c (filter (fun col => negb (existsb (String.eqb col) columns))
                          required_columns))
      by (apply filter_In; split; [exact Hc|now rewrite Ec]).
    rewrite E in Hin. destruct Hin.
  - split; [discriminate|]. intros Hall. exfalso.
    assert (Hin : In c (filter (fun col => negb (existsb (String.eqb col) columns))
                          required_columns)) by (rewrite E; now left).
    apply filter_In in Hin. destruct Hin as [Hc Hn].
    apply Hall in Hc. apply existsb_string_In in Hc. rewrite Hc in Hn. discriminate.
Qed.

(** X22.  [validate_input_df] never returns [False]: it returns [True]
    exactly when the frame has each of the ten columns [BizIndex],
    [TickTime], [Type], [BuyOrderNO], [SellOrderNO], [Price], [Qty],
    [TradeMoney], [TickBSFlag] and [SecurityID], in any order and among any
    other columns, and raises [ValueError] otherwise; a frame that passes
    still passes with columns added or reordered. *)
Theorem X22_validate_input_df_accepts (columns : list string) :
  (validate_input_df columns = Ret true <->
   In "BizIndex" columns /\ In "TickTime" columns /\ In "Type" columns /\
   In "BuyOrderNO" columns /\ In "SellOrderNO" columns /\ In "Price" columns /\
   In "Qty" columns /\ In "TradeMoney" columns /\ In "TickBSFlag" columns /\
   In "SecurityID" columns) /\
  (validate_input_df columns = Ret true \/
   validate_input_df columns = Exc ValueError) /\
  (forall columns',
     (forall c, In c columns -> In c columns') ->
     validate_input_df columns = Ret true ->
     validate_input_df columns' = Ret true).
Proof.
  split; [|split].
  - rewrite validate_input_df_accepts. unfold required_columns. split.
    + intros H. repeat split; apply H; simpl; tauto.
    + intros H c Hc. simpl in Hc.
      repeat (destruct Hc as [<-|Hc]; [tauto|]). destruct Hc.
  - unfold validate_input_df. destruct (filter _ required_columns); auto.
  - intros columns' Hincl. rewrite !validate_input_df_accepts. auto.
Qed.

Lemma X22_validate_input_df_accepts_witness :
  validate_input_df
    ("Channel" :: "SecurityID" :: "TickBSFlag" :: "TradeMoney" :: "Qty" :: "Price"
     :: "SellOrderNO" :: "BuyOrderNO" :: "Type" :: "TickTime" :: "BizIndex" :: [])
  = Ret true.
Proof.
  apply (proj2 (proj2 (X22_validate_input_df_accepts required_columns))).
  - intros c Hc. simpl in Hc. simpl.
    repeat (destruct Hc as [<-|Hc]; [tauto|]). destruct Hc.
  - reflexivity.
Defined.

(** ** A security that fails *)

Lemma daily_loop_raised (df : list Row) (cb : bool) (total : Z) (ids : list string) :
  forall (i : Z) (b b' : Batch) (e : exn),
    daily_loop df cb total i ids b = Raised e b' ->
    exists before s after,
      ids = before ++ s :: after /\
      reconstruct_sh_tick_data (group_of df s) s = Exc e /\
      (forall s', In s' before ->
         exists orders trades,
           reconstruct_sh_tick_data (group_of df s') s' = Ret (orders, trades)) /\
      all_orders b' = all_orders b ++ flat_map (orders_of df) before /\
      all_trades b' = all_trades b ++ flat_map (trades_of df) before.
Proof.
  induction ids as [|s ids IH]; simpl; intros i b b' e H; [discriminate|].
  fold (group_of df s) in H.
  destruct (reconstruct_sh_tick_data (group_of df s) s) as [[orders trades]|e0]
    eqn:E.
  - destruct (IH _ _ _ _ H) as [before [s1 [after [-> [E1 [Hb [Ho Ht]]]]]]].
    exists (s :: before), s1, after. simpl in Ho, Ht.
    split; [reflexivity|]. split; [exact E1|]. split.
    + intros s' [<-|Hs']; [eauto|now apply Hb].
    + simpl. unfold orders_of at 1, trades_of at 1. rewrite E.
      rewrite Ho, Ht, <- !app_assoc. auto.
  - injection H as <- <-. exists [], s, ids. simpl.
    rewrite !app_nil_r. repeat split; auto. intros ? [].
Qed.

Lemma daily_loop_total (df : list Row) (cb : bool) (total : Z) (ids : list string) :
  (forall s, In s ids ->
     exists orders trades,
       reconstruct_sh_tick_data (group_of df s) s = Ret (orders, trades)) ->
  forall (i : Z) (b : Batch), exists b', daily_loop df cb total i ids b = Done b'.
Proof.
  induction ids as [|s ids IH]; simpl; intros Hall i b; [eauto|].
  fold (group_of df s).
  destruct (Hall s (or_introl eq_refl)) as [orders [trades E]]. rewrite E.
  apply IH. intros s' Hs'. apply Hall. now right.
Qed.

(** X23.  The daily loop stops at the first security whose reconstruction
    raises and passes the same exception on: the securities before it, in
    ascending order, have been reconstructed and only their records are
    accumulated, the securities after it are not touched.  When every row
    of the frame that survives the filter has a quantity that is not
    negative and a price that is a number, the loop returns. *)
Theorem X23_first_failing_security_ends_the_day (df : list Row)
    (progress_callback : bool) :
  (forall e b,
     process_daily_data df progress_callback = Raised e b ->
     exists before s after,
       security_ids_of df = before ++ s :: after /\
       reconstruct_sh_tick_data (group_of df s) s = Exc e /\
       (forall s', In s' before ->
          exists orders trades,
            reconstruct_sh_tick_data (group_of df s') s' = Ret (orders, trades)) /\
       all_orders b = flat_map (orders_of df) before /\
       all_trades b = flat_map (trades_of df) before) /\
  ((forall row, In row df -> keep_row row = true -> well_formed_row row) ->
   exists b, process_daily_data df progress_callback = Done b).
Proof.
  split.
  - intros e b H. unfold process_daily_data in H.
    destruct (daily_loop_raised _ _ _ _ _ _ _ _ H)
      as [before [s [after [Hids [E [Hb [Ho Ht]]]]]]].
    exists before, s, after. simpl in Ho, Ht. auto.
  - intros Hwf. unfold process_daily_data. apply daily_loop_total.
    intros s _. apply driver_returns_on_kept_rows.
    intros row Hin. apply filter_In in Hin. now apply Hwf.
Qed.

Lemma X23_first_failing_security_ends_the_day_witness :
  exists b, process_daily_data scenario_D true = Done b.
Proof.
  apply (proj2 (X23_first_failing_security_ends_the_day scenario_D true)).
  intros row [<-|[<-|[]]] _; split; simpl; try lia; discriminate.
Defined.

(** ** The order of the accumulated lists *)

Lemma ascii_compare_refl (a : Ascii.ascii) : Ascii.compare a a = Eq.
Proof. apply N.compare_refl. Qed.

Lemma ascii_compare_lt_trans (a b c : Ascii.ascii) :
  Ascii.compare a b = Lt -> Ascii.compare b c = Lt -> Ascii.compare a c = Lt.
Proof.
  unfold Ascii.compare. rewrite !N.compare_lt_iff. apply N.lt_trans.
Qed.

Lemma string_compare_refl (s : string) : String.compare s s = Eq.
Proof.
  induction s as [|a s IH]; simpl; [reflexivity|].
  now rewrite ascii_compare_refl.
Qed.

Lemma string_compare_lt_trans (s1 : string) :
  forall s2 s3,
    String.compare s1 s2 = Lt -> String.compare s2 s3 = Lt ->
    String.compare s1 s3 = Lt.
Proof.
  induction s1 as [|a s1 IH]; intros [|b s2] [|c s3]; simpl; try discriminate;
    try reflexivity.
  destruct (Ascii.compare a b) eqn:Eab; try discriminate;
    destruct (Ascii.compare b c) eqn:Ebc; try discriminate; intros H1 H2.
  - apply Ascii.compare_eq_iff in Eab, Ebc. subst.
    rewrite ascii_compare_refl. now apply (IH s2).
  - apply Ascii.compare_eq_iff in Eab. subst. now rewrite Ebc.
  - apply Ascii.compare_eq_iff in Ebc. subst. now rewrite Eab.
  - now rewrite (ascii_compare_lt_trans a b c Eab Ebc).
Qed.

Lemma string_leb_cases (s1 s2 : string) :
  String.leb s1 s2 = true <-> String.ltb s1 s2 = true \/ s1 = s2.
Proof.
  unfold String.leb, String.ltb.
  destruct (String.compare s1 s2) eqn:E; split; intros H; auto; try discriminate.
  - right. now apply String.compare_eq_iff.
  - destruct H as [H| ->]; [discriminate|].
    rewrite string_compare_refl in E. discriminate.
Qed.

Lemma string_ltb_trans (s1 s2 s3 : string) :
  String.ltb s1 s2 = true -> String.ltb s2 s3 = true -> String.ltb s1 s3 = true.
Proof.
  unfold String.ltb.
  destruct (String.compare s1 s2) eqn:E12; try discriminate.
  destruct (String.compare s2 s3) eqn:E23; try discriminate.
  now rewrite (string_compare_lt_trans s1 s2 s3 E12 E23).
Qed.

Lemma string_leb_trans (s1 s2 s3 : string) :
  String.leb s1 s2 = true -> String.leb s2 s3 = true -> String.leb s1 s3 = true.
Proof.
  rewrite !string_leb_cases.
  intros [H12| ->] [H23| ->]; auto.
  left. now apply (string_ltb_trans s1 s2 s3).
Qed.

Lemma insert_string_sorted (y : string) (l : list string) :
  StronglySorted (fun a b => String.leb a b = true) l ->
  StronglySorted (fun a b => String.leb a b = true) (insert_string y l).
Proof.
  induction 1 as [|z l Hl IH Hz]; simpl; [repeat constructor|].
  destruct (String.leb y z) eqn:E.
  - constructor; [now constructor|].
    constructor; [exact E|].
    eapply Forall_impl; [|exact Hz]. intros w Hw. simpl in Hw.
    now apply (string_leb_trans y z w).
  - constructor; [exact IH|].
    apply Forall_forall. intros w Hw. apply In_insert_string in Hw.
    destruct Hw as [->|Hw].
    + destruct (String.leb_total y z) as [H|H]; [congruence|exact H].
    + now apply (proj1 (Forall_forall _ _) Hz).
Qed.

(** The securities are visited in strictly ascending order. *)
Lemma security_ids_of_strictly_sorted (df : list Row) :
  StronglySorted (fun a b => String.ltb a b = true) (security_ids_of df).
Proof.
  destruct (security_ids_of_spec df) as [Hnd _].
  assert (Hs : StronglySorted (fun a b => String.leb a b = true) (security_ids_of df)).
  { unfold security_ids_of, sort_strings.
    induction (nodup string_dec (map SecurityID df)) as [|y l IH]; simpl;
      [constructor|]. now apply insert_string_sorted. }
  revert Hnd. induction Hs as [|a l Hl IH Ha]; intros Hnd; [constructor|].
  inversion Hnd as [|? ? Hnot Hnd']; subst.
  constructor; [now apply IH|].
  apply Forall_forall. intros b Hb.
  pose proof (proj1 (Forall_forall _ _) Ha b Hb) as Hab.
  apply string_leb_cases in Hab. destruct Hab as [Hab| ->]; [exact Hab|].
  contradiction.
Qed.

Lemma StronglySorted_app {A : Type} (R : A -> A -> Prop) (l1 l2 : list A) :
  StronglySorted R l1 -> StronglySorted R l2 ->
  (forall a b, In a l1 -> In b l2 -> R a b) ->
  StronglySorted R (l1 ++ l2).
Proof.
  induction 1 as [|x l1 Hl IH Hx]; simpl; intros H2 Hcross; [exact H2|].
  constructor.
  - apply IH; [exact H2|]. intros a b Ha Hb. apply Hcross; [now right|exact Hb].
  - apply Forall_app. split; [exact Hx|].
    apply Forall_forall. intros b Hb. apply Hcross; [now left|exact Hb].
Qed.

(** Per-security lists in key order, put together in strictly ascending
    order of the security, are in the global order. *)
Lemma flat_map_globally_sorted {A : Type} (sec : A -> string) (key : A -> Z * Z)
    (f : string -> list A) (ids : list string) :
  (forall s r, In r (f s) -> sec r = s) ->
  (forall s, ascending key (f s)) ->
  StronglySorted (fun a b => String.ltb a b = true) ids ->
  StronglySorted (fun a b => global_le (sec a) (key a) (sec b) (key b) = true)
    (flat_map f ids).
Proof.
  intros Hsec Hasc. induction 1 as [|s ids Hs IH Hlt]; simpl; [constructor|].
  apply StronglySorted_app; [|exact IH|].
  - specialize (Hasc s). unfold ascending in Hasc.
    assert (Hin : forall r, In r (f s) -> sec r = s) by (intros r; apply Hsec).
    revert Hin. induction Hasc as [|x l Hl IHl Hx]; intros Hin; [constructor|].
    constructor; [apply IHl; intros r Hr; apply Hin; now right|].
    apply Forall_forall. intros y Hy. unfold global_le.
    rewrite (Hin x (or_introl eq_refl)), (Hin y (or_intror Hy)).
    rewrite String.eqb_refl, (proj1 (Forall_forall _ _) Hx y Hy).
    apply orb_true_r.
  - intros a b Ha Hb. apply in_flat_map in Hb. destruct Hb as [s' [Hs' Hb]].
    unfold global_le. rewrite (Hsec s a Ha), (Hsec s' b Hb).
    now rewrite (proj1 (Forall_forall _ _) Hlt s' Hs').
Qed.

Lemma orders_of_ascending (df : list Row) (s : string) :
  ascending order_key (orders_of df s).
Proof.
  unfold orders_of, reconstruct_sh_tick_data.
  destruct (process_rows s (preprocess (group_of df s)) init_state) as [st|e st];
    [|constructor].
  destruct (settle_orders (st_order_map st) (st_order_list st) s)
    as [[om ol]|e [om ol]]; [|constructor].
  apply sort_by_key_ascending.
Qed.

Lemma trades_of_ascending (df : list Row) (s : string) :
  ascending trade_key (trades_of df s).
Proof.
  unfold trades_of, reconstruct_sh_tick_data.
  destruct (process_rows s (preprocess (group_of df s)) init_state) as [st|e st];
    [|constructor].
  destruct (settle_orders (st_order_map st) (st_order_list st) s)
    as [[om ol]|e [om ol]]; [|constructor].
  apply sort_by_key_ascending.
Qed.

(** X24.  The securities are visited in strictly ascending order, and when
    the daily loop returns, the two accumulated lists are already in
    ascending [(SecurityID, TickTime, BizIndex)] order: the order that the
    sort of Step 3 and the writers ask for. *)
Theorem X24_accumulated_lists_are_globally_sorted (df : list Row)
    (progress_callback : bool) (b : Batch) :
  process_daily_data df progress_callback = Done b ->
  StronglySorted (fun a b => String.ltb a b = true) (security_ids_of df) /\
  orders_globally_ascending (all_orders b) /\
  trades_globally_ascending (all_trades b).
Proof.
  intros H. unfold process_daily_data in H.
  destruct (daily_loop_done _ _ _ _ _ _ _ H) as [Ho [Ht _]]. simpl in Ho, Ht.
  pose proof (security_ids_of_strictly_sorted df) as Hs.
  split; [exact Hs|]. split.
  - unfold orders_globally_ascending. rewrite Ho.
    apply flat_map_globally_sorted;
      [apply orders_of_security|apply orders_of_ascending|exact Hs].
  - unfold trades_globally_ascending. rewrite Ht.
    apply flat_map_globally_sorted;
      [apply trades_of_security|apply trades_of_ascending|exact Hs].
Qed.

Lemma X24_accumulated_lists_are_globally_sorted_witness :
  orders_globally_ascending
    (all_orders (state_of (process_daily_data two_securities false))).
Proof.
  refine (proj1 (proj2 (X24_accumulated_lists_are_globally_sorted two_securities
                          false _ _))).
  vm_compute. reflexivity.
Defined.

(** ** The price of a cancellation along the run *)

Lemma first_ref_None_ctx_after (k : Z) (rows : list Row) :
  first_ref k rows = None -> ctx_after k rows None = None.
Proof.
  unfold first_ref.
  induction rows as [|row rows IH]; [reflexivity|].
  rewrite ctx_after_cons. cbn [find].
  destruct (refers_to k row); [discriminate|exact IH].
Qed.

(** X25.  The fallback levels along the run.  A Delete row without a
    positive price of its own, for an order number that no earlier row has
    brought into the cache, gets the price of the last earlier Trade row
    with a positive price, whichever order that trade belonged to, and 0.0
    when there is no such trade; when an earlier row has brought the number
    into the cache, the record gets that order's price instead. *)
Theorem X25_cancel_price_along_the_run (security_id : string)
    (before : list Row) (d : Row) (st : State) :
  process_rows security_id (before ++ [d]) init_state = Done st ->
  Type_ d = "D" -> raw_price_positive d = false ->
  exists st1 r,
    process_rows security_id before init_state = Done st1 /\
    st_order_list st = st_order_list st1 ++ [r] /\
    is_cancel_of d security_id r /\
    (first_ref (named_order_no d) before = None ->
     or_Price r = Some (st_last_price st1) /\
     ((forall row, In row before -> positive_trade row = false) ->
      or_Price r = Some 0%float) /\
     (forall b1 t b2 p,
        before = b1 ++ t :: b2 ->
        Type_ t = "T" -> Price t = Some p -> PrimFloat.ltb 0%float p = true ->
        (forall row, In row b2 -> positive_trade row = false) ->
        or_Price r = Some p)) /\
    (forall row0 ctx,
       first_ref (named_order_no d) before = Some row0 ->
       dict_get (named_order_no d) (st_order_map st1) = Some ctx ->
       get_price ctx = Ret (or_Price r)).
Proof.
  intros H HD Hraw. rewrite process_rows_app in H.
  destruct (process_rows security_id before init_state) as [st1|e st1] eqn:Hrun;
    [|discriminate].
  simpl in H.
  destruct (process_row security_id d st1) as [st2|e st2] eqn:E; [|discriminate].
  injection H as <-.
  unfold process_row in E. rewrite HD in E. simpl in E.
  rewrite process_delete_order_cases, Hraw in E.
  pose proof (process_rows_ctx_after security_id before (named_order_no d)
                init_state st1 Hrun) as Hctx. simpl in Hctx.
  destruct (dict_get (named_order_no d) (st_order_map st1)) as [ctx|] eqn:G.
  - destruct (get_price ctx) as [q|e] eqn:Q; [|discriminate].
    injection E as <-. simpl.
    eexists. eexists. split; [reflexivity|]. split; [reflexivity|].
    split; [unfold is_cancel_of; simpl; tauto|]. split.
    + intros Hnone. rewrite (first_ref_None_ctx_after _ _ Hnone) in Hctx.
      discriminate.
    + intros row0 ctx' _ Hc. rewrite G in Hc. injection Hc as <-. simpl. exact Q.
  - injection E as <-. simpl.
    eexists. eexists. split; [reflexivity|]. split; [reflexivity|].
    split; [unfold is_cancel_of; simpl; tauto|]. split.
    + intros _. simpl. split; [reflexivity|]. split.
      * intros Hno.
        now rewrite (process_rows_last_price_kept security_id before
                       init_state st1 Hrun Hno).
      * intros b1 t b2 p -> HT Hp Hpos Hno. f_equal.
        rewrite process_rows_app in Hrun.
        destruct (process_rows security_id b1 init_state) as [sa|e sa];
          [|discriminate].
        simpl in Hrun.
        destruct (process_row security_id t sa) as [sb|e sb] eqn:Et;
          [|discriminate].
        destruct (process_row_lists_done _ _ _ _ Et) as [_ [_ Hlp]].
        unfold positive_trade, is_trade_row, raw_price_positive in Hlp.
        rewrite HT, Hp, Hpos in Hlp. simpl in Hlp.
        rewrite (process_rows_last_price_kept security_id b2 sb st1 Hrun Hno).
        exact Hlp.
    + intros row0 ctx _ Hc. rewrite G in Hc. discriminate.
Qed.

Lemma X25_cancel_price_along_the_run_witness :
  exists st1 r,
    process_rows "600519"
      [mkRow 100 93000100 "T" 1001 2001 (Some 50.5%float) 1000 (Some 50500%float)
         "B" "600519"] init_state = Done st1 /\
    st_order_list
      (state_of
         (process_rows "600519"
            ([mkRow 100 93000100 "T" 1001 2001 (Some 50.5%float) 1000
                (Some 50500%float) "B" "600519"]
             ++ [mkRow 101 93000200 "D" 0 7777 None 10 None "S" "600519"])
            init_state))
    = st_order_list st1 ++ [r] /\
    is_cancel_of (mkRow 101 93000200 "D" 0 7777 None 10 None "S" "600519")
      "600519" r.
Proof.
  destruct (X25_cancel_price_along_the_run "600519"
              [mkRow 100 93000100 "T" 1001 2001 (Some 50.5%float) 1000
                 (Some 50500%float) "B" "600519"]
              (mkRow 101 93000200 "D" 0 7777 None 10 None "S" "600519")
              _ eq_refl eq_refl eq_refl) as [st1 [r [H1 [H2 [H3 _]]]]].
  exists st1, r. auto.
Defined.

(** ** One New record per order *)

Lemma filter_filter_and {A : Type} (f g : A -> bool) (l : list A) :
  filter (fun x => f x && g x) l = filter g (filter f l).
Proof.
  induction l as [|x l IH]; simpl; [reflexivity|].
  destruct (f x); simpl; [destruct (g x)|]; now rewrite IH.
Qed.

(** X26.  End to end, the driver returns for every order number exactly one
    New record when the quantities of the surviving Trade and Add rows that
    resolve to the number sum to a positive value, carrying that sum as its
    quantity, and no New record otherwise; in particular none for a number
    that appears only as the passive side of trades or only in Delete
    rows. *)
Theorem X26_one_new_record_per_order (df : list Row) (security_id : string)
    (orders : list OrderRecord) (trades : list TradeRecord) (k : Z) :
  reconstruct_sh_tick_data df security_id = Ret (orders, trades) ->
  let new_of_k :=
    filter (fun r => (or_OrdType r =? "New")%string && (or_OrdID r =? k)) orders in
  (0 < sum_qty k (preprocess df) ->
   exists r, new_of_k = [r] /\ or_Qty r = sum_qty k (preprocess df)) /\
  (sum_qty k (preprocess df) <= 0 -> new_of_k = []) /\
  (first_ref k (preprocess df) = None -> new_of_k = []).
Proof.
  intros H. cbv zeta.
  unfold reconstruct_sh_tick_data in H.
  destruct (process_rows security_id (preprocess df) init_state) as [st|e st] eqn:Hrun;
    [|discriminate].
  unfold settle_orders in H.
  destruct (settle_items (st_order_map st) (st_order_list st) security_id)
    as [l|e l] eqn:Hsettle; [|discriminate].
  injection H as <- _.
  apply settle_items_done in Hsettle. subst l.
  pose proof (process_rows_NoDup security_id _ init_state st Hrun NoDup_init) as Hnd.
  pose proof (process_rows_fresh security_id _ init_state st k Hrun eq_refl) as Hfresh.
  set (f := fun r => (or_OrdType r =? "New")%string && (or_OrdID r =? k)).
  assert (Hunsorted :
            filter f (st_order_list st
                      ++ settled_records security_id (st_order_map st))
            = match dict_get k (st_order_map st) with
              | Some ctx =>
                  if trade_qty ctx + resting_qty ctx <=? 0 then []
                  else [settled_record security_id k ctx]
              | None => []
              end).
  { rewrite filter_app.
    rewrite (filter_none f (st_order_list st)).
    - simpl. unfold f. rewrite filter_filter_and.
      rewrite (filter_all _ (settled_records _ _)).
      + apply settled_records_of_key. exact Hnd.
      + intros r Hr. apply In_settled_records in Hr.
        destruct Hr as [k0 [c [_ [-> _]]]]. reflexivity.
    - intros r Hr. unfold f.
      assert (Hc : or_OrdType r = "Cancel").
      { apply (process_rows_order_list security_id (preprocess df) init_state);
          [intros ? []|]. rewrite Hrun. exact Hr. }
      now rewrite Hc. }
  (* the sort keeps the one record, if any *)
  assert (Hsorted :
            forall l : list OrderRecord,
              (List.length (filter f l) <= 1)%nat ->
              filter f (sort_by_key (fun x => (or_TickTime x, or_BizIndex x)) l)
              = filter f l).
  { intros l Hlen.
    pose proof (filter_sort_by_key_length
                  (fun x => (or_TickTime x, or_BizIndex x)) f l) as Hl.
    destruct (filter f l) as [|r [|r' rest]] eqn:E; simpl in Hlen; try lia.
    - simpl in Hl. now apply length_zero_iff_nil.
    - destruct (filter f (sort_by_key _ l)) as [|r1 [|r2 rest]] eqn:E1;
        simpl in Hl; try lia.
      f_equal.
      assert (Hin : In r1 (filter f l)).
      { apply filter_In.
        assert (H1 : In r1 (filter f (sort_by_key
                     (fun x => (or_TickTime x, or_BizIndex x)) l)))
          by (rewrite E1; now left).
        apply filter_In in H1. destruct H1 as [H1 H2].
        split; [now apply In_sort_by_key in H1|exact H2]. }
      rewrite E in Hin. destruct Hin as [<-|[]]. reflexivity. }
  rewrite Hsorted; rewrite Hunsorted.
  2: { destruct (dict_get k (st_order_map st)) as [c|]; [|simpl; lia].
       destruct (_ <=? 0); simpl; lia. }
  destruct (first_ref k (preprocess df)) as [row0|] eqn:Hfirst.
  - destruct Hfresh as [c [Hget [_ [_ [_ [_ Htot]]]]]].
    rewrite Hget. unfold get_total_qty in Htot.
    split; [|split; [|discriminate]].
    + intros Hpos.
      destruct (trade_qty c + resting_qty c <=? 0) eqn:E;
        [apply Z.leb_le in E; lia|].
      eexists. split; [reflexivity|]. simpl. exact Htot.
    + intros Hle.
      destruct (trade_qty c + resting_qty c <=? 0) eqn:E;
        [reflexivity|apply Z.leb_gt in E; lia].
  - rewrite Hfresh. repeat split; try reflexivity.
    intros Hpos. exfalso.
    assert (Hz : forall rows, find (refers_to k) rows = None -> sum_qty k rows = 0).
    { induction rows as [|row rows IH]; simpl; [reflexivity|].
      destruct (refers_to k row); [discriminate|]. intros Hn. now rewrite IH. }
    unfold first_ref in Hfirst. rewrite (Hz _ Hfirst) in Hpos. lia.
Qed.

Lemma X26_one_new_record_per_order_witness :
  exists r,
    filter (fun r => (or_OrdType r =? "New")%string && (or_OrdID r =? 1002))
      (fst (match reconstruct_sh_tick_data scenario_B "600519" with
            | Ret p => p | Exc _ => ([], []) end)) = [r] /\
    or_Qty r = sum_qty 1002 (preprocess scenario_B).
Proof.
  refine (proj1 (X26_one_new_record_per_order scenario_B "600519" _ _ 1002 _) _).
  - vm_compute. reflexivity.
  - vm_compute. reflexivity.
Defined.
